(** * structd: reflective, tag-driven decoding of flat records

    A shallow embedding of package [structd] of canpacis/scanner
    ([Decoder.Decode], [parse], [DefaultCast] and the error types of
    [structd/error.go]) together with the parts of Go's [reflect],
    [strconv], [strings] and [fmt] that this code calls.

    Conventions.  A Go value is kept with its dynamic type; an interface
    value ([any]) is [None] for nil.  A pointer carries the variable it
    points to, and a call that writes through it returns the variable's
    new content next to its result.  A call either returns or panics
    ([outcome]).  Integers are in [Z], with the wrap-around of [uint64]
    and the conversions between integer types written out; texts are
    sequences of bytes ([string]).  The lookups of a source and the
    [UnmarshalString] methods of the program are functions: they
    return, and what they return depends on their arguments only.  The
    decoder runs on Go 1.22 or later (it ranges over an integer), where
    [Value.IsZero] compares a float with 0.

    Of [scanner.go] the embedding has the sources and scanners that go
    through [structd] ([Query], [Form], [Header], [Cookie],
    [Directory], [MultipartValues], [Multipart], [Image]) and [Pipe].
    The jar of [Cookie] is the list of the cookies it gives for the
    URL; the parser of [MultipartValuesFromParser] threads its state.
    Of the sources that read a file ([Directory], [Image]) the
    embedding has what one read gives; the statements on their scans
    are about records in which the file is asked for once. *)

From Stdlib Require Import ZArith String Ascii List Bool Lia Floats.
From stdpp Require Import base list strings gmap.

Set Warnings "-register-all".

Local Open Scope Z_scope.
Local Open Scope string_scope.

(** ** reflect: kinds and type descriptors *)

(** [reflect.Kind]. *)
Inductive Kind : Type :=
| KInvalid | KBool
| KInt | KInt8 | KInt16 | KInt32 | KInt64
| KUint | KUint8 | KUint16 | KUint32 | KUint64 | KUintptr
| KFloat32 | KFloat64 | KComplex64 | KComplex128
| KArray | KChan | KFunc | KInterface | KMap | KPointer | KSlice
| KString | KStruct | KUnsafePointer.

(** [reflect.Type]: a predeclared type, a defined (named) type over its
    underlying type, the composite types the decoder looks into, and an
    opaque descriptor for the remaining ones (arrays, maps, channels,
    functions), which only carry their kind and their printed form. *)
Inductive type : Type :=
| TBasic (k : Kind)
| TNamed (pkg name : string) (under : type)
| TSlice (elem : type)
| TPointer (elem : type)
| TStruct (fields : list StructField)
| TInterface (methods : list string)
| TOther (k : Kind) (repr : string)
with StructField : Type :=
| mkStructField (Name PkgPath : string) (Tag : list (string * string)) (Type_ : type).

Definition Name (f : StructField) : string :=
  match f with mkStructField n _ _ _ => n end.
Definition PkgPath (f : StructField) : string :=
  match f with mkStructField _ p _ _ => p end.
Definition Tag (f : StructField) : list (string * string) :=
  match f with mkStructField _ _ t _ => t end.
Definition Type_ (f : StructField) : type :=
  match f with mkStructField _ _ _ t => t end.

(** [StructField.IsExported]: the package path of an exported field is empty. *)
Definition IsExported (f : StructField) : bool :=
  if decide (PkgPath f = "") then true else false.

(** [StructTag.Lookup]: the tag is kept as its list of [key:"value"] pairs,
    the first pair of a key wins. *)
Fixpoint Lookup (tag : list (string * string)) (key : string) : option string :=
  match tag with
  | [] => None
  | (k, v) :: rest => if decide (k = key) then Some v else Lookup rest key
  end.

Definition kind_name (k : Kind) : string :=
  match k with
  | KInvalid => "invalid" | KBool => "bool"
  | KInt => "int" | KInt8 => "int8" | KInt16 => "int16" | KInt32 => "int32"
  | KInt64 => "int64"
  | KUint => "uint" | KUint8 => "uint8" | KUint16 => "uint16"
  | KUint32 => "uint32" | KUint64 => "uint64" | KUintptr => "uintptr"
  | KFloat32 => "float32" | KFloat64 => "float64"
  | KComplex64 => "complex64" | KComplex128 => "complex128"
  | KArray => "array" | KChan => "chan" | KFunc => "func"
  | KInterface => "interface" | KMap => "map" | KPointer => "ptr"
  | KSlice => "slice" | KString => "string" | KStruct => "struct"
  | KUnsafePointer => "unsafe.Pointer"
  end.

(** [Type.Kind]: the kind of a defined type is the kind of its underlying type. *)
Fixpoint kind (t : type) : Kind :=
  match t with
  | TBasic k => k
  | TNamed _ _ u => kind u
  | TSlice _ => KSlice
  | TPointer _ => KPointer
  | TStruct _ => KStruct
  | TInterface _ => KInterface
  | TOther k _ => k
  end.

Fixpoint underlying (t : type) : type :=
  match t with
  | TNamed _ _ u => underlying u
  | _ => t
  end.

(** [Type.Elem] of a slice or pointer type ([None] where Go panics). *)
Definition Elem (t : type) : option type :=
  match underlying t with
  | TSlice e => Some e
  | TPointer e => Some e
  | _ => None
  end.

(** [Type.Name]: empty for unnamed types. *)
Definition type_Name (t : type) : string :=
  match t with
  | TBasic k => kind_name k
  | TNamed _ n _ => n
  | _ => ""
  end.

Definition HasName (t : type) : bool :=
  match t with
  | TBasic _ | TNamed _ _ _ => true
  | _ => false
  end.

Definition join_with (sep : string) (l : list string) : string :=
  match l with
  | [] => ""
  | x :: r => fold_left (fun acc y => acc ++ sep ++ y) r x
  end.

(** [Type.String] (field tags are left out of the printed form of a
    struct literal). *)
Fixpoint type_String (t : type) : string :=
  match t with
  | TBasic k => kind_name k
  | TNamed p n _ => p ++ "." ++ n
  | TSlice e => "[]" ++ type_String e
  | TPointer e => "*" ++ type_String e
  | TStruct fs =>
      "struct { " ++
      join_with "; "
        ((fix go (l : list StructField) : list string :=
            match l with
            | [] => []
            | mkStructField n _ _ ty :: r => (n ++ " " ++ type_String ty) :: go r
            end) fs) ++ " }"
  | TInterface ms => "interface { " ++ join_with "; " ms ++ " }"
  | TOther _ r => r
  end.

Definition Kind_eqb (a b : Kind) : bool :=
  match a, b with
  | KInvalid, KInvalid | KBool, KBool | KInt, KInt | KInt8, KInt8
  | KInt16, KInt16 | KInt32, KInt32 | KInt64, KInt64 | KUint, KUint
  | KUint8, KUint8 | KUint16, KUint16 | KUint32, KUint32 | KUint64, KUint64
  | KUintptr, KUintptr | KFloat32, KFloat32 | KFloat64, KFloat64
  | KComplex64, KComplex64 | KComplex128, KComplex128 | KArray, KArray
  | KChan, KChan | KFunc, KFunc | KInterface, KInterface | KMap, KMap
  | KPointer, KPointer | KSlice, KSlice | KString, KString
  | KStruct, KStruct | KUnsafePointer, KUnsafePointer => true
  | _, _ => false
  end.

Definition tag_eqb (a b : list (string * string)) : bool :=
  if decide (a = b) then true else false.

(** Identity of type descriptors: defined types by name, literals by structure. *)
Fixpoint type_eqb (a b : type) : bool :=
  match a, b with
  | TBasic k, TBasic k' => Kind_eqb k k'
  | TNamed p n u, TNamed p' n' u' =>
      String.eqb p p' && String.eqb n n' && type_eqb u u'
  | TSlice e, TSlice e' => type_eqb e e'
  | TPointer e, TPointer e' => type_eqb e e'
  | TStruct fs, TStruct fs' =>
      (fix go (l l' : list StructField) : bool :=
         match l, l' with
         | [], [] => true
         | mkStructField n p t ty :: r, mkStructField n' p' t' ty' :: r' =>
             String.eqb n n' && String.eqb p p' && tag_eqb t t'
             && type_eqb ty ty' && go r r'
         | _, _ => false
         end) fs fs'
  | TInterface ms, TInterface ms' => if decide (ms = ms') then true else false
  | TOther k r, TOther k' r' => Kind_eqb k k' && String.eqb r r'
  | _, _ => false
  end.

(** ** Values, errors and the run-time environment *)

(** A Go value with its dynamic type.  A pointer carries the variable it
    points to; [VInterface] is the content of a variable of interface
    type; [VOther] stands for the values the decoder never looks into
    (maps, channels, functions, arrays, complex numbers), with what
    [IsZero] says about them. *)
Inductive value : Type :=
| VBool (t : type) (b : bool)
| VInt (t : type) (n : Z)
| VFloat (t : type) (f : float)
| VString (t : type) (s : string)
| VSlice (t : type) (elems : option (list value))
| VStruct (t : type) (fields : list value)
| VPointer (t : type) (target : option value)
| VInterface (t : type) (dyn : option value)
| VOther (t : type) (zero : bool) (tok : nat).

(** Go's [any]: nil, or a value of a concrete type. *)
Definition any : Type := option value.

(** [reflect.TypeOf] of a non-nil interface value. *)
Definition TypeOf (v : value) : type :=
  match v with
  | VBool t _ | VInt t _ | VFloat t _ | VString t _ | VSlice t _
  | VStruct t _ | VPointer t _ | VInterface t _ | VOther t _ _ => t
  end.

Definition retype (t : type) (v : value) : value :=
  match v with
  | VBool _ b => VBool t b
  | VInt _ n => VInt t n
  | VFloat _ f => VFloat t f
  | VString _ s => VString t s
  | VSlice _ e => VSlice t e
  | VStruct _ fs => VStruct t fs
  | VPointer _ p => VPointer t p
  | VInterface _ d => VInterface t d
  | VOther _ z k => VOther t z k
  end.

(** [strconv.ErrSyntax], [strconv.ErrRange] and the bit-size complaint. *)
Inductive numerr : Type := ErrSyntax | ErrRange | ErrBitSize (bits : Z).

Inductive error : Type :=
| ErrUnsupported
| NumError (Func Num : string) (Err : numerr)
| CastError (Err : error)
| UnmarshalerError (Err : error) (Value : string) (Unmarshaler : type)
| InvalidUnmarshalError (Type' : option type)
| UnmarshalTypeError (Value : string) (Type' : type) (Struct Field : string)
| UserError (msg : string).

(** What a call does: it returns, or it panics. *)
Inductive outcome (A : Type) : Type :=
| Returns (a : A)
| Panics.
Arguments Returns {A} a.
Arguments Panics {A}.

(** What the embedding takes from outside the package: the platform's
    word size, the method sets of the program's types, the body of the
    program's [UnmarshalString] methods (called on a pointer to a
    variable of the type: from the text and the variable's content to
    its new content and the returned error), and [strconv.ParseFloat]
    and the [%v] printing of floats, which are not spelled out here.
    What the statements on floats take of [strconv.ParseFloat] is
    [strconvFloat] below. *)
Record Runtime : Type := {
  arch64 : bool;
  MethodSet : type -> list string;
  CallUnmarshalString : type -> string -> value -> value * option error;
  ParseFloat : string -> Z -> float * option error;
  FormatFloat : float -> Z -> string
}.

(** [strconv.IntSize]. *)
Definition IntSize (E : Runtime) : Z := if arch64 E then 64 else 32.

(** [Type.Bits] of the numeric kinds. *)
Definition Bits (E : Runtime) (k : Kind) : Z :=
  match k with
  | KInt | KUint | KUintptr => IntSize E
  | KInt8 | KUint8 => 8
  | KInt16 | KUint16 => 16
  | KInt32 | KUint32 | KFloat32 => 32
  | KInt64 | KUint64 | KFloat64 | KComplex64 => 64
  | KComplex128 => 128
  | _ => 0
  end.

(** [Value.IsZero]. *)
Fixpoint IsZero (v : value) : bool :=
  match v with
  | VBool _ b => negb b
  | VInt _ n => (n =? 0)%Z
  | VFloat _ f => PrimFloat.eqb f 0%float
  | VString _ s => if decide (s = "") then true else false
  | VSlice _ e => match e with None => true | Some _ => false end
  | VStruct _ fs =>
      (fix all (l : list value) : bool :=
         match l with
         | [] => true
         | x :: r => IsZero x && all r
         end) fs
  | VPointer _ p => match p with None => true | Some _ => false end
  | VInterface _ d => match d with None => true | Some _ => false end
  | VOther _ z _ => z
  end.

(** [Value.IsNil] of a pointer. *)
Definition IsNil (v : value) : bool :=
  match v with
  | VPointer _ None => true
  | _ => false
  end.

(** The zero value of type [t]; [u] walks down to the underlying type. *)
Fixpoint zeroOf (t u : type) : value :=
  match u with
  | TBasic k =>
      match k with
      | KBool => VBool t false
      | KString => VString t ""
      | KFloat32 | KFloat64 => VFloat t 0%float
      | KInt | KInt8 | KInt16 | KInt32 | KInt64
      | KUint | KUint8 | KUint16 | KUint32 | KUint64 | KUintptr => VInt t 0
      | _ => VOther t true 0
      end
  | TNamed _ _ u' => zeroOf t u'
  | TSlice _ => VSlice t None
  | TPointer _ => VPointer t None
  | TStruct fs =>
      VStruct t
        ((fix go (l : list StructField) : list value :=
            match l with
            | [] => []
            | mkStructField _ _ _ ty :: r => zeroOf ty ty :: go r
            end) fs)
  | TInterface _ => VInterface t None
  | TOther _ _ => VOther t true 0
  end.

(** [reflect.Zero]. *)
Definition Zero (t : type) : value := zeroOf t t.

(** ** Assignability *)

(** [reflect.directlyAssignable]: identical types, or identical
    underlying types when at most one of the two is named. *)
Definition directlyAssignable (T V : type) : bool :=
  if type_eqb T V then true
  else if (HasName T && HasName V) || negb (Kind_eqb (kind T) (kind V)) then false
  else type_eqb (underlying T) (underlying V).

(** [reflect.implements]: [T] is an interface type and the method set of
    [V] has all of its methods. *)
Definition implements (E : Runtime) (T V : type) : bool :=
  match underlying T with
  | TInterface ms =>
      forallb (fun m => if decide (m ∈ MethodSet E V) then true else false) ms
  | _ => false
  end.

(** [Type.AssignableTo]: [AssignableTo E t u] is [t.AssignableTo(u)]. *)
Definition AssignableTo (E : Runtime) (t u : type) : bool :=
  directlyAssignable u t || implements E u t.

(** [Value.assignTo], the conversion [Value.Set] applies to its argument:
    [None] is the panic "value of type ... is not assignable to type ...". *)
Definition assignTo (E : Runtime) (dst : type) (v : value) : option value :=
  if directlyAssignable dst (TypeOf v) then Some (retype dst v)
  else if implements E dst (TypeOf v) then Some (VInterface dst (Some v))
  else None.

(** ** strconv, strings and fmt *)

Definition byte (c : ascii) : Z := Z.of_N (N_of_ascii c).

(** [lower(c)] of strconv: [c | ('x' - 'X')]. *)
Definition lower (c : Z) : Z := Z.lor c 32.

Definition maxUint64 : Z := 2 ^ 64 - 1.

(** Arithmetic of [uint64] and the conversion to [int64]. *)
Definition wrap64 (n : Z) : Z := n mod 2 ^ 64.
Definition toInt64 (n : Z) : Z := (n + 2 ^ 63) mod 2 ^ 64 - 2 ^ 63.

(** The conversions [T(i)] of [parse]: to an unsigned and to a signed
    integer type of [bits] bits. *)
Definition toUint (bits n : Z) : Z := n mod 2 ^ bits.
Definition toInt (bits n : Z) : Z := (n + 2 ^ (bits - 1)) mod 2 ^ bits - 2 ^ (bits - 1).

Definition fnParseUint : string := "ParseUint".
Definition fnParseInt : string := "ParseInt".
Definition fnParseBool : string := "ParseBool".
Definition fnParseFloat : string := "ParseFloat".

Definition syntaxError (fn str : string) : error := NumError fn str ErrSyntax.
Definition rangeError (fn str : string) : error := NumError fn str ErrRange.
Definition bitSizeError (fn str : string) (bitSize : Z) : error :=
  NumError fn str (ErrBitSize bitSize).

(** The digit a byte stands for in [ParseUint]'s loop. *)
Definition digitOf (c : ascii) : option Z :=
  let c := byte c in
  if (48 <=? c)%Z && (c <=? 57)%Z then Some (c - 48)
  else if (97 <=? lower c)%Z && (lower c <=? 122)%Z then Some (lower c - 97 + 10)
  else None.

(** The base the package parses in. *)
Definition base : Z := 10.

(** [cutoff] of [ParseUint]: the smallest number such that
    [cutoff * base > maxUint64]. *)
Definition cutoff : Z := maxUint64 / base + 1.

(** The loop of [strconv.ParseUint] over the bytes of the text. *)
Fixpoint parseUintLoop (s0 : string) (maxVal : Z) (cs : string) (n : Z)
  : Z * option error :=
  match cs with
  | EmptyString => (n, None)
  | String c rest =>
      match digitOf c with
      | None => (0, Some (syntaxError fnParseUint s0))
      | Some d =>
          if (d >=? base)%Z then (0, Some (syntaxError fnParseUint s0))
          else if (n >=? cutoff)%Z then (maxVal, Some (rangeError fnParseUint s0))
          else
            let n' := wrap64 (n * base) in
            let n1 := wrap64 (n' + d) in
            if (n1 <? n')%Z || (n1 >? maxVal)%Z
            then (maxVal, Some (rangeError fnParseUint s0))
            else parseUintLoop s0 maxVal rest n1
      end
  end.

(** [strconv.ParseUint(s, 10, bitSize)]. *)
Definition ParseUint (E : Runtime) (s : string) (bitSize : Z) : Z * option error :=
  if decide (s = "") then (0, Some (syntaxError fnParseUint s))
  else
    let bitSize' := if (bitSize =? 0)%Z then IntSize E else bitSize in
    if negb (bitSize =? 0)%Z && ((bitSize <? 0)%Z || (bitSize >? 64)%Z)
    then (0, Some (bitSizeError fnParseUint s bitSize))
    else
      let maxVal := wrap64 (wrap64 (2 ^ bitSize') - 1) in
      parseUintLoop s maxVal s 0.

(** [strconv.ParseInt(s, 10, bitSize)]. *)
Definition ParseInt (E : Runtime) (s : string) (bitSize : Z) : Z * option error :=
  match s with
  | EmptyString => (0, Some (syntaxError fnParseInt s))
  | String c rest =>
      let s0 := s in
      let '(neg, s') :=
        if decide (c = "+"%char) then (false, rest)
        else if decide (c = "-"%char) then (true, rest)
        else (false, s) in
      let '(un, err) := ParseUint E s' bitSize in
      match err with
      | Some (NumError _ _ ErrRange) | None =>
          let bitSize' := if (bitSize =? 0)%Z then IntSize E else bitSize in
          let cut := wrap64 (2 ^ (bitSize' - 1)) in
          if negb neg && (un >=? cut)%Z
          then (toInt64 (cut - 1), Some (rangeError fnParseInt s0))
          else if neg && (un >? cut)%Z
          then (toInt64 (- toInt64 cut), Some (rangeError fnParseInt s0))
          else
            let n := toInt64 un in
            (if neg then toInt64 (- n) else n, None)
      | Some (NumError _ _ e) => (0, Some (NumError fnParseInt s0 e))
      | Some e => (0, Some e)
      end
  end.

(** [strconv.ParseBool]. *)
Definition ParseBool (str : string) : bool * option error :=
  if decide (str ∈ ["1"; "t"; "T"; "true"; "TRUE"; "True"]) then (true, None)
  else if decide (str ∈ ["0"; "f"; "F"; "false"; "FALSE"; "False"]) then (false, None)
  else (false, Some (syntaxError fnParseBool str)).

(** [strings.Split] for a separator of one byte. *)
Fixpoint Split (s : string) (sep : ascii) : list string :=
  match s with
  | EmptyString => [""]
  | String c r =>
      if decide (c = sep) then "" :: Split r sep
      else
        match Split r sep with
        | x :: xs => String c x :: xs
        | [] => [String c ""]
        end
  end.

(** [strings.Join]. *)
Fixpoint Join (l : list string) (sep : ascii) : string :=
  match l with
  | [] => ""
  | [x] => x
  | x :: r => x ++ String sep (Join r sep)
  end.

Definition digitChar (d : Z) : ascii := ascii_of_N (Z.to_N (48 + d)).

(** The digit loop of [fmt]'s [fmtInteger] in base 10: the digits of [u]
    are put in front of [acc], the last one first.  The loop runs at
    most [fuel] times. *)
Fixpoint fmtDigits (fuel : nat) (u : Z) (acc : string) : string :=
  match fuel with
  | O => String (digitChar u) acc
  | S fuel' =>
      if (u >=? 10)%Z
      then fmtDigits fuel' (u / 10) (String (digitChar (u mod 10)) acc)
      else String (digitChar u) acc
  end.

(** The verb [%d] on an integer: the decimal digits, after a minus sign
    for a negative number.  [Z.log2 u] turns of the loop are enough for
    every [u]. *)
Definition fmtInteger (n : Z) : string :=
  let u := Z.abs n in
  let digits := fmtDigits (Z.to_nat (Z.log2 u)) u "" in
  if (n <? 0)%Z then String "-"%char digits else digits.

(** [fmt.Sprintf("%d", from)] with [from] an interface value: an integer
    is printed in decimal; for any other operand [fmt] reports the bad
    verb as [%!d(type=value)], the value printed as [%v] does. *)
Definition Sprintf_d (E : Runtime) (from : value) : string :=
  match from with
  | VInt _ n => fmtInteger n
  | VFloat t f =>
      "%!d(" ++ type_String t ++ "=" ++ FormatFloat E f (Bits E (kind t)) ++ ")"
  | _ => "%!d(" ++ type_String (TypeOf from) ++ ")"
  end.

(** Equality of two interface values holding scalars: identical dynamic
    types and equal values. *)
Definition ifaceEq (a b : value) : bool :=
  type_eqb (TypeOf a) (TypeOf b) &&
  match a, b with
  | VBool _ x, VBool _ y => Bool.eqb x y
  | VInt _ x, VInt _ y => (x =? y)%Z
  | VFloat _ x, VFloat _ y => PrimFloat.eqb x y
  | VString _ x, VString _ y => String.eqb x y
  | _, _ => false
  end.

(** ** parse and DefaultCast *)

(** What a cast hands back: Go's pair [(any, error)], or a panic. *)
Definition cast_result : Type := outcome (any * option error).

(** The conversion [float32(f)] of a [float64]: the nearest value of
    [float32], ties to even, an infinity beyond the greatest one.  The
    values of both types are kept as [float]. *)
Definition toFloat32 (f : float) : float :=
  match Prim2SF f with
  | S754_finite s m e => SF2Prim (binary_round 24 128 s m e)
  | _ => f
  end.

(** The conversion [T(f)] of a [float64] to the float type of kind [T]. *)
Definition toFloat (T : Kind) (f : float) : float :=
  match T with
  | KFloat32 => toFloat32 f
  | _ => f
  end.

(** [parse[T]], with [T] given by its kind: the text is parsed at
    [rt.Bits()] bits and converted to [T]; on an error the zero [T] is
    returned with it. *)
Definition parse (E : Runtime) (T : Kind) (s : string) : any * option error :=
  let rt := TBasic T in
  match T with
  | KFloat32 | KFloat64 =>
      let '(i, err) := ParseFloat E s (Bits E T) in
      match err with
      | Some e => (Some (VFloat rt 0%float), Some e)
      | None => (Some (VFloat rt (toFloat T i)), None)
      end
  | KUint | KUint8 | KUint16 | KUint32 | KUint64 =>
      let '(i, err) := ParseUint E s (Bits E T) in
      match err with
      | Some e => (Some (VInt rt 0), Some e)
      | None => (Some (VInt rt (toUint (Bits E T) i)), None)
      end
  | _ =>
      let '(i, err) := ParseInt E s (Bits E T) in
      match err with
      | Some e => (Some (VInt rt 0), Some e)
      | None => (Some (VInt rt (toInt (Bits E T) i)), None)
      end
  end.

Definition DefaultSeperator : ascii := ","%char.

(** The name of the method of interface [Unmarshaler]. *)
Definition UnmarshalString : string := "UnmarshalString".

Definition tString : type := TBasic KString.
Definition tBool : type := TBasic KBool.
Definition tInt : type := TBasic KInt.

(** [reflect.Append(result, reflect.ValueOf(x))] on a slice with
    elements of type [e]: [None] is the panic of [Value.Set] on a nil
    interface or on a value that is not assignable to [e]. *)
Definition Append (E : Runtime) (e : type) (result : option (list value))
  (x : any) : option (option (list value)) :=
  match x with
  | None => None
  | Some x =>
      match assignTo E e x with
      | None => None
      | Some x' => Some (Some (default [] result ++ [x'])%list)
      end
  end.

(** The loop of [DefaultCast] over the parts of a split text; [cast] is
    [DefaultCast(entry, to.Elem())]. *)
Fixpoint castEntries (E : Runtime) (to e : type) (cast : string -> cast_result)
  (split : list string) (result : option (list value)) : cast_result :=
  match split with
  | [] => Returns (Some (VSlice to result), None)
  | entry :: rest =>
      match cast entry with
      | Panics => Panics
      | Returns (_, Some err) => Returns (None, Some err)
      | Returns (x, None) =>
          match Append E e result x with
          | None => Panics
          | Some result' => castEntries E to e cast rest result'
          end
      end
  end.

(** The last case of the switch on a text: [reflect.New(to)] and its
    [UnmarshalString], when a pointer to [to] is an [Unmarshaler]. *)
Definition castUnmarshaler (E : Runtime) (to : type) (from : string) : cast_result :=
  if decide (UnmarshalString ∈ MethodSet E (TPointer to)) then
    let '(u, err) := CallUnmarshalString E to from (Zero to) in
    match err with
    | Some e => Returns (None, Some (UnmarshalerError e from to))
    | None => Returns (Some u, None)
    end
  else Returns (None, Some ErrUnsupported).

(** [DefaultCast] on a text.  The source switches on [to.Kind()] and
    recurses on [to.Elem()]; here [u] walks from [to] down to its
    underlying type, so that the recursion is on the structure of the
    type descriptor. *)
Fixpoint castText (E : Runtime) (to u : type) (from : string) {struct u}
  : cast_result :=
  match u with
  | TNamed _ _ u' => castText E to u' from
  | TSlice e =>
      let split := Split from DefaultSeperator in
      match kind e with
      | KString =>
          Returns (Some (VSlice (TSlice tString) (Some (map (VString tString) split))), None)
      | _ => castEntries E to e (castText E e e) split None
      end
  | _ =>
      match kind u with
      | KUint8 => Returns (parse E KUint8 from)
      | KUint16 => Returns (parse E KUint16 from)
      | KUint32 => Returns (parse E KUint32 from)
      | KUint64 => Returns (parse E KUint64 from)
      | KInt8 => Returns (parse E KInt8 from)
      | KInt16 => Returns (parse E KInt16 from)
      | KInt32 => Returns (parse E KInt32 from)
      | KInt64 => Returns (parse E KInt64 from)
      | KUint => Returns (parse E KUint from)
      | KInt => Returns (parse E KInt from)
      | KFloat32 => Returns (parse E KFloat32 from)
      | KFloat64 => Returns (parse E KFloat64 from)
      | KBool =>
          let '(b, err) := ParseBool from in
          Returns (Some (VBool tBool b), err)
      | KSlice => Panics
      | _ => castUnmarshaler E to from
      end
  end.

(** The types of the second case of [DefaultCast]'s type switch. *)
Definition isNumber (from : value) : bool :=
  match from with
  | VInt (TBasic k) _ =>
      match k with
      | KUint | KInt | KUint8 | KUint16 | KUint32 | KUint64
      | KInt8 | KInt16 | KInt32 | KInt64 => true
      | _ => false
      end
  | VFloat (TBasic k) _ =>
      match k with
      | KFloat32 | KFloat64 => true
      | _ => false
      end
  | _ => false
  end.

(** [DefaultCast]: the type switch on [from], case by case as in the
    source.  In the case of the number types the variable [from] keeps
    the type [any] (the case lists several types), so [from != 0]
    compares two interface values, the constant converted to its
    default type [int]; and [Sprintf] receives the interface value. *)
Definition DefaultCast (E : Runtime) (from : any) (to : type) : cast_result :=
  match from with
  | Some (VString (TBasic KString) from) => castText E to to from
  | Some from =>
      if isNumber from then
        match kind to with
        | KString => Returns (Some (VString tString (Sprintf_d E from)), None)
        | KBool => Returns (Some (VBool tBool (negb (ifaceEq from (VInt tInt 0)))), None)
        | _ => Returns (None, Some ErrUnsupported)
        end
      else
        match from with
        | VBool (TBasic KBool) from =>
            let str := if from then "1" else "0" in
            match kind to with
            | KString =>
                Returns (Some (VString tString (if from then "true" else "false")), None)
            | KUint8 => Returns (parse E KUint8 str)
            | KUint16 => Returns (parse E KUint16 str)
            | KUint32 => Returns (parse E KUint32 str)
            | KUint64 => Returns (parse E KUint64 str)
            | KInt8 => Returns (parse E KInt8 str)
            | KInt16 => Returns (parse E KInt16 str)
            | KInt32 => Returns (parse E KInt32 str)
            | KInt64 => Returns (parse E KInt64 str)
            | KUint => Returns (parse E KUint str)
            | KInt => Returns (parse E KInt str)
            | KFloat32 => Returns (parse E KFloat32 str)
            | KFloat64 => Returns (parse E KFloat64 str)
            | _ => Returns (None, Some ErrUnsupported)
            end
        | _ => Returns (None, Some ErrUnsupported)
        end
  | None => Returns (None, Some ErrUnsupported)
  end.

(** ** The decoder *)

(** A [Getter], and the [Cast] method when its type also has it. *)
Record Getter : Type := {
  Get : string -> any;
  Cast : option (any -> type -> cast_result)
}.

Record Decoder : Type := {
  getter : Getter;
  key : string
}.

Definition New (getter : Getter) (key : string) : Decoder :=
  {| getter := getter; key := key |}.

Definition wrapCastErr (err : option error) : option error :=
  match err with
  | None => None
  | Some e => Some (CastError e)
  end.

(** How the body of [Decode]'s loop ends for one field: on to the next
    field, out of [Decode] with what it returns, or in a panic. *)
Inductive flow : Type :=
| Continue
| Return (err : option error)
| Panicked.

(** [value.Set(x)] on field [i], of type [ft], of the record. *)
Definition Set_ (E : Runtime) (i : nat) (ft : type) (x : any) (vals : list value)
  : flow * list value :=
  match x with
  | None => (Panicked, vals)
  | Some v =>
      match assignTo E ft v with
      | None => (Panicked, vals)
      | Some v' => (Continue, <[i := v']> vals)
      end
  end.

(** The body of the loop of [Decode] for field [i] of a record of type
    [rt] whose fields hold [vals]. *)
Definition decodeField (E : Runtime) (d : Decoder) (rt : type) (i : nat)
  (field : StructField) (vals : list value) : flow * list value :=
  if negb (IsExported field) then (Continue, vals)
  else
    match Lookup (Tag field) (key d) with
    | None => (Continue, vals)
    | Some tag =>
        match Get (getter d) tag with
        | None => (Continue, vals)
        | Some target =>
            let tt := TypeOf target in
            if IsZero target then (Continue, vals)
            else if negb (AssignableTo E tt (Type_ field)) then
              match Cast (getter d) with
              | Some c =>
                  match c (Some target) (Type_ field) with
                  | Panics => (Panicked, vals)
                  | Returns (casted, err) =>
                      match err with
                      | Some _ => (Return (wrapCastErr err), vals)
                      | None => Set_ E i (Type_ field) casted vals
                      end
                  end
              | None =>
                  (Return (Some (UnmarshalTypeError (type_Name tt) (Type_ field)
                                   (type_Name rt) (Name field))), vals)
              end
            else Set_ E i (Type_ field) (Some target) vals
        end
    end.

(** The loop of [Decode] from field [i] on. *)
Fixpoint decodeFields (E : Runtime) (d : Decoder) (rt : type) (i : nat)
  (fields : list StructField) (vals : list value) : flow * list value :=
  match fields with
  | [] => (Continue, vals)
  | field :: rest =>
      match decodeField E d rt i field vals with
      | (Continue, vals') => decodeFields E d rt (S i) rest vals'
      | stop => stop
      end
  end.

(** [Decoder.Decode]: what the call returns (or that it panics), and the
    argument with the record as the call leaves it.  The last two cases
    are those of a value whose content does not fit its type, which Go
    does not build. *)
Definition Decode (E : Runtime) (d : Decoder) (v : any) : outcome (option error) * any :=
  match v with
  | None => (Returns (Some (InvalidUnmarshalError None)), v)
  | Some rv =>
      let rt := TypeOf rv in
      if negb (Kind_eqb (kind rt) KPointer) || IsNil rv
      then (Returns (Some (InvalidUnmarshalError (Some rt))), v)
      else
        match rv, Elem rt with
        | VPointer pt (Some rv'), Some rt' =>
            if negb (Kind_eqb (kind (TypeOf rv')) KStruct)
            then (Returns (Some (InvalidUnmarshalError (Some rt'))), v)
            else
              match rv', underlying rt' with
              | VStruct st vals, TStruct fields =>
                  let '(fl, vals') := decodeFields E d rt' 0 fields vals in
                  (match fl with
                   | Continue => Returns None
                   | Return err => Returns err
                   | Panicked => Panics
                   end,
                   Some (VPointer pt (Some (VStruct st vals'))))
              | _, _ => (Panics, v)
              end
        | _, _ => (Panics, v)
        end
  end.

(** [InvalidUnmarshalError.Error]. *)
Definition InvalidUnmarshalError_Error (Type' : option type) : string :=
  match Type' with
  | None => "structd: Unmarshal(nil)"
  | Some t =>
      if negb (Kind_eqb (kind t) KPointer)
      then "structd: Unmarshal(non-pointer " ++ type_String t ++ ")"
      else
        match Elem t with
        | Some e =>
            if negb (Kind_eqb (kind e) KStruct)
            then "structd: Unmarshal(non-struct " ++ type_String t ++ ")"
            else "structd: Unmarshal(nil " ++ type_String t ++ ")"
        | None => "structd: Unmarshal(nil " ++ type_String t ++ ")"
        end
  end.

(** ** The scanners of the package that read texts *)

(** [url.Values.Get]: the first value of the key, the empty text without one. *)
Fixpoint Values_Get (values : list (string * string)) (key : string) : string :=
  match values with
  | [] => ""
  | (k, v) :: rest => if decide (k = key) then v else Values_Get rest key
  end.

(** [Query] of scanner.go: its [Get] reads the values, its [Cast] is [DefaultCast]. *)
Definition Query (E : Runtime) (values : list (string * string)) : Getter :=
  {| Get := fun key => Some (VString tString (Values_Get values key));
     Cast := Some (DefaultCast E) |}.

(** [Form] of scanner.go, over the values of a form. *)
Definition Form (E : Runtime) (values : list (string * string)) : Getter :=
  {| Get := fun key => Some (VString tString (Values_Get values key));
     Cast := Some (DefaultCast E) |}.

(** ** Notions the statements use *)

(** A byte that is a decimal digit, with the digit. *)
Definition decimalDigit (c : ascii) : option Z :=
  match digitOf c with
  | Some d => if (d <? 10)%Z then Some d else None
  | None => None
  end.

(** A text of decimal digits only. *)
Fixpoint isDecimal (cs : string) : bool :=
  match cs with
  | EmptyString => true
  | String c r =>
      match decimalDigit c with
      | Some _ => isDecimal r
      | None => false
      end
  end.

(** The number that the digits [cs] denote when they follow digits that
    denote [n]. *)
Fixpoint decVal (cs : string) (n : Z) : Z :=
  match cs with
  | EmptyString => n
  | String c r => decVal r (n * 10 + default 0 (decimalDigit c))
  end.

Definition signedKind (k : Kind) : bool :=
  match k with
  | KInt | KInt8 | KInt16 | KInt32 | KInt64 => true
  | _ => false
  end.

Definition unsignedKind (k : Kind) : bool :=
  match k with
  | KUint | KUint8 | KUint16 | KUint32 | KUint64 => true
  | _ => false
  end.

Definition floatKind (k : Kind) : bool :=
  match k with
  | KFloat32 | KFloat64 => true
  | _ => false
  end.

(** The least and the greatest value of the integer type of kind [k]. *)
Definition minOf (E : Runtime) (k : Kind) : Z :=
  if signedKind k then - 2 ^ (Bits E k - 1) else 0.
Definition maxOf (E : Runtime) (k : Kind) : Z :=
  if signedKind k then 2 ^ (Bits E k - 1) - 1 else 2 ^ Bits E k - 1.

(** [n] is a value of the integer type of kind [k]. *)
Definition representable (E : Runtime) (k : Kind) (n : Z) : Prop :=
  (signedKind k || unsignedKind k = true) ∧ (minOf E k ≤ n ≤ maxOf E k)%Z.

(** A text as an interface value. *)
Definition text (s : string) : any := Some (VString tString s).

(** A pointer to a record of type [rt] whose fields hold [vals]. *)
Definition record (rt : type) (vals : list value) : any :=
  Some (VPointer (TPointer rt) (Some (VStruct rt vals))).

(** A pointer to the variable that holds [v]. *)
Definition pointerTo (v : value) : any :=
  Some (VPointer (TPointer (TypeOf v)) (Some v)).

(** The argument [Decode] asks for: a pointer that is not nil, to a record. *)
Definition validTarget (v : any) : bool :=
  match v with
  | Some (VPointer t (Some rv)) =>
      Kind_eqb (kind t) KPointer && Kind_eqb (kind (TypeOf rv)) KStruct
  | _ => false
  end.

(** Values of pointer kind are pointers, over a pointer type. *)
Definition pointerShaped (v : any) : Prop :=
  forall rv, v = Some rv -> kind (TypeOf rv) = KPointer ->
    exists e p, rv = VPointer (TypeOf rv) p /\ Elem (TypeOf rv) = Some e.

(** The bit sizes of the integer types. *)
Definition width (bits : Z) : Prop :=
  bits = 8%Z \/ bits = 16%Z \/ bits = 32%Z \/ bits = 64%Z.

(** [s] is a decimal numeral that denotes [v]: decimal digits, after a
    sign when [signed]. *)
Definition numeral (signed : bool) (s : string) (v : Z) : Prop :=
  exists ds, isDecimal ds = true /\ ds <> EmptyString /\
    (s = ds /\ v = decVal ds 0 \/
     signed = true /\
     (s = String "+"%char ds /\ v = decVal ds 0 \/
      s = String "-"%char ds /\ v = (- decVal ds 0)%Z)).

(** The strconv function that [parse] calls for an integer kind. *)
Definition fnParse (k : Kind) : string :=
  if signedKind k then fnParseInt else fnParseUint.

(** The kinds of the cases that come before the last one in
    [DefaultCast]'s switch on the kind of the target of a text. *)
Definition builtinKind (k : Kind) : bool :=
  signedKind k || unsignedKind k || floatKind k ||
  match k with KBool | KSlice => true | _ => false end.

(** The cast of the part [part] of a text gives a value that a slice
    with elements of type [e] takes, as [v]. *)
Definition castsTo (E : Runtime) (e : type) (part : string) (v : value) : Prop :=
  exists x, DefaultCast E (text part) e = Returns (Some x, None) /\
            assignTo E e x = Some v.

(** ** Decimal numerals of floats *)

(** An optional sign at the front of a text: whether it is a minus, and
    the rest. *)
Definition signOf (s : string) : bool * string :=
  match s with
  | String c r =>
      if decide (c = "-"%char) then (true, r)
      else if decide (c = "+"%char) then (false, r)
      else (false, s)
  | EmptyString => (false, s)
  end.

(** The decimal digits at the front of a text, and the rest. *)
Fixpoint digitsOf (s : string) : string * string :=
  match s with
  | String c r =>
      match decimalDigit c with
      | Some _ => let '(ds, rest) := digitsOf r in (String c ds, rest)
      | None => (EmptyString, s)
      end
  | EmptyString => (EmptyString, EmptyString)
  end.

(** The decimal numerals of floats, read: an optional sign; digits with
    at most one point before, among or after them, and at least one
    digit; then possibly an exponent, [e] or [E] with an optional sign
    and one to four digits ([strconv] stops reading the digits of an
    exponent at 10000).  A numeral read as [(neg, m, e)] denotes
    [m * 10 ^ e], negated when [neg].  The other texts that
    [strconv.ParseFloat] reads (hexadecimal numerals, digits separated
    by underscores, [Inf], [NaN]) are not read here. *)
Definition decimalFloat (s : string) : option (bool * Z * Z) :=
  let '(neg, s1) := signOf s in
  let '(ip, s2) := digitsOf s1 in
  let '(fp, s3) :=
    match s2 with
    | String c r => if decide (c = "."%char) then digitsOf r else (EmptyString, s2)
    | EmptyString => (EmptyString, s2)
    end in
  if decide (ip ++ fp = "") then None
  else
    let m := decVal (ip ++ fp) 0 in
    let scale := Z.of_nat (String.length fp) in
    match s3 with
    | EmptyString => Some (neg, m, (- scale)%Z)
    | String c r =>
        if decide (c = "e"%char \/ c = "E"%char) then
          let '(eneg, s4) := signOf r in
          let '(xd, s5) := digitsOf s4 in
          if decide (xd <> "" /\ (String.length xd <= 4)%nat /\ s5 = "")
          then Some (neg, m, ((if eneg then - decVal xd 0 else decVal xd 0) - scale)%Z)
          else None
        else None
    end.

(** [limit <= m * 10 ^ e], for [m] that is not negative. *)
Definition reaches (m e limit : Z) : bool :=
  if (e <? 0)%Z then (limit * 10 ^ (- e) <=? m)%Z else (limit <=? m * 10 ^ e)%Z.

(** Half-way between the greatest value of the float type of [bits]
    bits and the next power of two: a number of at least this magnitude
    is nearest to no value of the type. *)
Definition floatLimit (bits : Z) : Z :=
  if (bits =? 32)%Z then (2 ^ 128 - 2 ^ 103)%Z else (2 ^ 1024 - 2 ^ 970)%Z.


(** ** A program to run the decoder on *)

Module Example.

(** [type Role struct { Name string }] with
    [func (r *Role) UnmarshalString(s string) error { r.Name = s; return nil }]
    and [type Level int], [type Code string] with
    [func (c *Code) UnmarshalString(s string) error] that refuses the
    empty text and texts that start with a blank. *)
Definition Role : type :=
  TNamed "main" "Role" (TStruct [mkStructField "Name" "" [] tString]).
Definition Level : type := TNamed "main" "Level" tInt.
Definition Code : type := TNamed "main" "Code" tString.

Definition methods (t : type) : list string :=
  if type_eqb t (TPointer Role) || type_eqb t (TPointer Code)
  then [UnmarshalString] else [].

Definition unmarshal (t : type) (s : string) (self : value) : value * option error :=
  if type_eqb t Role then (VStruct Role [VString tString s], None)
  else
    match s with
    | EmptyString => (self, Some (UserError "empty code"))
    | String c _ =>
        if decide (c = " "%char) then (self, Some (UserError "blank code"))
        else (VString Code s, None)
    end.

(** A 64-bit platform.  Of [strconv.ParseFloat] and of the printing of
    floats only the entries the examples read are given. *)
Definition runtime : Runtime := {|
  arch64 := true;
  MethodSet := methods;
  CallUnmarshalString := unmarshal;
  ParseFloat := fun s bitSize =>
    if decide (s = "1") then (1%float, None)
    else if decide (s = "0") then (0%float, None)
    else if decide (s = "1.5") then (1.5%float, None)
    else (0%float, Some (NumError "ParseFloat" s ErrSyntax));
  FormatFloat := fun f bitSize =>
    if PrimFloat.eqb f 1.5%float then "1.5"
    else if PrimFloat.eqb f 1%float then "1"
    else if PrimFloat.eqb f 0%float then "0"
    else "NaN"
|}.

(** [type Params struct {
      Page  uint32 `query:"page"`
      Done  bool   `query:"done"`
      Size  int8   `query:"size"`
      Role  Role   `query:"role"`
      Name  string `query:"name"`
      note  string `query:"note"`
      Plain string
    }] *)
Definition fPage : StructField := mkStructField "Page" "" [("query", "page")] (TBasic KUint32).
Definition fDone : StructField := mkStructField "Done" "" [("query", "done")] tBool.
Definition fSize : StructField := mkStructField "Size" "" [("query", "size")] (TBasic KInt8).
Definition fRole : StructField := mkStructField "Role" "" [("query", "role")] Role.
Definition fName : StructField := mkStructField "Name" "" [("query", "name")] tString.
Definition fNote : StructField := mkStructField "note" "main" [("query", "note")] tString.
Definition fPlain : StructField := mkStructField "Plain" "" [] tString.

Definition Params : type :=
  TNamed "main" "Params" (TStruct [fPage; fDone; fSize; fRole; fName; fNote; fPlain]).

(** [type Grade struct { Level Level `query:"level"`; Size int8 `query:"size"` }] *)
Definition fLevel : StructField := mkStructField "Level" "" [("query", "level")] Level.
Definition Grade : type := TNamed "main" "Grade" (TStruct [fLevel; fSize]).

Definition decoder (values : list (string * string)) : Decoder :=
  New (Query runtime values) "query".

(** The fields of [Params] of the package's tests that the query and the
    form scanners fill:
    [Page uint32 `query:"page" form:"page"], [Done bool `query:"done"`],
    [Role Role `query:"role"`], [Roles []Role `query:"roles"`],
    [Filters []string `form:"filters"`], [Numbers []int `form:"numbers"`]. *)
Definition TestParams : type :=
  TNamed "scanner_test" "Params"
    (TStruct
       [mkStructField "Page" "" [("query", "page"); ("form", "page")] (TBasic KUint32);
        mkStructField "Done" "" [("query", "done")] tBool;
        mkStructField "Role" "" [("query", "role")] Role;
        mkStructField "Roles" "" [("query", "roles")] (TSlice Role);
        mkStructField "Filters" "" [("form", "filters")] (TSlice tString);
        mkStructField "Numbers" "" [("form", "numbers")] (TSlice tInt)]).

End Example.

(** ** error.go: the [Unwrap] methods *)

(** [CastError.Unwrap] and [UnmarshalerError.Unwrap]: the error inside;
    the other errors of the package have no such method. *)
Definition Unwrap (e : error) : option error :=
  match e with
  | CastError err => Some err
  | UnmarshalerError err _ _ => Some err
  | _ => None
  end.

(** ** scanner.go: the sources and the scanners *)

(** [Scanner]: [Scan] on a target, with the target as the call leaves it. *)
Definition Scanner : Type := any -> outcome (option error) * any.

(** [Pipe.Scan]: the scanners in sequence on the same target, up to the
    first one that returns an error. *)
Fixpoint Pipe_Scan (s : list Scanner) (value : any) : outcome (option error) * any :=
  match s with
  | [] => (Returns None, value)
  | scanner :: rest =>
      match scanner value with
      | (Returns None, value') => Pipe_Scan rest value'
      | (Returns (Some err), value') => (Returns (Some err), value')
      | (Panics, value') => (Panics, value')
      end
  end.

(** [Query.Scan] and [Form.Scan]. *)
Definition Query_Scan (E : Runtime) (values : list (string * string)) : Scanner :=
  Decode E (New (Query E values) "query").
Definition Form_Scan (E : Runtime) (values : list (string * string)) : Scanner :=
  Decode E (New (Form E values) "form").

(** [Cookie.Get] over the cookies of the jar for the URL, each with its
    name and its value: the value of the first cookie of that name, nil
    without one. *)
Fixpoint Cookie_Get (list : list (string * string)) (key : string) : any :=
  match list with
  | [] => None
  | (name, val) :: rest =>
      if decide (name = key) then Some (VString tString val)
      else Cookie_Get rest key
  end.

(** [Cookie]: a [Getter] without [Cast]. *)
Definition Cookie (cookies : list (string * string)) : Getter :=
  {| Get := Cookie_Get cookies; Cast := None |}.

Definition Cookie_Scan (E : Runtime) (cookies : list (string * string)) : Scanner :=
  Decode E (New (Cookie cookies) "cookie").

(** [http.Header.Get]: the first value under the canonical form of the
    key, the empty text without one; [canon] is
    [textproto.CanonicalMIMEHeaderKey]. *)
Definition Header_Get (canon : string -> string) (h : gmap string (list string))
  (key : string) : string :=
  match h !! canon key with
  | Some (v :: _) => v
  | _ => ""
  end.

(** [Header]: a [Getter] without [Cast]. *)
Definition Header (canon : string -> string) (h : gmap string (list string)) : Getter :=
  {| Get := fun key => Some (VString tString (Header_Get canon h key));
     Cast := None |}.

Definition Header_Scan (E : Runtime) (canon : string -> string)
  (h : gmap string (list string)) : Scanner :=
  Decode E (New (Header canon h) "header").

(** [MultipartValues.Get]: the file under the key, the nil interface
    without one. *)
Definition MultipartValues_Get (Files : gmap string any) (key : string) : any :=
  default None (Files !! key).

(** [MultipartValues] as a [Getter] (it has no [Cast]). *)
Definition Multipart (Files : gmap string any) : Getter :=
  {| Get := MultipartValues_Get Files; Cast := None |}.

Definition Multipart_Scan (E : Runtime) (Files : gmap string any) : Scanner :=
  Decode E (New (Multipart Files) "multipart").

(** [MultipartParser]: the two methods, each from the state of the
    parser to what it returns and the state it leaves. *)
Record MultipartParser (S : Type) : Type := {
  ParseMultipartForm : Z -> S -> option error * S;
  FormFile : string -> S -> (any * option error) * S
}.
Arguments ParseMultipartForm {S} _ _ _.
Arguments FormFile {S} _ _ _.

(** The loop of [MultipartValuesFromParser] over the names. *)
Fixpoint formFiles {S : Type} (p : MultipartParser S) (names : list string)
  (files : gmap string any) (st : S)
  : (option (gmap string any) * option error) * S :=
  match names with
  | [] => ((Some files, None), st)
  | name :: rest =>
      match FormFile p name st with
      | ((_, Some err), st') => ((None, Some err), st')
      | ((file, None), st') => formFiles p rest (<[name := file]> files) st'
      end
  end.

(** [MultipartValuesFromParser]: the files of the values, or nil and
    the error. *)
Definition MultipartValuesFromParser {S : Type} (p : MultipartParser S) (size : Z)
  (names : list string) (st : S) : (option (gmap string any) * option error) * S :=
  match ParseMultipartForm p size st with
  | (Some err, st') => ((None, Some err), st')
  | (None, st') => formFiles p names ∅ st'
  end.

(** [Image.Get]: nil without a file under the key, and what
    [image.Decode] makes of the file with one ([decode]: the image, nil
    when [image.Decode] reports an error).  The files of the map are
    not nil: [image.Decode] of a nil file panics. *)
Definition Image_Get (decode : value -> any) (Files : gmap string value) (key : string)
  : any :=
  match Files !! key with
  | None => None
  | Some file => decode file
  end.

Definition Image (decode : value -> any) (Files : gmap string value) : Getter :=
  {| Get := Image_Get decode Files; Cast := None |}.

Definition Image_Scan (E : Runtime) (decode : value -> any) (Files : gmap string value)
  : Scanner :=
  Decode E (New (Image decode Files) "image").

Definition tBytes : type := TSlice (TBasic KUint8).

(** A [[]byte] that is not nil, with the bytes of [b]. *)
Definition bytesOf (b : string) : value :=
  VSlice tBytes (Some (map (fun c => VInt (TBasic KUint8) (byte c)) (list_ascii_of_string b))).

(** The conversion [string(b)] of the elements of a [[]byte]. *)
Definition stringOf (elems : option (list value)) : string :=
  string_of_list_ascii
    (map (fun x => match x with
                   | VInt _ n => ascii_of_N (Z.to_N n)
                   | _ => Ascii.zero
                   end) (default [] elems)).

(** [Directory.Get]: an empty [[]byte] without a file under the key, and
    with one all that [io.ReadAll] reads from it ([files]: what there
    is to read in each file, none of which is nil). *)
Definition Directory_Get (files : gmap string string) (key : string) : any :=
  match files !! key with
  | None => Some (bytesOf "")
  | Some content => Some (bytesOf content)
  end.

(** [Directory.Cast].  [reflect.TypeOf] of nil is nil, and its [Kind]
    panics; the assertion [from.([]byte)] panics on a slice of another
    type whose elements are of kind [uint8]. *)
Definition Directory_Cast (from : any) (to : type) : cast_result :=
  if Kind_eqb (kind to) KString then
    match from with
    | None => Panics
    | Some v =>
        let rt := TypeOf v in
        if Kind_eqb (kind rt) KSlice &&
           match Elem rt with
           | Some e => Kind_eqb (kind e) KUint8
           | None => false
           end
        then
          match v with
          | VSlice (TSlice (TBasic KUint8)) b =>
              Returns (Some (VString tString (stringOf b)), None)
          | _ => Panics
          end
        else Returns (None, Some ErrUnsupported)
    end
  else Returns (None, Some ErrUnsupported).

Definition Directory (files : gmap string string) : Getter :=
  {| Get := Directory_Get files; Cast := Some Directory_Cast |}.

Definition Directory_Scan (E : Runtime) (files : gmap string string) : Scanner :=
  Decode E (New (Directory files) "file").

(** ** More notions the statements use *)

(** The number of the bytes [c] in [s]. *)
Fixpoint Count (s : string) (c : ascii) : nat :=
  match s with
  | EmptyString => 0%nat
  | String x r => if decide (x = c) then S (Count r c) else Count r c
  end.

(** The turn of the loop of [Decode] for the field passes over it: the
    field is not exported, has no tag under the key, or its lookup
    gives nil or a zero value. *)
Definition passedOver (d : Decoder) (f : StructField) : Prop :=
  IsExported f = false \/
  Lookup (Tag f) (key d) = None \/
  exists tag, Lookup (Tag f) (key d) = Some tag /\
    (Get (getter d) tag = None \/
     exists x, Get (getter d) tag = Some x /\ IsZero x = true).

(** The lookup of the field gives [x], a value to put into the field:
    the field is exported, has a tag under the key, and the lookup of
    the tag gives [x], which is not zero. *)
Definition lookedUp (d : Decoder) (f : StructField) (x : value) : Prop :=
  IsExported f = true /\
  exists tag, Lookup (Tag f) (key d) = Some tag /\
    Get (getter d) tag = Some x /\ IsZero x = false.

(** What the lookup of the field gives to put into it, if anything:
    the value under the tag of an exported field, when it is not zero. *)
Definition found (d : Decoder) (f : StructField) : option value :=
  if IsExported f then
    match Lookup (Tag f) (key d) with
    | Some tag =>
        match Get (getter d) tag with
        | Some x => if IsZero x then None else Some x
        | None => None
        end
    | None => None
    end
  else None.

(** The lookups of the source give texts only. *)
Definition textSource (d : Decoder) : Prop :=
  forall tag x, Get (getter d) tag = Some x -> exists s, x = VString tString s.

(** Field [i] is the one field of the record that a decoder with key
    [key] looks up: each of the others is not exported or has no tag
    under the key. *)
Definition onlyField (key : string) (fields : list StructField) (i : nat) : Prop :=
  forall j g, fields !! j = Some g -> j <> i ->
    IsExported g = false \/ Lookup (Tag g) key = None.

(** The fields before the first one that a decoder with key [key] looks
    up: none of them is exported with a tag under the key. *)
Definition notRead (key : string) (pre : list StructField) : Prop :=
  Forall (fun g => IsExported g = false \/ Lookup (Tag g) key = None) pre.

(** ** A server program to run the scanners on *)

Module Server.

(** [multipart.File] and [image.Image], with the methods of their method
    sets by name, and of the program
    [type file struct { io.Reader; io.ReaderAt; io.Seeker; io.Closer }],
    whose values have the methods of the four, and [*image.NRGBA]. *)
Definition File : type :=
  TNamed "multipart" "File" (TInterface ["Close"; "Read"; "ReadAt"; "Seek"]).
Definition Image_ : type :=
  TNamed "image" "Image" (TInterface ["At"; "Bounds"; "ColorModel"]).
Definition file : type :=
  TNamed "scanner_test" "file"
    (TStruct
       [mkStructField "Reader" "" [] (TNamed "io" "Reader" (TInterface ["Read"]));
        mkStructField "ReaderAt" "" [] (TNamed "io" "ReaderAt" (TInterface ["ReadAt"]));
        mkStructField "Seeker" "" [] (TNamed "io" "Seeker" (TInterface ["Seek"]));
        mkStructField "Closer" "" [] (TNamed "io" "Closer" (TInterface ["Close"]))]).
Definition Buffer : type := TNamed "bytes" "Buffer" (TOther KStruct "struct {...}").
Definition NRGBA : type := TNamed "image" "NRGBA" (TOther KStruct "struct {...}").

Definition methods (t : type) : list string :=
  if type_eqb t file then ["Close"; "Read"; "ReadAt"; "Seek"]
  else if type_eqb t (TPointer NRGBA)
  then ["At"; "Bounds"; "ColorModel"; "Opaque"; "Set"; "SubImage"]
  else if type_eqb t (TPointer Buffer) then ["Read"; "Write"]
  else Example.methods t.

Definition runtime : Runtime := {|
  arch64 := true;
  MethodSet := methods;
  CallUnmarshalString := Example.unmarshal;
  ParseFloat := ParseFloat Example.runtime;
  FormatFloat := FormatFloat Example.runtime
|}.

(** The fields of [Params] of the package's tests that the header, the
    cookie, the multipart, the image and the directory scanners fill:
    [Language string `header:"accept-language"`],
    [Token string `cookie:"token"`],
    [Document multipart.File `multipart:"document"`],
    [Avatar image.Image `image:"avatar"`],
    [LocalFile string `file:"local.txt"`]. *)
Definition fLanguage : StructField :=
  mkStructField "Language" "" [("header", "accept-language")] tString.
Definition fToken : StructField := mkStructField "Token" "" [("cookie", "token")] tString.
Definition fDocument : StructField :=
  mkStructField "Document" "" [("multipart", "document")] File.
Definition fAvatar : StructField := mkStructField "Avatar" "" [("image", "avatar")] Image_.
Definition fLocalFile : StructField :=
  mkStructField "LocalFile" "" [("file", "local.txt")] tString.

Definition Params : type :=
  TNamed "scanner_test" "Params"
    (TStruct [fLanguage; fToken; fDocument; fAvatar; fLocalFile]).

(** [type Sized struct { Size int `file:"size"`; Name string `file:"name"` }]
    and [type Titled struct { Title Code `file:"title"` }]. *)
Definition fSized : StructField := mkStructField "Size" "" [("file", "size")] tInt.
Definition Sized : type :=
  TNamed "main" "Sized"
    (TStruct [fSized; mkStructField "Name" "" [("file", "name")] tString]).
Definition fTitle : StructField :=
  mkStructField "Title" "" [("file", "title")] Example.Code.
Definition Titled : type := TNamed "main" "Titled" (TStruct [fTitle]).

(** [type Session struct { Count int `cookie:"count"` }]. *)
Definition fCount : StructField := mkStructField "Count" "" [("cookie", "count")] tInt.
Definition Session : type := TNamed "main" "Session" (TStruct [fCount]).

(** The [Params] of the readme:
    [IDs []string `query:"ids"`], [Language string `header:"accept-language"`],
    [Token string `cookie:"token"`]. *)
Definition Readme : type :=
  TNamed "main" "Params"
    (TStruct [mkStructField "IDs" "" [("query", "ids")] (TSlice tString);
              fLanguage; fToken]).

(** [textproto.CanonicalMIMEHeaderKey], on the one key of the tests. *)
Definition canon (key : string) : string :=
  if decide (key = "accept-language") then "Accept-Language" else key.

(** A [file] around a [*bytes.Buffer], the buffer being [VOther] number [n]. *)
Definition document (n : nat) : value :=
  VStruct file
    [VInterface (TNamed "io" "Reader" (TInterface ["Read"]))
       (Some (VPointer (TPointer Buffer) (Some (VOther Buffer false n))));
     VInterface (TNamed "io" "ReaderAt" (TInterface ["ReadAt"])) None;
     VInterface (TNamed "io" "Seeker" (TInterface ["Seek"])) None;
     VInterface (TNamed "io" "Closer" (TInterface ["Close"])) None].

(** The [*image.NRGBA] that [image.Decode] makes of the document number 1;
    the other documents are no images. *)
Definition picture : value := VPointer (TPointer NRGBA) (Some (VOther NRGBA false 1)).

Definition decode (file : value) : any :=
  match file with
  | VStruct _ (VInterface _ (Some (VPointer _ (Some (VOther _ _ 1%nat)))) :: _) =>
      Some picture
  | _ => None
  end.

(** An [*http.Request] as a [MultipartParser]: the form is parsed or
    not, within the size or not; [FormFile] parses it when it is not
    (with [http]'s default size), and gives the one file of the form. *)
Definition request : MultipartParser bool := {|
  ParseMultipartForm := fun size parsed =>
    if (size <? 13)%Z then (Some (UserError "multipart: message too large"), parsed)
    else (None, true);
  FormFile := fun name parsed =>
    if decide (name = "document") then ((Some (document 0), None), true)
    else ((None, Some (UserError "http: no such file")), true)
|}.

End Server.

(** ** A [strconv.ParseFloat] for the decimal numerals *)

Module Decimal.

(** The value of the float type with [p] bits of precision and
    exponents below [emx] that is nearest to [m * 10 ^ e], ties to
    even. *)
Definition nearest (p emx : Z) (neg : bool) (m e : Z) : spec_float :=
  match m with
  | Zpos _ =>
      if (e <? 0)%Z then
        let '(q, e', l) := SFdiv_core_binary p emx m 0 (10 ^ (- e))%Z 0 in
        binary_round_aux p emx neg q e' l
      else binary_normalize p emx (m * 10 ^ e)%Z 0 neg
  | _ => S754_zero neg
  end.

(** [strconv.ParseFloat] on the decimal numerals; the other texts are
    refused here. *)
Definition parseDecimal (s : string) (bitSize : Z) : float * option error :=
  match decimalFloat s with
  | Some (neg, m, e) =>
      if reaches m e (floatLimit bitSize)
      then ((if neg then neg_infinity else infinity), Some (rangeError fnParseFloat s))
      else
        (SF2Prim (if (bitSize =? 32)%Z then nearest 24 128 neg m e
                  else nearest 53 1024 neg m e), None)
  | None => (0%float, Some (syntaxError fnParseFloat s))
  end.

Definition runtime : Runtime := {|
  arch64 := true;
  MethodSet := Example.methods;
  CallUnmarshalString := Example.unmarshal;
  ParseFloat := parseDecimal;
  FormatFloat := FormatFloat Example.runtime
|}.


End Decimal.

(** ** error.go: the text of an [UnmarshalTypeError] *)

(** [UnmarshalTypeError.Error]. *)
Definition UnmarshalTypeError_Error (Value : string) (Type' : type)
  (Struct Field : string) : string :=
  if negb (String.eqb Struct "") || negb (String.eqb Field "")
  then "structd: cannot unmarshal " ++ Value ++ " into Go struct field " ++
       Struct ++ "." ++ Field ++ " of type " ++ type_String Type'
  else "structd: cannot unmarshal " ++ Value ++ " into Go value of type " ++
       type_String Type'.

(** * Proofs *)

Local Close Scope string_scope.

(** ** Facts on strconv *)

Section Strconv.

Lemma pow2_64 : 2 ^ 64 = 18446744073709551616.
Proof. reflexivity. Qed.

Lemma cutoff_value : cutoff = 1844674407370955162.
Proof. reflexivity. Qed.

Lemma maxUint64_value : maxUint64 = 18446744073709551615.
Proof. reflexivity. Qed.

Lemma decimalDigit_spec c d :
  decimalDigit c = Some d -> digitOf c = Some d /\ 0 <= d < 10.
Proof.
  unfold decimalDigit, digitOf.
  destruct ((48 <=? byte c) && (byte c <=? 57)) eqn:H1.
  - destruct (byte c - 48 <? 10) eqn:H2; intros H; inversion H; subst.
    apply andb_true_iff in H1. split; [reflexivity | lia].
  - destruct ((97 <=? lower (byte c)) && (lower (byte c) <=? 122)) eqn:H2;
      [| discriminate].
    destruct (lower (byte c) - 97 + 10 <? 10) eqn:H3; intros H; inversion H.
    apply andb_true_iff in H2. lia.
Qed.

Lemma decimalDigit_digitChar d :
  0 <= d < 10 -> decimalDigit (digitChar d) = Some d.
Proof.
  intros H.
  assert (d = 0 \/ d = 1 \/ d = 2 \/ d = 3 \/ d = 4 \/ d = 5 \/ d = 6 \/
          d = 7 \/ d = 8 \/ d = 9) as Hd by lia.
  repeat (destruct Hd as [-> | Hd]; [reflexivity |]). subst. reflexivity.
Qed.

Lemma decVal_le cs : forall n, 0 <= n -> n <= decVal cs n.
Proof.
  induction cs as [| c r IH]; intros n Hn; simpl; [lia |].
  destruct (decimalDigit c) as [d |] eqn:Hd; simpl.
  - apply decimalDigit_spec in Hd. etransitivity; [| apply IH]; lia.
  - etransitivity; [| apply IH]; lia.
Qed.


(** The loop on decimal digits: the number they denote, or a range error. *)
Lemma parseUintLoop_decimal s0 maxVal cs : forall n,
  isDecimal cs = true -> 0 <= n <= maxVal -> maxVal <= maxUint64 ->
  parseUintLoop s0 maxVal cs n =
  if decVal cs n <=? maxVal then (decVal cs n, None)
  else (maxVal, Some (rangeError fnParseUint s0)).
Proof.
  rewrite maxUint64_value.
  induction cs as [| c rest IH]; intros n Hdec Hn Hmax; simpl in *.
  - replace (n <=? maxVal) with true by lia. reflexivity.
  - destruct (decimalDigit c) as [d |] eqn:Hd; [| discriminate].
    apply decimalDigit_spec in Hd as [-> Hd]. simpl. unfold base.
    replace (d >=? 10) with false by lia.
    destruct (n >=? cutoff) eqn:Hcut.
    + rewrite cutoff_value in Hcut.
      assert (maxVal < decVal rest (n * 10 + d)).
      { pose proof (decVal_le rest (n * 10 + d)). lia. }
      replace (decVal rest (n * 10 + d) <=? maxVal) with false by lia.
      reflexivity.
    + rewrite cutoff_value in Hcut.
      assert (wrap64 (n * 10) = n * 10) as ->.
      { unfold wrap64. rewrite pow2_64. apply Z.mod_small. lia. }
      destruct (Z_lt_ge_dec (n * 10 + d) 18446744073709551616) as [Hlt | Hge].
      * assert (wrap64 (n * 10 + d) = n * 10 + d) as ->.
        { unfold wrap64. rewrite pow2_64. apply Z.mod_small. lia. }
        replace (n * 10 + d <? n * 10) with false by lia. simpl.
        destruct (n * 10 + d >? maxVal) eqn:Hgt.
        -- assert (maxVal < decVal rest (n * 10 + d)).
           { pose proof (decVal_le rest (n * 10 + d)). lia. }
           replace (decVal rest (n * 10 + d) <=? maxVal) with false by lia.
           reflexivity.
        -- apply IH; [assumption | lia | lia].
      * assert (wrap64 (n * 10 + d) = n * 10 + d - 18446744073709551616) as ->.
        { unfold wrap64. rewrite pow2_64.
          symmetry. apply Z.mod_unique with (q := 1); lia. }
        replace (n * 10 + d - 18446744073709551616 <? n * 10) with true by lia.
        simpl.
        assert (maxVal < decVal rest (n * 10 + d)).
        { pose proof (decVal_le rest (n * 10 + d)). lia. }
        replace (decVal rest (n * 10 + d) <=? maxVal) with false by lia.
        reflexivity.
Qed.

End Strconv.

(** ** Facts on the printing of integers *)

Section Fmt.

Lemma fmtDigits_decimal fuel : forall u acc,
  0 <= u -> Z.log2 u <= Z.of_nat fuel -> isDecimal acc = true ->
  isDecimal (fmtDigits fuel u acc) = true /\
  decVal (fmtDigits fuel u acc) 0 = decVal acc u.
Proof.
  induction fuel as [| fuel IH]; intros u acc Hu Hlog Hacc.
  - assert (u < 10).
    { destruct (Z.eq_dec u 0) as [-> | Hne]; [lia |].
      assert (u < 2 ^ 1); [| lia].
      apply Z.log2_lt_pow2; lia. }
    simpl. rewrite decimalDigit_digitChar by lia. simpl. auto.
  - simpl. destruct (u >=? 10) eqn:H10.
    + assert (0 <= u mod 10 < 10) by (apply Z.mod_pos_bound; lia).
      assert (0 < u / 10) by (apply Z.div_str_pos; lia).
      destruct (IH (u / 10) (String (digitChar (u mod 10)) acc)) as [H1 H2].
      * lia.
      * assert (Z.log2 (u / 10) < Z.of_nat fuel + 1); [| lia].
        apply Z.log2_lt_pow2; [lia |].
        assert (u < 2 ^ (Z.of_nat (S fuel) + 1)) as Hb.
        { apply Z.log2_lt_pow2; lia. }
        replace (Z.of_nat (S fuel) + 1) with (Z.of_nat fuel + 1 + 1) in Hb by lia.
        rewrite Z.pow_add_r in Hb by lia. change (2 ^ 1) with 2 in Hb.
        apply Z.div_lt_upper_bound; lia.
      * simpl. rewrite decimalDigit_digitChar by lia. assumption.
      * split; [assumption |]. rewrite H2. simpl.
        rewrite decimalDigit_digitChar by lia. simpl.
        f_equal. pose proof (Z.div_mod u 10). lia.
    + simpl. rewrite decimalDigit_digitChar by lia. simpl. auto.
Qed.

Lemma fmtDigits_cons fuel : forall u acc,
  exists c r, fmtDigits fuel u acc = String c r.
Proof.
  induction fuel as [| fuel IH]; intros u acc; simpl; [eauto |].
  destruct (u >=? 10); eauto.
Qed.

(** The digits [fmt] prints for [u] are decimal digits that denote [u]. *)
Lemma fmtDigits_spec u :
  0 <= u ->
  let ds := fmtDigits (Z.to_nat (Z.log2 u)) u "" in
  isDecimal ds = true /\ decVal ds 0 = u /\ exists c r, ds = String c r.
Proof.
  intros Hu ds.
  destruct (fmtDigits_decimal (Z.to_nat (Z.log2 u)) u "") as [H1 H2];
    [lia | | reflexivity |].
  { pose proof (Z.log2_nonneg u). lia. }
  split; [exact H1 |]. split; [exact H2 |]. apply fmtDigits_cons.
Qed.

Lemma decimal_not_sign c d :
  decimalDigit c = Some d -> c <> "+"%char /\ c <> "-"%char.
Proof.
  intros H. split; intros ->; discriminate.
Qed.

End Fmt.

(** ** [ParseUint] and [ParseInt] on numerals *)

(** The four bit sizes, one after the other. *)
Ltac each_width H := destruct H as [-> | [-> | [-> | ->]]].

(** The value of [2 ^ 63] written out, for [lia]. *)
Ltac pow63 := change (2 ^ 63) with 9223372036854775808 in *.

Section ParseDecimal.

Variable E : Runtime.

Lemma maxVal_value bits :
  width bits -> wrap64 (wrap64 (2 ^ bits) - 1) = 2 ^ bits - 1.
Proof.
  intros Hw; each_width Hw; reflexivity.
Qed.

Lemma width_nonzero bits : width bits -> (bits =? 0) = false.
Proof. intros Hw; each_width Hw; reflexivity. Qed.

Lemma width_valid bits : width bits -> (bits <? 0) || (bits >? 64) = false.
Proof. intros Hw; each_width Hw; reflexivity. Qed.

Lemma pow2_width_le bits : width bits -> 2 ^ bits - 1 <= maxUint64.
Proof. intros Hw; each_width Hw; vm_compute; congruence. Qed.

(** [ParseUint] on decimal digits. *)
Lemma ParseUint_decimal ds bits :
  width bits -> isDecimal ds = true -> ds <> EmptyString ->
  ParseUint E ds bits =
  if decVal ds 0 <=? 2 ^ bits - 1 then (decVal ds 0, None)
  else (2 ^ bits - 1, Some (rangeError fnParseUint ds)).
Proof.
  intros Hw Hdec Hne. unfold ParseUint.
  destruct (decide (ds = EmptyString)) as [| _]; [contradiction |].
  rewrite (width_nonzero _ Hw), (width_valid _ Hw). simpl.
  rewrite (maxVal_value _ Hw).
  apply parseUintLoop_decimal; [assumption | | apply pow2_width_le; assumption].
  pose proof (pow2_width_le _ Hw).
  each_width Hw; vm_compute; split; congruence.
Qed.


Lemma toInt64_small n : - 2 ^ 63 <= n < 2 ^ 63 -> toInt64 n = n.
Proof.
  intros H. unfold toInt64.
  pow63.
  change (2 ^ 64) with 18446744073709551616.
  rewrite Z.mod_small; lia.
Qed.

(** The negation of [ParseInt]: [-int64(un)], the least [int64] included. *)
Lemma toInt64_neg n : 0 <= n <= 2 ^ 63 -> toInt64 (- toInt64 n) = - n.
Proof.
  intros Hn. pow63.
  destruct (Z.eq_dec n 9223372036854775808) as [-> | Hne].
  - reflexivity.
  - rewrite (toInt64_small n) by (pow63; lia).
    apply toInt64_small. pow63. lia.
Qed.

Lemma half_value bits :
  width bits -> wrap64 (2 ^ (bits - 1)) = 2 ^ (bits - 1).
Proof. intros Hw; each_width Hw; reflexivity. Qed.

Lemma pow2_half bits : width bits ->
  2 ^ bits = 2 * 2 ^ (bits - 1) /\ 2 <= 2 ^ (bits - 1) <= 2 ^ 63.
Proof. intros Hw; each_width Hw; vm_compute; repeat split; congruence. Qed.

(** [ParseInt] on decimal digits without a sign or after a plus sign. *)
Lemma ParseInt_decimal s ds bits :
  width bits -> isDecimal ds = true -> ds <> EmptyString ->
  s = ds \/ s = String "+"%char ds ->
  ParseInt E s bits =
  if decVal ds 0 <? 2 ^ (bits - 1) then (decVal ds 0, None)
  else (2 ^ (bits - 1) - 1, Some (rangeError fnParseInt s)).
Proof.
  intros Hw Hdec Hne Hs.
  assert (exists c rest, s = String c rest /\
            (if decide (c = "+"%char) then (false, rest)
             else if decide (c = "-"%char) then (true, rest)
             else (false, s)) = (false, ds)) as (c & rest & -> & Hsign).
  { destruct Hs as [-> | ->].
    - destruct ds as [| c rest]; [contradiction |].
      exists c, rest. split; [reflexivity |].
      simpl in Hdec. destruct (decimalDigit c) as [d |] eqn:Hd; [| discriminate].
      apply decimal_not_sign in Hd as [H1 H2].
      destruct (decide (c = "+"%char)); [contradiction |].
      destruct (decide (c = "-"%char)); [contradiction |]. reflexivity.
    - exists "+"%char, ds. split; reflexivity. }
  unfold ParseInt. rewrite Hsign.
  rewrite (ParseUint_decimal _ _ Hw Hdec Hne).
  rewrite (width_nonzero _ Hw), (half_value _ Hw).
  destruct (pow2_half _ Hw) as [Hp [Hp1 Hp2]].
  pose proof (decVal_le ds 0 ltac:(lia)) as Hnonneg.
  pow63.
  destruct (decVal ds 0 <=? 2 ^ bits - 1) eqn:Hle.
  - simpl. destruct (decVal ds 0 >=? 2 ^ (bits - 1)) eqn:Hge.
    + replace (decVal ds 0 <? 2 ^ (bits - 1)) with false by lia.
      rewrite toInt64_small by (pow63; lia).
      reflexivity.
    + replace (decVal ds 0 <? 2 ^ (bits - 1)) with true by lia.
      rewrite toInt64_small by (pow63; lia).
      reflexivity.
  - unfold rangeError at 1. simpl.
    replace (2 ^ bits - 1 >=? 2 ^ (bits - 1)) with true by lia.
    replace (decVal ds 0 <? 2 ^ (bits - 1)) with false by lia.
    rewrite toInt64_small by (pow63; lia).
    reflexivity.
Qed.

(** [ParseInt] on decimal digits after a minus sign. *)
Lemma ParseInt_negative ds bits :
  width bits -> isDecimal ds = true -> ds <> EmptyString ->
  ParseInt E (String "-"%char ds) bits =
  if decVal ds 0 <=? 2 ^ (bits - 1) then (- decVal ds 0, None)
  else (- 2 ^ (bits - 1), Some (rangeError fnParseInt (String "-"%char ds))).
Proof.
  intros Hw Hdec Hne. unfold ParseInt. simpl.
  rewrite (ParseUint_decimal _ _ Hw Hdec Hne).
  rewrite (width_nonzero _ Hw), (half_value _ Hw).
  destruct (pow2_half _ Hw) as [Hp [Hp1 Hp2]].
  pose proof (decVal_le ds 0 ltac:(lia)) as Hnonneg.
  pose proof toInt64_neg as Hneg.
  destruct (decVal ds 0 <=? 2 ^ bits - 1) eqn:Hle.
  - simpl. destruct (decVal ds 0 >? 2 ^ (bits - 1)) eqn:Hgt.
    + replace (decVal ds 0 <=? 2 ^ (bits - 1)) with false by lia.
      rewrite Hneg by lia. reflexivity.
    + replace (decVal ds 0 <=? 2 ^ (bits - 1)) with true by lia.
      rewrite Hneg by lia. reflexivity.
  - unfold rangeError at 1. simpl.
    replace (2 ^ bits - 1 >? 2 ^ (bits - 1)) with true by lia.
    replace (decVal ds 0 <=? 2 ^ (bits - 1)) with false by lia.
    rewrite Hneg by lia. reflexivity.
Qed.

End ParseDecimal.

(** ** [parse] at the integer kinds *)

Section ParseFacts.

Variable E : Runtime.





Lemma Bits_width k :
  signedKind k || unsignedKind k = true -> width (Bits E k).
Proof.
  unfold width, Bits, IntSize.
  destruct k; simpl; try discriminate; intros _; destruct (arch64 E); auto.
Qed.

Lemma toUint_small bits n : width bits -> 0 <= n <= 2 ^ bits - 1 -> toUint bits n = n.
Proof.
  intros Hw H. unfold toUint. apply Z.mod_small. lia.
Qed.

Lemma toInt_small bits n :
  width bits -> - 2 ^ (bits - 1) <= n <= 2 ^ (bits - 1) - 1 -> toInt bits n = n.
Proof.
  intros Hw H. unfold toInt. destruct (pow2_half _ Hw) as [Hp _].
  rewrite Z.mod_small; lia.
Qed.


(** [parse] at an integer kind on a numeral: the number when the type
    holds it, a range error with the zero value when not. *)
Lemma parse_numeral k s v :
  signedKind k || unsignedKind k = true ->
  numeral (signedKind k) s v ->
  parse E k s =
  if (minOf E k <=? v) && (v <=? maxOf E k)
  then (Some (VInt (TBasic k) v), None)
  else (Some (VInt (TBasic k) 0), Some (NumError (fnParse k) s ErrRange)).
Proof.
  intros Hk (ds & Hdec & Hne & Hs). pose proof (Bits_width _ Hk) as Hw.
  destruct (pow2_half _ Hw) as [Hp [Hp1 Hp2]].
  pose proof (decVal_le ds 0 ltac:(lia)) as Hnonneg.
  unfold minOf, maxOf, fnParse.
  destruct (signedKind k) eqn:Hsg.
  - assert (parse E k s =
            let '(i, err) := ParseInt E s (Bits E k) in
            match err with
            | Some e => (Some (VInt (TBasic k) 0), Some e)
            | None => (Some (VInt (TBasic k) (toInt (Bits E k) i)), None)
            end) as -> by (destruct k; try discriminate; reflexivity).
    destruct Hs as [[-> ->] | [_ [[-> ->] | [-> ->]]]].
    + rewrite (ParseInt_decimal E ds ds _ Hw Hdec Hne) by auto.
      destruct (decVal ds 0 <? 2 ^ (Bits E k - 1)) eqn:Hlt.
      * rewrite toInt_small by (try assumption; lia).
        replace ((- 2 ^ (Bits E k - 1) <=? decVal ds 0)
                 && (decVal ds 0 <=? 2 ^ (Bits E k - 1) - 1)) with true by lia.
        reflexivity.
      * replace ((- 2 ^ (Bits E k - 1) <=? decVal ds 0)
                 && (decVal ds 0 <=? 2 ^ (Bits E k - 1) - 1)) with false by lia.
        reflexivity.
    + rewrite (ParseInt_decimal E _ ds _ Hw Hdec Hne) by auto.
      destruct (decVal ds 0 <? 2 ^ (Bits E k - 1)) eqn:Hlt.
      * rewrite toInt_small by (try assumption; lia).
        replace ((- 2 ^ (Bits E k - 1) <=? decVal ds 0)
                 && (decVal ds 0 <=? 2 ^ (Bits E k - 1) - 1)) with true by lia.
        reflexivity.
      * replace ((- 2 ^ (Bits E k - 1) <=? decVal ds 0)
                 && (decVal ds 0 <=? 2 ^ (Bits E k - 1) - 1)) with false by lia.
        reflexivity.
    + rewrite (ParseInt_negative E ds _ Hw Hdec Hne).
      destruct (decVal ds 0 <=? 2 ^ (Bits E k - 1)) eqn:Hle.
      * rewrite toInt_small by (try assumption; lia).
        replace ((- 2 ^ (Bits E k - 1) <=? - decVal ds 0)
                 && (- decVal ds 0 <=? 2 ^ (Bits E k - 1) - 1)) with true by lia.
        reflexivity.
      * replace ((- 2 ^ (Bits E k - 1) <=? - decVal ds 0)
                 && (- decVal ds 0 <=? 2 ^ (Bits E k - 1) - 1)) with false by lia.
        reflexivity.
  - simpl in Hk.
    assert (parse E k s =
            let '(i, err) := ParseUint E s (Bits E k) in
            match err with
            | Some e => (Some (VInt (TBasic k) 0), Some e)
            | None => (Some (VInt (TBasic k) (toUint (Bits E k) i)), None)
            end) as -> by (destruct k; try discriminate; reflexivity).
    destruct Hs as [[-> ->] | [? _]]; [| discriminate].
    rewrite (ParseUint_decimal E ds _ Hw Hdec Hne).
    replace (0 <=? decVal ds 0) with true by lia. simpl.
    destruct (decVal ds 0 <=? 2 ^ Bits E k - 1) eqn:Hle; [| reflexivity].
    rewrite toUint_small by (try assumption; lia). reflexivity.
Qed.

End ParseFacts.

(** ** [DefaultCast] on a text *)

Section CastFacts.

Variable E : Runtime.

Lemma kind_underlying t : kind (underlying t) = kind t.
Proof. induction t; simpl; auto. Qed.

Lemma DefaultCast_text s to : DefaultCast E (text s) to = castText E to to s.
Proof. reflexivity. Qed.

(** [DefaultCast] on a text as the source has it: the switch on the kind
    of the target, and the loop over the parts of the text with
    [DefaultCast] itself on each part. *)
Lemma castText_switch to u from :
  castText E to u from =
  match kind u with
  | KUint8 => Returns (parse E KUint8 from)
  | KUint16 => Returns (parse E KUint16 from)
  | KUint32 => Returns (parse E KUint32 from)
  | KUint64 => Returns (parse E KUint64 from)
  | KInt8 => Returns (parse E KInt8 from)
  | KInt16 => Returns (parse E KInt16 from)
  | KInt32 => Returns (parse E KInt32 from)
  | KInt64 => Returns (parse E KInt64 from)
  | KUint => Returns (parse E KUint from)
  | KInt => Returns (parse E KInt from)
  | KFloat32 => Returns (parse E KFloat32 from)
  | KFloat64 => Returns (parse E KFloat64 from)
  | KBool => let '(b, err) := ParseBool from in Returns (Some (VBool tBool b), err)
  | KSlice =>
      match Elem u with
      | Some e =>
          let split := Split from DefaultSeperator in
          match kind e with
          | KString =>
              Returns (Some (VSlice (TSlice tString)
                               (Some (map (VString tString) split))), None)
          | _ =>
              castEntries E to e (fun entry => DefaultCast E (text entry) e) split None
          end
      | None => Panics
      end
  | _ => castUnmarshaler E to from
  end.
Proof.
  unfold Elem.
  induction u as [k | p n u IH | e _ | e _ | fs | ms | k r]; simpl; auto;
    destruct k; reflexivity.
Qed.

Lemma DefaultCast_text_switch to from :
  DefaultCast E (text from) to =
  match kind to with
  | KUint8 => Returns (parse E KUint8 from)
  | KUint16 => Returns (parse E KUint16 from)
  | KUint32 => Returns (parse E KUint32 from)
  | KUint64 => Returns (parse E KUint64 from)
  | KInt8 => Returns (parse E KInt8 from)
  | KInt16 => Returns (parse E KInt16 from)
  | KInt32 => Returns (parse E KInt32 from)
  | KInt64 => Returns (parse E KInt64 from)
  | KUint => Returns (parse E KUint from)
  | KInt => Returns (parse E KInt from)
  | KFloat32 => Returns (parse E KFloat32 from)
  | KFloat64 => Returns (parse E KFloat64 from)
  | KBool => let '(b, err) := ParseBool from in Returns (Some (VBool tBool b), err)
  | KSlice =>
      match Elem to with
      | Some e =>
          let split := Split from DefaultSeperator in
          match kind e with
          | KString =>
              Returns (Some (VSlice (TSlice tString)
                               (Some (map (VString tString) split))), None)
          | _ =>
              castEntries E to e (fun entry => DefaultCast E (text entry) e) split None
          end
      | None => Panics
      end
  | _ => castUnmarshaler E to from
  end.
Proof. apply castText_switch. Qed.

Lemma castText_integer to u s :
  signedKind (kind u) || unsignedKind (kind u) = true ->
  castText E to u s = Returns (parse E (kind u) s).
Proof.
  induction u as [k | p n u IH | e _ | e _ | fs | ms | k r]; simpl; intros Hk;
    try discriminate; auto.
  - destruct k; try discriminate; reflexivity.
  - destruct k; try discriminate; reflexivity.
Qed.


Lemma castText_other to u s :
  builtinKind (kind u) = false ->
  castText E to u s = castUnmarshaler E to s.
Proof.
  induction u as [k | p n u IH | e _ | e _ | fs | ms | k r]; simpl; intros Hk;
    try discriminate; auto.
  - destruct k; try discriminate; reflexivity.
  - destruct k; try discriminate; reflexivity.
Qed.

Lemma castText_slice to u s e :
  kind u = KSlice -> Elem u = Some e ->
  castText E to u s =
  match kind e with
  | KString =>
      Returns (Some (VSlice (TSlice tString)
                       (Some (map (VString tString) (Split s DefaultSeperator)))), None)
  | _ => castEntries E to e (castText E e e) (Split s DefaultSeperator) None
  end.
Proof.
  unfold Elem.
  induction u as [k | p n u IH | e' _ | e' _ | fs | ms | k r]; simpl;
    intros Hk He; try discriminate; auto.
  inversion He; subst. reflexivity.
Qed.

Lemma fmtInteger_numeral k n :
  representable E k n -> numeral (signedKind k) (fmtInteger n) n.
Proof.
  intros [Hk Hr]. unfold fmtInteger.
  destruct (fmtDigits_spec (Z.abs n) ltac:(lia)) as (Hdec & Hval & c & r & Hds).
  exists (fmtDigits (Z.to_nat (Z.log2 (Z.abs n))) (Z.abs n) "").
  split; [exact Hdec |]. split; [rewrite Hds; discriminate |].
  destruct (n <? 0) eqn:Hneg.
  - right. unfold minOf in Hr.
    destruct (signedKind k); [| lia].
    split; [reflexivity |]. right. split; [reflexivity |]. lia.
  - left. split; [reflexivity |]. lia.
Qed.

End CastFacts.


Lemma fmtDigits_leading fuel : forall u acc,
  0 < u -> Z.log2 u <= Z.of_nat fuel ->
  exists d r, fmtDigits fuel u acc = String (digitChar d) r /\ 0 < d < 10.
Proof.
  induction fuel as [| fuel IH]; intros u acc Hu Hlog.
  - assert (u < 2 ^ 1) by (apply Z.log2_lt_pow2; lia).
    simpl. exists u, acc. split; [reflexivity | lia].
  - simpl. destruct (u >=? 10) eqn:H10.
    + apply IH.
      * apply Z.div_str_pos; lia.
      * assert (0 < u / 10) by (apply Z.div_str_pos; lia).
        assert (Z.log2 (u / 10) < Z.of_nat fuel + 1); [| lia].
        apply Z.log2_lt_pow2; [lia |].
        assert (u < 2 ^ (Z.of_nat (S fuel) + 1)) as Hb.
        { apply Z.log2_lt_pow2; lia. }
        replace (Z.of_nat (S fuel) + 1) with (Z.of_nat fuel + 1 + 1) in Hb by lia.
        rewrite Z.pow_add_r in Hb by lia. change (2 ^ 1) with 2 in Hb.
        apply Z.div_lt_upper_bound; lia.
    + exists u, acc. split; [reflexivity | lia].
Qed.

(** What [%d] prints is the numeral of the number in its shortest form:
    sign, then digits that denote the absolute value, the first of them
    not a zero unless the number is zero. *)
Lemma fmtInteger_canonical n :
  numeral true (fmtInteger n) n /\
  (n = 0 -> fmtInteger n = "0"%string) /\
  (0 < n -> exists d r, fmtInteger n = String (digitChar d) r /\ 0 < d < 10) /\
  (n < 0 -> exists d r, fmtInteger n = String "-"%char (String (digitChar d) r)
                        /\ 0 < d < 10).
Proof.
  split; [| split; [| split]].
  - unfold fmtInteger.
    destruct (fmtDigits_spec (Z.abs n) ltac:(lia)) as (Hdec & Hval & c & r & Hds).
    exists (fmtDigits (Z.to_nat (Z.log2 (Z.abs n))) (Z.abs n) "").
    split; [exact Hdec |]. split; [rewrite Hds; discriminate |].
    destruct (n <? 0) eqn:Hneg.
    + right. split; [reflexivity |]. right. split; [reflexivity |]. lia.
    + left. split; [reflexivity |]. lia.
  - intros ->. reflexivity.
  - intros Hn. unfold fmtInteger. replace (n <? 0) with false by lia.
    apply fmtDigits_leading; [lia |].
    pose proof (Z.log2_nonneg (Z.abs n)). lia.
  - intros Hn. unfold fmtInteger. replace (n <? 0) with true by lia.
    destruct (fmtDigits_leading (Z.to_nat (Z.log2 (Z.abs n))) (Z.abs n) "")
      as (d & r & -> & Hd); [lia | | eauto].
    pose proof (Z.log2_nonneg (Z.abs n)). lia.
Qed.

(** ** The parts of a text *)

Section SequenceFacts.

Variable E : Runtime.

Lemma Split_cons s sep : exists x r, Split s sep = x :: r.
Proof.
  induction s as [| c s IH]; simpl; [eauto |].
  destruct (decide (c = sep)); [eauto |].
  destruct IH as (x & r & ->). eauto.
Qed.

(** Joining the parts of a text gives the text back, and no part holds
    the separator. *)
Lemma Join_Split s sep : Join (Split s sep) sep = s.
Proof.
  induction s as [| c s IH]; simpl; [reflexivity |].
  destruct (decide (c = sep)) as [-> | Hne].
  - destruct (Split_cons s sep) as (x & r & Hx). rewrite Hx in *.
    simpl. simpl in IH. rewrite IH. reflexivity.
  - destruct (Split_cons s sep) as (x & r & Hx). rewrite Hx in *.
    destruct r as [| y r]; simpl in *; rewrite <- IH; reflexivity.
Qed.

Lemma castEntries_all to e parts : forall vs acc,
  Forall2 (castsTo E e) parts vs ->
  castEntries E to e (castText E e e) parts acc =
  Returns (Some (VSlice to (match parts with
                            | [] => acc
                            | _ => Some (default [] acc ++ vs)
                            end)), None).
Proof.
  induction parts as [| part rest IH]; intros vs acc H; inversion H; subst.
  - reflexivity.
  - match goal with Hc : castsTo _ _ _ _ |- _ => destruct Hc as (x & Hx & Ha) end.
    simpl. rewrite <- DefaultCast_text, Hx. unfold Append. rewrite Ha.
    erewrite IH by eassumption. simpl.
    destruct rest.
    + match goal with Hf : Forall2 _ [] _ |- _ => inversion Hf end. reflexivity.
    + rewrite <- app_assoc. reflexivity.
Qed.

Lemma castEntries_fail to e pre : forall vs acc part post x err,
  Forall2 (castsTo E e) pre vs ->
  DefaultCast E (text part) e = Returns (x, Some err) ->
  castEntries E to e (castText E e e) (pre ++ part :: post) acc =
  Returns (None, Some err).
Proof.
  induction pre as [| p rest IH]; intros vs acc part post x err H Hf.
  - simpl. rewrite <- DefaultCast_text, Hf. reflexivity.
  - inversion H; subst.
    match goal with Hc : castsTo _ _ _ _ |- _ => destruct Hc as (z & Hz & Ha) end.
    simpl. rewrite <- DefaultCast_text, Hz. unfold Append. rewrite Ha.
    eapply IH; eassumption.
Qed.

Lemma castEntries_panic to e pre : forall vs acc part post x,
  Forall2 (castsTo E e) pre vs ->
  DefaultCast E (text part) e = Returns (Some x, None) ->
  assignTo E e x = None ->
  castEntries E to e (castText E e e) (pre ++ part :: post) acc = Panics.
Proof.
  induction pre as [| p rest IH]; intros vs acc part post x H Hx Hn.
  - simpl. rewrite <- DefaultCast_text, Hx. unfold Append. rewrite Hn. reflexivity.
  - inversion H; subst.
    match goal with Hc : castsTo _ _ _ _ |- _ => destruct Hc as (z & Hz & Ha) end.
    simpl. rewrite <- DefaultCast_text, Hz. unfold Append. rewrite Ha.
    eapply IH; eassumption.
Qed.

End SequenceFacts.


(** ** The loop of [Decode] *)

Section DecodeFacts.

Variables (E : Runtime) (d : Decoder).

Lemma Kind_eqb_eq a b : Kind_eqb a b = true <-> a = b.
Proof.
  split; [| intros ->; destruct b; reflexivity].
  destruct a, b; simpl; intros H; try discriminate; reflexivity.
Qed.

Lemma assignTo_None dst v :
  assignTo E dst v = None <-> AssignableTo E (TypeOf v) dst = false.
Proof.
  unfold assignTo, AssignableTo.
  destruct (directlyAssignable dst (TypeOf v)); simpl; [split; discriminate |].
  destruct (implements E dst (TypeOf v)); split; intros; congruence.
Qed.

Lemma Set__spec i ft x vals fl vals' :
  Set_ E i ft x vals = (fl, vals') ->
  (fl = Continue /\ exists v v', x = Some v /\ assignTo E ft v = Some v' /\
                                 vals' = <[i := v']> vals) \/
  (fl = Panicked /\ vals' = vals /\
   (x = None \/ exists v, x = Some v /\ assignTo E ft v = None)).
Proof.
  unfold Set_. destruct x as [v |].
  - destruct (assignTo E ft v) as [v' |] eqn:Ha; intros [= <- <-].
    + left. eauto 10.
    + right. eauto 10.
  - intros [= <- <-]. right. auto.
Qed.

(** One turn of the loop writes no field but its own, and none when it
    does not go on. *)
Lemma decodeField_frame rt i f vals fl vals' :
  decodeField E d rt i f vals = (fl, vals') ->
  length vals' = length vals /\
  (forall j, j <> i -> vals' !! j = vals !! j) /\
  (fl <> Continue -> vals' = vals).
Proof.
  assert (forall ft x, Set_ E i ft x vals = (fl, vals') ->
            length vals' = length vals /\
            (forall j, j <> i -> vals' !! j = vals !! j) /\
            (fl <> Continue -> vals' = vals)) as HSet.
  { intros ft x H. apply Set__spec in H as [(-> & v & v' & _ & _ & ->) | (-> & -> & _)].
    - split; [apply length_insert |]. split; [| congruence].
      intros j Hj. apply list_lookup_insert_ne. congruence.
    - auto. }
  unfold decodeField.
  destruct (negb (IsExported f)); [intros [= <- <-]; auto |].
  destruct (Lookup (Tag f) (key d)) as [tag |]; [| intros [= <- <-]; auto].
  destruct (Get (getter d) tag) as [x |]; [| intros [= <- <-]; auto].
  destruct (IsZero x); [intros [= <- <-]; auto |].
  destruct (negb (AssignableTo E (TypeOf x) (Type_ f))); [| apply HSet].
  destruct (Cast (getter d)) as [c |]; [| intros [= <- <-]; auto].
  destruct (c (Some x) (Type_ f)) as [[casted [err |]] |];
    [intros [= <- <-]; auto | apply HSet | intros [= <- <-]; auto].
Qed.

Lemma decodeFields_frame rt fs : forall i vals fl vals',
  decodeFields E d rt i fs vals = (fl, vals') ->
  length vals' = length vals /\
  forall j, (j < i \/ i + length fs <= j)%nat -> vals' !! j = vals !! j.
Proof.
  induction fs as [| f rest IH]; intros i vals fl vals'; simpl.
  - intros [= <- <-]. auto.
  - destruct (decodeField E d rt i f vals) as [fl1 v1] eqn:H1.
    destruct (decodeField_frame _ _ _ _ _ _ H1) as (Hl & Hj & Hs).
    destruct fl1.
    + intros H. apply IH in H as [Hl' Hj'].
      split; [congruence |]. intros j Hjj.
      rewrite Hj' by lia. apply Hj. lia.
    + intros [= <- <-]. split; [assumption |]. intros j Hjj. apply Hj. lia.
    + intros [= <- <-]. split; [assumption |]. intros j Hjj. apply Hj. lia.
Qed.

Lemma decodeFields_app rt pre : forall post i vals,
  decodeFields E d rt i (pre ++ post) vals =
  match decodeFields E d rt i pre vals with
  | (Continue, mid) => decodeFields E d rt (i + length pre) post mid
  | stop => stop
  end.
Proof.
  induction pre as [| f rest IH]; intros post i vals; simpl.
  - f_equal. lia.
  - destruct (decodeField E d rt i f vals) as [[| err |] v1]; try reflexivity.
    rewrite IH. replace (S i + length rest)%nat with (i + S (length rest))%nat by lia.
    reflexivity.
Qed.

(** A field that a turn of the loop passes over keeps its value to the
    end of the loop, however the loop ends. *)
Lemma decodeFields_skipped rt fs : forall i k f vals fl vals',
  fs !! k = Some f ->
  (forall j vs, decodeField E d rt j f vs = (Continue, vs)) ->
  decodeFields E d rt i fs vals = (fl, vals') ->
  vals' !! (i + k)%nat = vals !! (i + k)%nat.
Proof.
  induction fs as [| g rest IH]; intros i k f vals fl vals' Hk Hskip; [discriminate |].
  simpl. destruct k as [| k]; simpl in Hk.
  - inversion Hk; subst g. rewrite Hskip. intros H.
    apply decodeFields_frame in H as [_ Hj]. apply Hj. lia.
  - destruct (decodeField E d rt i g vals) as [fl1 v1] eqn:H1.
    destruct (decodeField_frame _ _ _ _ _ _ H1) as (Hl & Hj & Hs).
    destruct fl1.
    + intros H. replace (i + S k)%nat with (S i + k)%nat by lia.
      rewrite (IH _ _ _ _ _ _ Hk Hskip H). apply Hj. lia.
    + intros [= <- <-]. apply Hj. lia.
    + intros [= <- <-]. apply Hj. lia.
Qed.

(** What the turns of a loop that went on to its end did. *)
Lemma decodeFields_turn rt pre : forall i k g vals mid,
  decodeFields E d rt i pre vals = (Continue, mid) ->
  pre !! k = Some g ->
  exists vs vs', decodeField E d rt (i + k) g vs = (Continue, vs') /\
                 length vs = length vals /\
                 mid !! (i + k)%nat = vs' !! (i + k)%nat.
Proof.
  induction pre as [| f rest IH]; intros i k g vals mid H Hk; [discriminate |].
  simpl in H.
  destruct (decodeField E d rt i f vals) as [fl1 v1] eqn:H1.
  destruct (decodeField_frame _ _ _ _ _ _ H1) as (Hl & Hj & Hs).
  destruct fl1; try discriminate.
  destruct k as [| k]; simpl in Hk.
  - inversion Hk; subst g. exists vals, v1.
    replace (i + 0)%nat with i by lia.
    split; [assumption |]. split; [reflexivity |].
    apply decodeFields_frame in H as [_ Hj']. apply Hj'. lia.
  - destruct (IH _ _ _ _ _ H Hk) as (vs & vs' & Hd & Hlen & Hmid).
    exists vs, vs'. replace (i + S k)%nat with (S i + k)%nat by lia.
    split; [assumption |]. split; [congruence | assumption].
Qed.

Lemma Decode_record rt fields vals :
  underlying rt = TStruct fields ->
  Decode E d (record rt vals) =
  let '(fl, vals') := decodeFields E d rt 0 fields vals in
  (match fl with
   | Continue => Returns None
   | Return err => Returns err
   | Panicked => Panics
   end, record rt vals').
Proof.
  intros Hu. unfold Decode, record. simpl.
  assert (kind rt = KStruct) as Hk.
  { rewrite <- kind_underlying, Hu. reflexivity. }
  unfold Elem. simpl. rewrite Hk. simpl. rewrite Hu. reflexivity.
Qed.

End DecodeFacts.

(** ** The tests of the package, run on the embedding *)

Example TestQueryScanner :
  Decode Example.runtime
    (New (Query Example.runtime
            [("page", "2"); ("done", "true"); ("role", "admin");
             ("roles", "admin,user")]) "query")
    (pointerTo (Zero Example.TestParams)) =
  (Returns None,
   record Example.TestParams
     [VInt (TBasic KUint32) 2; VBool tBool true;
      VStruct Example.Role [VString tString "admin"];
      VSlice (TSlice Example.Role)
        (Some [VStruct Example.Role [VString tString "admin"];
               VStruct Example.Role [VString tString "user"]]);
      VSlice (TSlice tString) None; VSlice (TSlice tInt) None]).
Proof. reflexivity. Qed.

Example TestFormScanner :
  Decode Example.runtime
    (New (Form Example.runtime
            [("filters", "sepia,monochrome"); ("numbers", "6,7,8")]) "form")
    (pointerTo (Zero Example.TestParams)) =
  (Returns None,
   record Example.TestParams
     [VInt (TBasic KUint32) 0; VBool tBool false; Zero Example.Role;
      VSlice (TSlice Example.Role) None;
      VSlice (TSlice tString)
        (Some [VString tString "sepia"; VString tString "monochrome"]);
      VSlice (TSlice tInt) (Some [VInt tInt 6; VInt tInt 7; VInt tInt 8])]).
Proof. reflexivity. Qed.

(** * The properties of the specification *)

(** ** The coercion *)




(** C8: for the integer type of every kind and every value [n] of the
    type, the decimal text of [n] is cast to [n] at that type (and at
    every target of that kind), and [n] is cast back to the same text. *)
Theorem integer_text_roundtrip (E : Runtime) (k : Kind) (n : Z) (to : type) :
  representable E k n -> kind to = k ->
  DefaultCast E (text (fmtInteger n)) to = Returns (Some (VInt (TBasic k) n), None) /\
  DefaultCast E (Some (VInt (TBasic k) n)) tString = Returns (text (fmtInteger n), None).
Proof.
  intros Hrep Hto. pose proof Hrep as [Hk Hr]. split.
  - subst k. rewrite DefaultCast_text, castText_integer by assumption.
    rewrite (parse_numeral E _ _ n Hk) by (apply (fmtInteger_numeral E); assumption).
    replace ((minOf E (kind to) <=? n) && (n <=? maxOf E (kind to)))
      with true by lia.
    reflexivity.
  - destruct k; try discriminate; reflexivity.
Qed.

Lemma integer_text_roundtrip_witness :
  DefaultCast Example.runtime (text "-128") (TBasic KInt8) =
    Returns (Some (VInt (TBasic KInt8) (-128)), None) /\
  DefaultCast Example.runtime (Some (VInt (TBasic KInt8) (-128))) tString =
    Returns (text "-128", None).
Proof.
  refine (integer_text_roundtrip Example.runtime KInt8 (-128) (TBasic KInt8) _ eq_refl).
  split; [reflexivity |]. vm_compute. split; discriminate.
Defined.

(** C3, as amended: on a target of slice kind the text is split at the
    commas.  When the element type is of string kind the parts are
    returned as they are, in order, as a slice of strings.  Otherwise
    each part is cast to the element type, in order: when every part is
    cast to a value that the element type takes, the cast returns the
    slice of these values; when the cast of a part reports an error
    after parts that were cast so, the cast returns nil and that error;
    and when a part is cast, after such parts, to a value whose type is
    not assignable to the element type, the cast panics.  So "6,7,8"
    gives the integers 6, 7, 8 and "sepia,monochrome" gives the two
    texts. *)
Theorem cast_sequence (E : Runtime) (s : string) (to e : type) :
  (kind to = KSlice -> Elem to = Some e ->
   (kind e = KString ->
    DefaultCast E (text s) to =
    Returns (Some (VSlice (TSlice tString)
                     (Some (map (VString tString) (Split s DefaultSeperator)))), None)) /\
   (kind e <> KString ->
    (forall vs, Forall2 (castsTo E e) (Split s DefaultSeperator) vs ->
       DefaultCast E (text s) to = Returns (Some (VSlice to (Some vs)), None)) /\
    (forall pre part post vs x err,
       Split s DefaultSeperator = pre ++ part :: post ->
       Forall2 (castsTo E e) pre vs ->
       DefaultCast E (text part) e = Returns (x, Some err) ->
       DefaultCast E (text s) to = Returns (None, Some err)) /\
    (forall pre part post vs x,
       Split s DefaultSeperator = pre ++ part :: post ->
       Forall2 (castsTo E e) pre vs ->
       DefaultCast E (text part) e = Returns (Some x, None) ->
       AssignableTo E (TypeOf x) e = false ->
       DefaultCast E (text s) to = Panics))) /\
  DefaultCast E (text "6,7,8") (TSlice tInt) =
  Returns (Some (VSlice (TSlice tInt) (Some [VInt tInt 6; VInt tInt 7; VInt tInt 8])),
           None) /\
  DefaultCast E (text "sepia,monochrome") (TSlice tString) =
  Returns (Some (VSlice (TSlice tString)
                   (Some [VString tString "sepia"; VString tString "monochrome"])),
           None).
Proof.
  split; [| split; [destruct E as [[|] ? ? ? ?] |]; reflexivity].
  intros Hk He. rewrite DefaultCast_text, (castText_slice E to to s e Hk He).
  split.
  - intros ->. reflexivity.
  - intros Hne.
    assert (forall r : cast_result,
              match kind e with
              | KString =>
                  Returns (Some (VSlice (TSlice tString)
                    (Some (map (VString tString) (Split s DefaultSeperator)))), None)
              | _ => r
              end = r) as Hm.
    { intros r. destruct (kind e); try reflexivity. contradiction. }
    rewrite Hm. split; [| split].
    + intros vs Hvs. rewrite (castEntries_all E to e _ vs None Hvs).
      destruct (Split_cons s DefaultSeperator) as (p & r & ->). reflexivity.
    + intros pre part post vs x err -> Hpre Hf.
      eapply castEntries_fail; eassumption.
    + intros pre part post vs x -> Hpre Hx Hna.
      eapply castEntries_panic; [eassumption | eassumption |].
      apply assignTo_None. assumption.
Qed.

Lemma cast_sequence_witness :
  DefaultCast Example.runtime (text "1,x,3") (TSlice tInt) =
  Returns (None, Some (NumError "ParseInt" "x" ErrSyntax)).
Proof.
  refine (proj1 (proj2 (proj2 (proj1 (cast_sequence Example.runtime "1,x,3"
                                        (TSlice tInt) tInt)
                          eq_refl eq_refl) _))
           ["1"] "x" ["3"] [VInt tInt 1] (Some (VInt tInt 0)) _ eq_refl _ eq_refl).
  - discriminate.
  - constructor; [| constructor]. exists (VInt tInt 1). split; reflexivity.
Defined.

(** C3 as it was stated fails on a slice of [Level], a type defined over
    [int]: the part "1" is cast without an error, to the [int] 1, and
    the cast of the text does not return the collected parts: appending
    an [int] to a slice of [Level] panics. *)
Lemma cast_sequence_counterexample :
  DefaultCast Example.runtime (text "1") Example.Level =
    Returns (Some (VInt tInt 1), None) /\
  DefaultCast Example.runtime (text "1") (TSlice Example.Level) = Panics /\
  forall r, DefaultCast Example.runtime (text "1") (TSlice Example.Level) <> Returns r.
Proof.
  split; [reflexivity |]. split; [reflexivity |]. intros r. discriminate.
Qed.

(** C5, where the code leaves it: the zero of [int64], of [uint8] and of
    [float64] are cast to [true].  The comparison [from != 0] is one of
    interface values, and the constant is an [int]: only an [int] is
    compared by its value. *)
Theorem cast_number_to_bool (E : Runtime) :
  DefaultCast E (Some (VInt (TBasic KInt64) 0)) tBool =
    Returns (Some (VBool tBool true), None) /\
  DefaultCast E (Some (VInt (TBasic KUint8) 0)) tBool =
    Returns (Some (VBool tBool true), None) /\
  DefaultCast E (Some (VFloat (TBasic KFloat64) 0%float)) tBool =
    Returns (Some (VBool tBool true), None) /\
  forall n, DefaultCast E (Some (VInt tInt n)) tBool =
            Returns (Some (VBool tBool (negb (n =? 0))), None).
Proof.
  repeat split; reflexivity.
Qed.

(** C7: for a target whose kind has no case of its own in the switch on
    a text and whose pointer has the method [UnmarshalString], the cast
    calls the method on a pointer to a new zero value of the target
    type with the text; when the method returns no error the cast
    returns the variable's content, and when it returns an error the
    cast returns nil and an [UnmarshalerError] with that error, the
    text and the target type. *)
Theorem cast_unmarshaler (E : Runtime) (s : string) (to : type) :
  builtinKind (kind to) = false ->
  UnmarshalString ∈ MethodSet E (TPointer to) ->
  DefaultCast E (text s) to =
  match CallUnmarshalString E to s (Zero to) with
  | (u, None) => Returns (Some u, None)
  | (_, Some err) => Returns (None, Some (UnmarshalerError err s to))
  end.
Proof.
  intros Hk Hm. rewrite DefaultCast_text, castText_other by assumption.
  unfold castUnmarshaler.
  destruct (decide (UnmarshalString ∈ MethodSet E (TPointer to))); [| contradiction].
  destruct (CallUnmarshalString E to s (Zero to)) as [u [err |]]; reflexivity.
Qed.

Lemma cast_unmarshaler_witness :
  DefaultCast Example.runtime (text " x") Example.Code =
  Returns (None, Some (UnmarshalerError (UserError "blank code") " x" Example.Code)).
Proof.
  refine (cast_unmarshaler Example.runtime " x" Example.Code eq_refl _).
  vm_compute. apply list_elem_of_In. left. reflexivity.
Defined.

(** C9, where the code leaves it: a [float64] and a [float32] are cast
    to the text in which [fmt] reports a bad verb, not to a decimal
    numeral; the integers of every kind are cast to their decimal
    numeral. *)
Theorem cast_float_to_text (E : Runtime) (f : float) :
  DefaultCast E (Some (VFloat (TBasic KFloat64) f)) tString =
    Returns (text ("%!d(float64=" ++ FormatFloat E f 64 ++ ")"), None) /\
  DefaultCast E (Some (VFloat (TBasic KFloat32) f)) tString =
    Returns (text ("%!d(float32=" ++ FormatFloat E f 32 ++ ")"), None) /\
  forall k n, signedKind k || unsignedKind k = true ->
    DefaultCast E (Some (VInt (TBasic k) n)) tString = Returns (text (fmtInteger n), None).
Proof.
  split; [reflexivity |]. split; [reflexivity |].
  intros k n Hk. destruct k; try discriminate; reflexivity.
Qed.

(** ** The decoder *)

(** C2: a field with a tag under the decoder's key whose lookup gives
    nil or a zero value holds after [Decode] what it held before,
    however [Decode] ends, and its turn of the loop goes on to the next
    field without an error. *)
Theorem absent_value_skipped (E : Runtime) (d : Decoder) (rt : type)
  (fields : list StructField) (vals : list value) (i : nat) (f : StructField)
  (tag : string) :
  underlying rt = TStruct fields ->
  fields !! i = Some f ->
  Lookup (Tag f) (key d) = Some tag ->
  Get (getter d) tag = None \/
  (exists x, Get (getter d) tag = Some x /\ IsZero x = true) ->
  (forall j vs, decodeField E d rt j f vs = (Continue, vs)) /\
  exists out vals',
    Decode E d (record rt vals) = (out, record rt vals') /\
    vals' !! i = vals !! i.
Proof.
  intros Hu Hf Htag Habs.
  assert (forall j vs, decodeField E d rt j f vs = (Continue, vs)) as Hskip.
  { intros j vs. unfold decodeField.
    destruct (negb (IsExported f)); [reflexivity |]. rewrite Htag.
    destruct Habs as [-> | (x & -> & ->)]; reflexivity. }
  split; [exact Hskip |].
  rewrite (Decode_record E d rt fields vals Hu).
  destruct (decodeFields E d rt 0 fields vals) as [fl vals'] eqn:Hloop.
  eexists _, vals'. split; [reflexivity |].
  apply (decodeFields_skipped E d rt fields 0 i f vals fl vals' Hf Hskip Hloop).
Qed.

Lemma absent_value_skipped_witness :
  exists out vals',
    Decode Example.runtime (Example.decoder [("page", "7"); ("name", "")])
      (record Example.Params
         [VInt (TBasic KUint32) 1; VBool tBool true; VInt (TBasic KInt8) 3;
          Zero Example.Role; VString tString "old"; VString tString "";
          VString tString ""]) =
    (out, record Example.Params vals') /\
    vals' !! 4%nat = Some (VString tString "old").
Proof.
  refine (proj2 (absent_value_skipped Example.runtime
                   (Example.decoder [("page", "7"); ("name", "")])
                   Example.Params _ _ 4%nat Example.fName "name"
                   eq_refl eq_refl eq_refl _)).
  right. exists (VString tString ""). split; reflexivity.
Defined.

(** C1: the source has [Cast]; the loop comes to field [f], the fields
    [pre] before it done and the record at [mid]; [f] is exported and
    tagged, its lookup gives a value that is not zero and not
    assignable to the field, and the cast of this value reports the
    error [err].  Then [Decode] returns [err] wrapped in a [CastError]
    and leaves the record at [mid]: every field before [f] whose lookup
    gave a value that is not zero holds that value when it was
    assignable, and what it was cast to when it was not; [f] and the
    fields after it hold what they held before the call. *)
Theorem cast_failure_aborts (E : Runtime) (d : Decoder) (rt : type)
  (pre : list StructField) (f : StructField) (post : list StructField)
  (vals mid : list value) (c : any -> type -> cast_result)
  (tag : string) (x : value) (casted : any) (err : error) :
  underlying rt = TStruct (pre ++ f :: post) ->
  length vals = length (pre ++ f :: post) ->
  Cast (getter d) = Some c ->
  decodeFields E d rt 0 pre vals = (Continue, mid) ->
  IsExported f = true ->
  Lookup (Tag f) (key d) = Some tag ->
  Get (getter d) tag = Some x ->
  IsZero x = false ->
  AssignableTo E (TypeOf x) (Type_ f) = false ->
  c (Some x) (Type_ f) = Returns (casted, Some err) ->
  Decode E d (record rt vals) = (Returns (Some (CastError err)), record rt mid) /\
  (forall i g tag' y,
     pre !! i = Some g -> IsExported g = true ->
     Lookup (Tag g) (key d) = Some tag' ->
     Get (getter d) tag' = Some y -> IsZero y = false ->
     exists z, mid !! i = Some z /\
       (AssignableTo E (TypeOf y) (Type_ g) = true -> assignTo E (Type_ g) y = Some z) /\
       (AssignableTo E (TypeOf y) (Type_ g) = false ->
        exists w, c (Some y) (Type_ g) = Returns (Some w, None) /\
                  assignTo E (Type_ g) w = Some z)) /\
  (forall i, (length pre <= i)%nat -> mid !! i = vals !! i).
Proof.
  intros Hu Hlen Hc Hpre Hex Htag Hget Hnz Hna Hcast.
  split; [| split].
  - rewrite (Decode_record E d rt _ vals Hu), decodeFields_app, Hpre. simpl.
    unfold decodeField. rewrite Hex, Htag, Hget, Hnz, Hna, Hc, Hcast. reflexivity.
  - intros i g tag' y Hg Hgex Hgtag Hgget Hgnz.
    destruct (decodeFields_turn E d rt pre 0 i g vals mid Hpre Hg)
      as (vs & vs' & Hd & Hl & Hmid).
    simpl in Hd, Hmid. rewrite Hmid.
    assert (i < length vs)%nat as Hi.
    { apply lookup_lt_Some in Hg. rewrite Hl, Hlen, length_app. lia. }
    unfold decodeField in Hd. rewrite Hgex, Hgtag, Hgget, Hgnz in Hd.
    cbn [negb] in Hd.
    destruct (AssignableTo E (TypeOf y) (Type_ g)) eqn:Has; cbn [negb] in Hd.
    + apply Set__spec in Hd as [(_ & v & v' & [= <-] & Ha & ->) | (? & _)];
        [| discriminate].
      exists v'. split; [apply list_lookup_insert_eq; assumption |].
      split; [auto | discriminate].
    + rewrite Hc in Hd.
      destruct (c (Some y) (Type_ g)) as [[w [e |]] |]; try discriminate.
      apply Set__spec in Hd as [(_ & v & v' & -> & Ha & ->) | (? & _)];
        [| discriminate].
      exists v'. split; [apply list_lookup_insert_eq; assumption |].
      split; [discriminate | eauto].
  - intros i Hi. apply decodeFields_frame in Hpre as [_ Hj]. apply Hj. lia.
Qed.

Lemma cast_failure_aborts_witness :
  Decode Example.runtime
    (Example.decoder [("page", "7"); ("size", "999"); ("name", "bob")])
    (pointerTo (Zero Example.Params)) =
  (Returns (Some (CastError (NumError "ParseInt" "999" ErrRange))),
   record Example.Params
     [VInt (TBasic KUint32) 7; VBool tBool false; VInt (TBasic KInt8) 0;
      Zero Example.Role; VString tString ""; VString tString "";
      VString tString ""]).
Proof.
  refine (proj1 (cast_failure_aborts Example.runtime
            (Example.decoder [("page", "7"); ("size", "999"); ("name", "bob")])
            Example.Params [Example.fPage; Example.fDone] Example.fSize
            [Example.fRole; Example.fName; Example.fNote; Example.fPlain]
            [VInt (TBasic KUint32) 0; VBool tBool false; VInt (TBasic KInt8) 0;
             Zero Example.Role; VString tString ""; VString tString "";
             VString tString ""]
            [VInt (TBasic KUint32) 7; VBool tBool false; VInt (TBasic KInt8) 0;
             Zero Example.Role; VString tString ""; VString tString "";
             VString tString ""]
            (DefaultCast Example.runtime) "size" (VString tString "999")
            (Some (VInt (TBasic KInt8) 0)) (NumError "ParseInt" "999" ErrRange)
            eq_refl eq_refl eq_refl eq_refl eq_refl eq_refl eq_refl eq_refl eq_refl
            eq_refl)).
Defined.

(** C10: when the loop comes to a field whose value is cast, and the
    cast returns, without an error, a value whose type is not
    assignable to the type of the field, [Decode] panics and returns
    nothing; the record stays as the fields before left it.
    [DefaultCast] does so for every type defined over [int]: what it
    returns for a text is an [int], which is not assignable to the
    type.  So the decoding of a text into a field of type [Level]
    panics. *)
Theorem unassignable_cast_panics (E : Runtime) (d : Decoder) (rt : type)
  (pre : list StructField) (f : StructField) (post : list StructField)
  (vals mid : list value) (c : any -> type -> cast_result)
  (tag : string) (x casted : value) :
  (underlying rt = TStruct (pre ++ f :: post) ->
   Cast (getter d) = Some c ->
   decodeFields E d rt 0 pre vals = (Continue, mid) ->
   IsExported f = true ->
   Lookup (Tag f) (key d) = Some tag ->
   Get (getter d) tag = Some x ->
   IsZero x = false ->
   AssignableTo E (TypeOf x) (Type_ f) = false ->
   c (Some x) (Type_ f) = Returns (Some casted, None) ->
   AssignableTo E (TypeOf casted) (Type_ f) = false ->
   Decode E d (record rt vals) = (Panics, record rt mid)) /\
  (forall p n s v,
     DefaultCast E (text s) (TNamed p n tInt) = Returns (Some v, None) ->
     TypeOf v = tInt /\ AssignableTo E (TypeOf v) (TNamed p n tInt) = false) /\
  Decode E (New (Query E [("level", "3")]) "query") (pointerTo (Zero Example.Grade)) =
  (Panics, pointerTo (Zero Example.Grade)).
Proof.
  split; [| split].
  - intros Hu Hc Hpre Hex Htag Hget Hnz Hna Hcast Hbad.
    rewrite (Decode_record E d rt _ vals Hu), decodeFields_app, Hpre. simpl.
    unfold decodeField. rewrite Hex, Htag, Hget, Hnz, Hna, Hc, Hcast. simpl.
    unfold Set_. apply assignTo_None in Hbad. rewrite Hbad. reflexivity.
  - intros p n s v. rewrite DefaultCast_text. simpl. unfold parse.
    destruct (ParseInt E s _) as [i [e |]]; intros H; inversion H; subst.
    split; reflexivity.
  - destruct E as [[|] ? ? ? ?]; reflexivity.
Qed.

Lemma unassignable_cast_panics_witness :
  Decode Example.runtime (Example.decoder [("level", "3"); ("size", "5")])
    (pointerTo (Zero Example.Grade)) =
  (Panics, pointerTo (Zero Example.Grade)).
Proof.
  refine (proj1 (unassignable_cast_panics Example.runtime
            (Example.decoder [("level", "3"); ("size", "5")])
            Example.Grade [] Example.fLevel [Example.fSize]
            [VInt Example.Level 0; VInt (TBasic KInt8) 0]
            [VInt Example.Level 0; VInt (TBasic KInt8) 0]
            (DefaultCast Example.runtime) "level" (VString tString "3")
            (VInt tInt 3))
            eq_refl eq_refl eq_refl eq_refl eq_refl eq_refl eq_refl eq_refl eq_refl
            eq_refl).
Defined.

(** C6, where the code leaves it: for a pointer to an [int] the error
    that [Decode] returns carries the type [int], the element type, as
    it does for an [int] that is no pointer at all, and both read
    "non-pointer int"; the text "non-struct" is that of a nil pointer
    to an [int]. *)
Theorem invalid_target_description (E : Runtime) (d : Decoder) (n : Z) :
  Decode E d (pointerTo (VInt tInt n)) =
    (Returns (Some (InvalidUnmarshalError (Some tInt))), pointerTo (VInt tInt n)) /\
  Decode E d (Some (VInt tInt n)) =
    (Returns (Some (InvalidUnmarshalError (Some tInt))), Some (VInt tInt n)) /\
  InvalidUnmarshalError_Error (Some tInt) = "structd: Unmarshal(non-pointer int)"%string /\
  Decode E d (Some (VPointer (TPointer tInt) None)) =
    (Returns (Some (InvalidUnmarshalError (Some (TPointer tInt)))),
     Some (VPointer (TPointer tInt) None)) /\
  InvalidUnmarshalError_Error (Some (TPointer tInt)) =
    "structd: Unmarshal(non-struct *int)"%string.
Proof.
  repeat split; reflexivity.
Qed.

(** Every target that is not a pointer, not nil, to a record is refused
    with an [InvalidUnmarshalError] and comes back as it was given. *)
Theorem invalid_target_refused (E : Runtime) (d : Decoder) (v : any) :
  validTarget v = false -> pointerShaped v ->
  exists ty, Decode E d v = (Returns (Some (InvalidUnmarshalError ty)), v).
Proof.
  unfold Decode, validTarget. intros Hv Hp. destruct v as [rv |]; [| eauto].
  destruct (negb (Kind_eqb (kind (TypeOf rv)) KPointer) || IsNil rv) eqn:H1;
    [eauto |].
  apply orb_false_iff in H1 as [Hk Hnil]. apply negb_false_iff in Hk.
  pose proof Hk as Hk'. apply Kind_eqb_eq in Hk'.
  destruct (Hp rv eq_refl Hk') as (e & p & Hrv & He).
  rewrite He. rewrite Hrv in Hnil, Hv |- *. simpl in Hnil.
  destruct p as [rv' |]; [| discriminate].
  rewrite Hk in Hv. simpl in Hv. rewrite Hv. simpl. eauto.
Qed.

Lemma invalid_target_refused_witness :
  exists ty,
    Decode Example.runtime (Example.decoder [("page", "7")]) (pointerTo (VInt tInt 5)) =
    (Returns (Some (InvalidUnmarshalError ty)), pointerTo (VInt tInt 5)).
Proof.
  refine (invalid_target_refused Example.runtime (Example.decoder [("page", "7")])
            (pointerTo (VInt tInt 5)) eq_refl _).
  intros rv [= <-] _. exists tInt, (Some (VInt tInt 5)). split; reflexivity.
Defined.

(** A source without [Cast]: when the loop comes to a field whose lookup
    gives a value that is not zero and not assignable to the field,
    [Decode] returns an [UnmarshalTypeError] with the name of the type
    of the value, the type of the field, the name of the record type
    and the name of the field, and leaves the record as the fields
    before left it. *)
Theorem type_mismatch_without_cast (E : Runtime) (d : Decoder) (rt : type)
  (pre : list StructField) (f : StructField) (post : list StructField)
  (vals mid : list value) (tag : string) (x : value) :
  underlying rt = TStruct (pre ++ f :: post) ->
  Cast (getter d) = None ->
  decodeFields E d rt 0 pre vals = (Continue, mid) ->
  IsExported f = true ->
  Lookup (Tag f) (key d) = Some tag ->
  Get (getter d) tag = Some x ->
  IsZero x = false ->
  AssignableTo E (TypeOf x) (Type_ f) = false ->
  Decode E d (record rt vals) =
  (Returns (Some (UnmarshalTypeError (type_Name (TypeOf x)) (Type_ f)
                    (type_Name rt) (Name f))),
   record rt mid).
Proof.
  intros Hu Hc Hpre Hex Htag Hget Hnz Hna.
  rewrite (Decode_record E d rt _ vals Hu), decodeFields_app, Hpre. simpl.
  unfold decodeField. rewrite Hex, Htag, Hget, Hnz, Hna, Hc. reflexivity.
Qed.

Lemma type_mismatch_without_cast_witness :
  Decode Example.runtime
    (New {| Get := fun key => Some (VString tString "7"); Cast := None |} "query")
    (pointerTo (Zero Example.Params)) =
  (Returns (Some (UnmarshalTypeError "string" (TBasic KUint32) "Params" "Page")),
   pointerTo (Zero Example.Params)).
Proof.
  refine (type_mismatch_without_cast Example.runtime
            (New {| Get := fun key => Some (VString tString "7"); Cast := None |} "query")
            Example.Params [] Example.fPage
            [Example.fDone; Example.fSize; Example.fRole; Example.fName;
             Example.fNote; Example.fPlain]
            [VInt (TBasic KUint32) 0; VBool tBool false; VInt (TBasic KInt8) 0;
             Zero Example.Role; VString tString ""; VString tString "";
             VString tString ""]
            [VInt (TBasic KUint32) 0; VBool tBool false; VInt (TBasic KInt8) 0;
             Zero Example.Role; VString tString ""; VString tString "";
             VString tString ""]
            "page" (VString tString "7")
            eq_refl eq_refl eq_refl eq_refl eq_refl eq_refl eq_refl eq_refl).
Defined.

(** * Further properties *)

(** ** The loop of [Decode], once more *)

Section DecodeMore.

Variables (E : Runtime) (d : Decoder).

Lemma decodeField_passedOver rt i f vals :
  passedOver d f -> decodeField E d rt i f vals = (Continue, vals).
Proof.
  unfold passedOver, decodeField.
  intros [-> | [-> | (tag & -> & [-> | (x & -> & ->)])]];
    try reflexivity; destruct (negb (IsExported f)); reflexivity.
Qed.

(** What the turn of a field does is fixed by the source and the field:
    how it ends, and the value it writes, if any. *)
Lemma decodeField_plan rt f :
  exists fl w, (fl <> Continue -> w = None) /\
    forall i vals,
      decodeField E d rt i f vals =
      (fl, match w with Some v => <[i := v]> vals | None => vals end).
Proof.
  assert (forall ft x, exists fl w, (fl <> Continue -> w = None) /\
            forall i vals, Set_ E i ft x vals =
              (fl, match w with Some v => <[i := v]> vals | None => vals end))
    as HSet.
  { intros ft x. unfold Set_. destruct x as [v |].
    - destruct (assignTo E ft v) as [v' |].
      + exists Continue, (Some v'). split; [congruence | reflexivity].
      + exists Panicked, None. split; reflexivity.
    - exists Panicked, None. split; reflexivity. }
  unfold decodeField.
  destruct (negb (IsExported f));
    [exists Continue, None; split; [congruence | reflexivity] |].
  destruct (Lookup (Tag f) (key d)) as [tag |];
    [| exists Continue, None; split; [congruence | reflexivity]].
  destruct (Get (getter d) tag) as [x |];
    [| exists Continue, None; split; [congruence | reflexivity]].
  destruct (IsZero x); [exists Continue, None; split; [congruence | reflexivity] |].
  destruct (negb (AssignableTo E (TypeOf x) (Type_ f))); [| apply HSet].
  destruct (Cast (getter d)) as [c |];
    [| eexists (Return _), None; split; reflexivity].
  destruct (c (Some x) (Type_ f)) as [[casted [err |]] |];
    [eexists (Return _), None; split; reflexivity
    | apply HSet
    | exists Panicked, None; split; reflexivity].
Qed.

(** The loop run again on what it left ends the same way and writes
    nothing new. *)
Lemma decodeFields_again rt fs : forall i vals fl vals',
  decodeFields E d rt i fs vals = (fl, vals') ->
  forall u, length u = length vals' ->
    (forall j, (i <= j)%nat -> u !! j = vals' !! j) ->
    decodeFields E d rt i fs u = (fl, u).
Proof.
  induction fs as [| f rest IH]; intros i vals fl vals' H u Hlen Hu; simpl in *.
  - inversion H; subst. reflexivity.
  - destruct (decodeField_plan rt f) as (fl1 & w & Hw & Hplan).
    rewrite Hplan in H. rewrite Hplan.
    destruct fl1.
    + pose proof H as Hrest. apply decodeFields_frame in Hrest as [Hl Hj].
      assert (match w with Some v => <[i := v]> u | None => u end = u) as ->.
      { destruct w as [v |]; [| reflexivity].
        destruct (decide (i < length u)%nat) as [Hi | Hi].
        - apply list_insert_id. rewrite Hu by lia. rewrite Hj by lia.
          apply list_lookup_insert_eq. rewrite length_insert in Hl. lia.
        - apply list_insert_ge. lia. }
      eapply IH; [exact H | exact Hlen |]. intros j Hjj. apply Hu. lia.
    + rewrite (Hw ltac:(discriminate)) in *. inversion H; subst. reflexivity.
    + rewrite (Hw ltac:(discriminate)) in *. inversion H; subst. reflexivity.
Qed.

Lemma decodeFields_passedOver rt fs : forall i vals,
  Forall (passedOver d) fs -> decodeFields E d rt i fs vals = (Continue, vals).
Proof.
  induction fs as [| f rest IH]; intros i vals H; simpl; [reflexivity |].
  inversion H; subst. rewrite decodeField_passedOver by assumption. auto.
Qed.

(** The turn of a field depends on the [Cast] of the source only when
    the lookup gives a value that is not assignable to the field. *)
Lemma decodeField_assignable rt i f vals :
  (forall x, lookedUp d f x -> AssignableTo E (TypeOf x) (Type_ f) = true) ->
  exists w, decodeField E d rt i f vals =
            (Continue, match w with Some v => <[i := v]> vals | None => vals end) /\
    forall d', Get (getter d') = Get (getter d) -> key d' = key d ->
      decodeField E d' rt i f vals =
      (Continue, match w with Some v => <[i := v]> vals | None => vals end).
Proof.
  intros Has. unfold decodeField, lookedUp in *.
  destruct (IsExported f) eqn:Hex; simpl;
    [| exists None; split; [reflexivity | intros d' _ _; reflexivity]].
  destruct (Lookup (Tag f) (key d)) as [tag |] eqn:Htag;
    [| exists None; split; [reflexivity | intros d' _ ->; rewrite Htag; reflexivity]].
  destruct (Get (getter d) tag) as [x |] eqn:Hget;
    [| exists None; split;
       [reflexivity | intros d' -> ->; rewrite Htag, Hget; reflexivity]].
  destruct (IsZero x) eqn:Hz;
    [exists None; split;
       [reflexivity | intros d' -> ->; rewrite Htag, Hget, Hz; reflexivity] |].
  assert (AssignableTo E (TypeOf x) (Type_ f) = true) as Ha by eauto 10.
  rewrite Ha. simpl. unfold Set_.
  destruct (assignTo E (Type_ f) x) as [v' |] eqn:Hv.
  - exists (Some v'). split; [reflexivity |].
    intros d' -> ->. rewrite Htag, Hget, Hz, Ha. simpl. rewrite Hv. reflexivity.
  - apply assignTo_None in Hv. congruence.
Qed.

(** A turn that leaves [Decode] does so with an error. *)
Lemma decodeField_Return rt i f vals err vals' :
  decodeField E d rt i f vals = (Return err, vals') -> exists e, err = Some e.
Proof.
  unfold decodeField, Set_.
  destruct (negb (IsExported f)); [discriminate |].
  destruct (Lookup (Tag f) (key d)) as [tag |]; [| discriminate].
  destruct (Get (getter d) tag) as [x |]; [| discriminate].
  destruct (IsZero x); [discriminate |].
  destruct (negb (AssignableTo E (TypeOf x) (Type_ f))).
  - destruct (Cast (getter d)) as [c |]; [| intros [= <- _]; eauto].
    destruct (c (Some x) (Type_ f)) as [[casted [e |]] |]; try discriminate.
    + intros [= <- _]. simpl. eauto.
    + destruct casted as [v |]; [| discriminate].
      destruct (assignTo E (Type_ f) v); discriminate.
  - destruct (assignTo E (Type_ f) x); discriminate.
Qed.

Lemma decodeFields_Return rt fs : forall i vals err vals',
  decodeFields E d rt i fs vals = (Return err, vals') -> exists e, err = Some e.
Proof.
  induction fs as [| f rest IH]; intros i vals err vals'; simpl; [discriminate |].
  destruct (decodeField E d rt i f vals) as [[| e |] v1] eqn:H1.
  - apply IH.
  - intros [= <- _]. eapply decodeField_Return. exact H1.
  - discriminate.
Qed.

(** [Decode] on a pointer to a record, of whatever pointer type. *)
Lemma Decode_struct pt st rt' fields vals :
  Kind_eqb (kind pt) KPointer = true -> Elem pt = Some rt' ->
  Kind_eqb (kind st) KStruct = true -> underlying rt' = TStruct fields ->
  Decode E d (Some (VPointer pt (Some (VStruct st vals)))) =
  let '(fl, vals') := decodeFields E d rt' 0 fields vals in
  (match fl with
   | Continue => Returns None
   | Return err => Returns err
   | Panicked => Panics
   end, Some (VPointer pt (Some (VStruct st vals')))).
Proof.
  intros H1 He H2 Hu. unfold Decode. simpl. rewrite H1, He. simpl.
  rewrite H2. simpl. rewrite Hu. reflexivity.
Qed.

(** [Decode] leaves its argument as it is, unless it is a pointer to a
    record. *)
Lemma Decode_cases v :
  snd (Decode E d v) = v \/
  exists pt st rt' fields vals,
    v = Some (VPointer pt (Some (VStruct st vals))) /\
    Kind_eqb (kind pt) KPointer = true /\ Elem pt = Some rt' /\
    Kind_eqb (kind st) KStruct = true /\ underlying rt' = TStruct fields.
Proof.
  unfold Decode. destruct v as [rv |]; [| left; reflexivity].
  destruct (negb (Kind_eqb (kind (TypeOf rv)) KPointer) || IsNil rv) eqn:H1;
    [left; reflexivity |].
  destruct rv as [? ? | ? ? | ? ? | ? ? | ? ? | ? ? | pt target | ? ? | ? ? ?];
    try (left; reflexivity).
  destruct target as [rv' |]; [| left; reflexivity].
  destruct (Elem (TypeOf (VPointer pt (Some rv')))) as [rt' |] eqn:He;
    [| left; reflexivity].
  destruct (negb (Kind_eqb (kind (TypeOf rv')) KStruct)) eqn:H2;
    [left; reflexivity |].
  destruct rv' as [? ? | ? ? | ? ? | ? ? | ? ? | st vals | ? ? | ? ? | ? ? ?];
    try (left; reflexivity).
  destruct (underlying rt') as [? | ? ? ? | ? | ? | fields | ? | ? ?] eqn:Hu;
    try (left; reflexivity).
  right. exists pt, st, rt', fields, vals. simpl in *.
  apply orb_false_iff in H1 as [H1 _].
  apply negb_false_iff in H1, H2. auto 10.
Qed.

End DecodeMore.

(** ** The decoder as a whole *)

(** However [Decode] ends on a record, the record keeps its type and
    the number of its fields, and a field that is not exported or has
    no tag under the key of the decoder holds what it held. *)
Theorem decode_writes_tagged_only (E : Runtime) (d : Decoder) (rt : type)
  (fields : list StructField) (vals : list value) :
  underlying rt = TStruct fields ->
  exists out vals',
    Decode E d (record rt vals) = (out, record rt vals') /\
    length vals' = length vals /\
    forall i f, fields !! i = Some f ->
      IsExported f = false \/ Lookup (Tag f) (key d) = None ->
      vals' !! i = vals !! i.
Proof.
  intros Hu. rewrite (Decode_record E d rt fields vals Hu).
  destruct (decodeFields E d rt 0 fields vals) as [fl vals'] eqn:Hloop.
  eexists _, vals'. split; [reflexivity |].
  split; [apply (decodeFields_frame E d rt fields 0 vals fl vals' Hloop) |].
  intros i f Hf Hpass.
  apply (decodeFields_skipped E d rt fields 0 i f vals fl vals' Hf); [| exact Hloop].
  intros j vs. apply decodeField_passedOver.
  unfold passedOver. tauto.
Qed.

Lemma decode_writes_tagged_only_witness :
  exists out vals',
    Decode Example.runtime
      (Example.decoder [("page", "7"); ("note", "n"); ("size", "x")])
      (record Example.Params
         [VInt (TBasic KUint32) 1; VBool tBool true; VInt (TBasic KInt8) 3;
          Zero Example.Role; VString tString "old"; VString tString "mine";
          VString tString "plain"]) =
    (out, record Example.Params vals') /\
    length vals' = 7%nat /\
    forall i f,
      [Example.fPage; Example.fDone; Example.fSize; Example.fRole; Example.fName;
       Example.fNote; Example.fPlain] !! i = Some f ->
      IsExported f = false \/ Lookup (Tag f) "query" = None ->
      vals' !! i =
      [VInt (TBasic KUint32) 1; VBool tBool true; VInt (TBasic KInt8) 3;
       Zero Example.Role; VString tString "old"; VString tString "mine";
       VString tString "plain"] !! i.
Proof.
  exact (decode_writes_tagged_only Example.runtime
           (Example.decoder [("page", "7"); ("note", "n"); ("size", "x")])
           Example.Params _ _ eq_refl).
Defined.

(** When [Decode] returns nil on a record, every field that the loop
    passes over holds what it held, and every field whose lookup gives
    a value to put into it holds that value when it is assignable to
    the field, and what the source's [Cast] made of it when not. *)
Theorem decode_success_fields (E : Runtime) (d : Decoder) (rt : type)
  (fields : list StructField) (vals vals' : list value) :
  underlying rt = TStruct fields ->
  length vals = length fields ->
  Decode E d (record rt vals) = (Returns None, record rt vals') ->
  forall i f, fields !! i = Some f ->
    (passedOver d f -> vals' !! i = vals !! i) /\
    (forall x, lookedUp d f x ->
       exists z, vals' !! i = Some z /\
         (AssignableTo E (TypeOf x) (Type_ f) = true ->
          assignTo E (Type_ f) x = Some z) /\
         (AssignableTo E (TypeOf x) (Type_ f) = false ->
          exists c w, Cast (getter d) = Some c /\
                      c (Some x) (Type_ f) = Returns (Some w, None) /\
                      assignTo E (Type_ f) w = Some z)).
Proof.
  intros Hu Hlen HD i f Hf.
  rewrite (Decode_record E d rt fields vals Hu) in HD.
  destruct (decodeFields E d rt 0 fields vals) as [fl mid] eqn:Hloop.
  assert (fl = Continue /\ mid = vals') as [-> ->].
  { destruct fl as [| err |]; [inversion HD; auto | | discriminate].
    destruct (decodeFields_Return E d rt fields 0 vals err mid Hloop) as [e ->].
    discriminate. }
  split.
  - intros Hp.
    apply (decodeFields_skipped E d rt fields 0 i f vals Continue vals' Hf);
      [| exact Hloop].
    intros j vs. apply decodeField_passedOver. exact Hp.
  - intros x (Hex & tag & Htag & Hget & Hnz).
    destruct (decodeFields_turn E d rt fields 0 i f vals vals' Hloop Hf)
      as (vs & vs' & Hd & Hl & Hmid).
    simpl in Hd, Hmid. rewrite Hmid.
    assert (i < length vs)%nat as Hi.
    { apply lookup_lt_Some in Hf. lia. }
    unfold decodeField in Hd. rewrite Hex, Htag, Hget, Hnz in Hd.
    cbn [negb] in Hd.
    destruct (AssignableTo E (TypeOf x) (Type_ f)) eqn:Has; cbn [negb] in Hd.
    + apply Set__spec in Hd as [(_ & v & v' & [= <-] & Ha & ->) | (? & _)];
        [| discriminate].
      exists v'. split; [apply list_lookup_insert_eq; assumption |].
      split; [auto | discriminate].
    + destruct (Cast (getter d)) as [c |]; [| discriminate].
      destruct (c (Some x) (Type_ f)) as [[w [e |]] |] eqn:Hc; try discriminate.
      apply Set__spec in Hd as [(_ & v & v' & -> & Ha & ->) | (? & _)];
        [| discriminate].
      exists v'. split; [apply list_lookup_insert_eq; assumption |].
      split; [discriminate | eauto 10].
Qed.

Lemma decode_success_fields_witness :
  (passedOver (Example.decoder [("page", "7"); ("name", "bob")]) Example.fPage ->
   [VInt (TBasic KUint32) 7; VBool tBool false; VInt (TBasic KInt8) 0;
    Zero Example.Role; VString tString "bob"; VString tString "";
    VString tString ""] !! 0%nat =
   [VInt (TBasic KUint32) 0; VBool tBool false; VInt (TBasic KInt8) 0;
    Zero Example.Role; VString tString ""; VString tString "";
    VString tString ""] !! 0%nat) /\
  (forall x,
     lookedUp (Example.decoder [("page", "7"); ("name", "bob")]) Example.fPage x ->
     exists z,
       [VInt (TBasic KUint32) 7; VBool tBool false; VInt (TBasic KInt8) 0;
        Zero Example.Role; VString tString "bob"; VString tString "";
        VString tString ""] !! 0%nat = Some z /\
       (AssignableTo Example.runtime (TypeOf x) (Type_ Example.fPage) = true ->
        assignTo Example.runtime (Type_ Example.fPage) x = Some z) /\
       (AssignableTo Example.runtime (TypeOf x) (Type_ Example.fPage) = false ->
        exists c w,
          Cast (getter (Example.decoder [("page", "7"); ("name", "bob")])) = Some c /\
          c (Some x) (Type_ Example.fPage) = Returns (Some w, None) /\
          assignTo Example.runtime (Type_ Example.fPage) w = Some z)).
Proof.
  exact (decode_success_fields Example.runtime
           (Example.decoder [("page", "7"); ("name", "bob")]) Example.Params
           [Example.fPage; Example.fDone; Example.fSize; Example.fRole;
            Example.fName; Example.fNote; Example.fPlain]
           [VInt (TBasic KUint32) 0; VBool tBool false; VInt (TBasic KInt8) 0;
            Zero Example.Role; VString tString ""; VString tString "";
            VString tString ""]
           [VInt (TBasic KUint32) 7; VBool tBool false; VInt (TBasic KInt8) 0;
            Zero Example.Role; VString tString "bob"; VString tString "";
            VString tString ""]
           eq_refl eq_refl eq_refl 0%nat Example.fPage eq_refl).
Defined.

(** [Decode] a second time on what the first call left, from a source
    whose lookups and [Cast] give again what they gave (the values of a
    query or a form, headers, cookies): the call ends as the first one
    did and changes nothing. *)
Theorem decode_twice (E : Runtime) (d : Decoder) (v : any) :
  Decode E d (snd (Decode E d v)) = Decode E d v.
Proof.
  destruct (Decode_cases E d v)
    as [-> | (pt & st & rt' & fields & vals & -> & H1 & He & H2 & Hu)];
    [reflexivity |].
  rewrite (Decode_struct E d pt st rt' fields vals H1 He H2 Hu).
  destruct (decodeFields E d rt' 0 fields vals) as [fl vals'] eqn:Hloop.
  simpl snd. rewrite (Decode_struct E d pt st rt' fields vals' H1 He H2 Hu).
  rewrite (decodeFields_again E d rt' fields 0 vals fl vals' Hloop vals'
             eq_refl (fun j _ => eq_refl)).
  reflexivity.
Qed.

(** A source whose lookups give nothing for the fields of a record (nil
    or zero values only): [Decode] returns nil and the record is as it
    was. *)
Theorem decode_nothing_to_read (E : Runtime) (d : Decoder) (rt : type)
  (fields : list StructField) (vals : list value) :
  underlying rt = TStruct fields ->
  Forall (passedOver d) fields ->
  Decode E d (record rt vals) = (Returns None, record rt vals).
Proof.
  intros Hu Hall. rewrite (Decode_record E d rt fields vals Hu).
  rewrite decodeFields_passedOver by assumption. reflexivity.
Qed.

Lemma decode_nothing_to_read_witness :
  Decode Example.runtime (Example.decoder [("done", "")%string])
    (record Example.Params
       [VInt (TBasic KUint32) 1; VBool tBool true; VInt (TBasic KInt8) 3;
        Zero Example.Role; VString tString "old"; VString tString "mine";
        VString tString "plain"]) =
  (Returns None,
   record Example.Params
     [VInt (TBasic KUint32) 1; VBool tBool true; VInt (TBasic KInt8) 3;
      Zero Example.Role; VString tString "old"; VString tString "mine";
      VString tString "plain"]).
Proof.
  refine (decode_nothing_to_read Example.runtime
            (Example.decoder [("done", "")%string]) Example.Params _ _ eq_refl _).
  repeat (constructor;
          [first [ left; reflexivity
                 | right; left; reflexivity
                 | right; right; eexists; split; [reflexivity |];
                   right; eexists; split; reflexivity ] |]).
  constructor.
Defined.

(** When every value that the lookups give for the fields of a record
    is assignable to its field, [Decode] returns nil, and it does so
    with the same record for every source with these lookups, with or
    without [Cast]: [Cast] is not consulted. *)
Theorem decode_assignable_without_cast (E : Runtime) (d d' : Decoder) (rt : type)
  (fields : list StructField) (vals : list value) :
  underlying rt = TStruct fields ->
  Get (getter d') = Get (getter d) -> key d' = key d ->
  (forall f x, f ∈ fields -> lookedUp d f x ->
     AssignableTo E (TypeOf x) (Type_ f) = true) ->
  exists vals',
    Decode E d (record rt vals) = (Returns None, record rt vals') /\
    Decode E d' (record rt vals) = (Returns None, record rt vals').
Proof.
  intros Hu Hget Hkey Has.
  rewrite !(Decode_record E _ rt fields vals Hu).
  assert (forall i vs, exists vs',
            decodeFields E d rt i fields vs = (Continue, vs') /\
            decodeFields E d' rt i fields vs = (Continue, vs')) as Hloop.
  { clear Hu. induction fields as [| f rest IH]; intros i vs; simpl; [eauto |].
    destruct (decodeField_assignable E d rt i f vs) as (w & H1 & H2).
    { intros x. apply Has. left. }
    rewrite H1, (H2 d' Hget Hkey).
    apply IH. intros g x Hg. apply Has. right. exact Hg. }
  destruct (Hloop 0%nat vals) as (vs' & -> & ->). eauto.
Qed.

Lemma decode_assignable_without_cast_witness :
  exists vals',
    Decode Example.runtime (Example.decoder [("name", "bob")%string])
      (record Example.Params
         [VInt (TBasic KUint32) 1; VBool tBool true; VInt (TBasic KInt8) 3;
          Zero Example.Role; VString tString "old"; VString tString "mine";
          VString tString "plain"]) =
    (Returns None, record Example.Params vals') /\
    Decode Example.runtime
      (New {| Get := Get (Query Example.runtime [("name", "bob")%string]);
              Cast := None |} "query")
      (record Example.Params
         [VInt (TBasic KUint32) 1; VBool tBool true; VInt (TBasic KInt8) 3;
          Zero Example.Role; VString tString "old"; VString tString "mine";
          VString tString "plain"]) =
    (Returns None, record Example.Params vals').
Proof.
  refine (decode_assignable_without_cast Example.runtime
            (Example.decoder [("name", "bob")%string])
            (New {| Get := Get (Query Example.runtime [("name", "bob")%string]);
                    Cast := None |} "query")
            Example.Params _
            [VInt (TBasic KUint32) 1; VBool tBool true; VInt (TBasic KInt8) 3;
             Zero Example.Role; VString tString "old"; VString tString "mine";
             VString tString "plain"]
            eq_refl eq_refl eq_refl _).
  intros f x Hf (Hex & tag & Htag & Hget & Hnz).
  repeat (apply elem_of_cons in Hf as [-> | Hf]);
    try (apply elem_of_nil in Hf as []);
    try discriminate;
    inversion Htag; subst tag; inversion Hget; subst x;
    try discriminate; reflexivity.
Defined.

(** ** The parts of a text, once more *)

Section SplitMore.

Lemma Split_length s sep : length (Split s sep) = S (Count s sep).
Proof.
  induction s as [| c s IH]; simpl; [reflexivity |].
  destruct (decide (c = sep)); simpl; [congruence |].
  destruct (Split_cons s sep) as (x & r & Hx). rewrite Hx in *.
  simpl in *. exact IH.
Qed.

Lemma Split_parts s sep : Forall (fun p => Count p sep = 0%nat) (Split s sep).
Proof.
  induction s as [| c s IH]; simpl; [repeat constructor |].
  destruct (decide (c = sep)) as [-> | Hne]; [constructor; [reflexivity | exact IH] |].
  destruct (Split_cons s sep) as (x & r & Hx). rewrite Hx in *.
  inversion IH; subst. constructor; [| assumption].
  simpl. destruct (decide (c = sep)); [contradiction | assumption].
Qed.

Lemma Split_whole p sep : Count p sep = 0%nat -> Split p sep = [p].
Proof.
  induction p as [| c p IH]; simpl; [reflexivity |].
  destruct (decide (c = sep)); [discriminate |].
  intros H. rewrite (IH H). reflexivity.
Qed.

End SplitMore.

Section CastMore.

Variable E : Runtime.

(** A loop over the parts that returns without an error went through
    every part without an error. *)
Lemma castEntries_success to e cast parts : forall acc x,
  castEntries E to e cast parts acc = Returns (x, None) ->
  Forall (fun part => exists y, cast part = Returns (y, None)) parts.
Proof.
  induction parts as [| part rest IH]; intros acc x; simpl; [constructor |].
  destruct (cast part) as [[y [err |]] |] eqn:Hc; try discriminate.
  destruct (Append E e acc y) as [acc' |]; [| discriminate].
  intros H. constructor; [eauto | eapply IH; exact H].
Qed.

Lemma ParseUint_not_digit c r bits :
  width bits -> digitOf c = None ->
  ParseUint E (String c r) bits = (0, Some (syntaxError fnParseUint (String c r))).
Proof.
  intros Hw Hd. unfold ParseUint.
  destruct (decide (String c r = EmptyString)); [discriminate |].
  rewrite (width_nonzero _ Hw), (width_valid _ Hw). simpl. rewrite Hd. reflexivity.
Qed.

End CastMore.

(** ** The coercion, further *)

(** A bool is cast to the text "true" or "false", and this text is cast
    back to the bool; the targets are any types of string kind and of
    bool kind. *)
Theorem cast_bool_text_roundtrip (E : Runtime) (b : bool) (toS toB : type) :
  kind toS = KString -> kind toB = KBool ->
  exists s,
    DefaultCast E (Some (VBool tBool b)) toS = Returns (text s, None) /\
    s = (if b then "true" else "false")%string /\
    DefaultCast E (text s) toB = Returns (Some (VBool tBool b), None).
Proof.
  intros HS HB. exists (if b then "true" else "false")%string.
  split; [| split; [reflexivity |]].
  - unfold DefaultCast. simpl. rewrite HS. reflexivity.
  - rewrite DefaultCast_text_switch, HB. destruct b; reflexivity.
Qed.

Lemma cast_bool_text_roundtrip_witness :
  exists s,
    DefaultCast Example.runtime (Some (VBool tBool true)) Example.Code =
      Returns (text s, None) /\
    s = "true"%string /\
    DefaultCast Example.runtime (text s) tBool = Returns (Some (VBool tBool true), None).
Proof.
  exact (cast_bool_text_roundtrip Example.runtime true Example.Code tBool
           eq_refl eq_refl).
Defined.

(** A bool is cast to 1 or 0 at every integer kind, as a value of the
    predeclared type of the kind. *)
Theorem cast_bool_to_integer (E : Runtime) (b : bool) (to : type) :
  signedKind (kind to) || unsignedKind (kind to) = true ->
  DefaultCast E (Some (VBool tBool b)) to =
  Returns (Some (VInt (TBasic (kind to)) (if b then 1 else 0)), None).
Proof.
  intros Hk. unfold DefaultCast. simpl.
  destruct E as [[|] ? ? ? ?];
    destruct (kind to); try discriminate; destruct b; reflexivity.
Qed.

Lemma cast_bool_to_integer_witness :
  DefaultCast Example.runtime (Some (VBool tBool true)) Example.Level =
  Returns (Some (VInt tInt 1), None).
Proof.
  exact (cast_bool_to_integer Example.runtime true Example.Level eq_refl).
Defined.

(** [DefaultCast] panics only on a text with a target of slice kind
    (the [UnmarshalString] methods of the program are taken to
    return). *)
Theorem cast_panics_on_slices_only (E : Runtime) (from : any) (to : type) :
  DefaultCast E from to = Panics ->
  exists s, from = text s /\ kind to = KSlice.
Proof.
  intros H.
  destruct from as [v |]; [| discriminate].
  assert ((exists s, v = VString tString s) \/
          exists r, DefaultCast E (Some v) to = Returns r) as [[s ->] | [r Hr]].
  { unfold DefaultCast.
    destruct v as [t b | t n | t f | t s | t el | t fs | t p | t dy | t z k].
    - right. destruct t as [k | | | | | |]; try (simpl; eauto; fail).
      destruct k; simpl; try (eauto; fail). destruct (kind to); eauto.
    - right. destruct (isNumber (VInt t n)); [destruct (kind to) |]; eauto.
    - right. destruct (isNumber (VFloat t f)); [destruct (kind to) |]; eauto.
    - destruct t as [k | | | | | |]; try (right; simpl; eauto; fail).
      destruct k; try (right; simpl; eauto; fail). left. eauto.
    - right. simpl. eauto.
    - right. simpl. eauto.
    - right. simpl. eauto.
    - right. simpl. eauto.
    - right. simpl. eauto. }
  - exists s. split; [reflexivity |].
    change (Some (VString tString s)) with (text s) in H.
    rewrite DefaultCast_text_switch in H.
    destruct (kind to); try discriminate; try reflexivity;
      try (destruct (ParseBool s); discriminate);
      unfold castUnmarshaler in H;
      destruct (decide (UnmarshalString ∈ MethodSet E (TPointer to)));
      try discriminate;
      destruct (CallUnmarshalString E to s (Zero to)) as [u [uerr |]]; discriminate.
  - congruence.
Qed.

Lemma cast_panics_on_slices_only_witness :
  exists s, text "1" = text s /\ kind (TSlice Example.Level) = KSlice.
Proof.
  exact (cast_panics_on_slices_only Example.runtime (text "1")
           (TSlice Example.Level) eq_refl).
Defined.

(** Texts that are no numerals: for a target of an unsigned kind the
    empty text and every text that starts with a sign, and for a target
    of a signed kind the empty text and a sign alone, are refused with
    [strconv]'s syntax error and the zero value. *)
Theorem cast_integer_malformed (E : Runtime) (to : type) (s : string) :
  (unsignedKind (kind to) = true /\
   (s = EmptyString \/ exists r, s = String "+"%char r \/ s = String "-"%char r) \/
   signedKind (kind to) = true /\
   (s = EmptyString \/ s = "+"%string \/ s = "-"%string)) ->
  DefaultCast E (text s) to =
  Returns (Some (VInt (TBasic (kind to)) 0),
           Some (NumError (fnParse (kind to)) s ErrSyntax)).
Proof.
  intros [[Hk Hs] | [Hk Hs]].
  - rewrite DefaultCast_text, castText_integer by (rewrite Hk; apply orb_true_r).
    pose proof (Bits_width E (kind to) ltac:(rewrite Hk; apply orb_true_r)) as Hw.
    assert (parse E (kind to) s =
            let '(i, err) := ParseUint E s (Bits E (kind to)) in
            match err with
            | Some e => (Some (VInt (TBasic (kind to)) 0), Some e)
            | None => (Some (VInt (TBasic (kind to)) (toUint (Bits E (kind to)) i)), None)
            end) as -> by (destruct (kind to); try discriminate; reflexivity).
    assert (fnParse (kind to) = fnParseUint) as ->
      by (destruct (kind to); try discriminate; reflexivity).
    destruct Hs as [-> | (r & [-> | ->])].
    + reflexivity.
    + rewrite (ParseUint_not_digit E _ _ _ Hw) by reflexivity. reflexivity.
    + rewrite (ParseUint_not_digit E _ _ _ Hw) by reflexivity. reflexivity.
  - rewrite DefaultCast_text, castText_integer by (rewrite Hk; reflexivity).
    destruct Hs as [-> | [-> | ->]];
      destruct (kind to); try discriminate; reflexivity.
Qed.

Lemma cast_integer_malformed_witness :
  DefaultCast Example.runtime (text "-1") (TBasic KUint8) =
  Returns (Some (VInt (TBasic KUint8) 0), Some (NumError "ParseUint" "-1" ErrSyntax)).
Proof.
  refine (cast_integer_malformed Example.runtime (TBasic KUint8) "-1" _).
  left. split; [reflexivity |]. right. exists "1"%string. right. reflexivity.
Defined.

(** A text cast to a slice with elements of string kind: the parts are
    one more than the commas of the text, none of them holds a comma,
    and joined by commas they give the text back. *)
Theorem cast_texts_join (E : Runtime) (s : string) (to e : type) :
  kind to = KSlice -> Elem to = Some e -> kind e = KString ->
  exists parts,
    DefaultCast E (text s) to =
    Returns (Some (VSlice (TSlice tString) (Some (map (VString tString) parts))), None) /\
    Join parts DefaultSeperator = s /\
    length parts = S (Count s DefaultSeperator) /\
    Forall (fun p => Count p DefaultSeperator = 0%nat) parts.
Proof.
  intros Hk He Hs. exists (Split s DefaultSeperator).
  rewrite DefaultCast_text, (castText_slice E to to s e Hk He), Hs.
  split; [reflexivity |]. split; [apply Join_Split |].
  split; [apply Split_length | apply Split_parts].
Qed.

Lemma cast_texts_join_witness :
  exists parts,
    DefaultCast Example.runtime (text "a,,b,") (TSlice Example.Code) =
    Returns (Some (VSlice (TSlice tString) (Some (map (VString tString) parts))), None) /\
    Join parts DefaultSeperator = "a,,b,"%string /\
    length parts = S (Count "a,,b," DefaultSeperator) /\
    Forall (fun p => Count p DefaultSeperator = 0%nat) parts.
Proof.
  exact (cast_texts_join Example.runtime "a,,b," (TSlice Example.Code) Example.Code
           eq_refl eq_refl eq_refl).
Defined.

(** A text cast to a slice of slices of strings: every part of the text
    becomes a slice of its own with the part as its one element; no
    inner slice ever has two elements. *)
Theorem cast_nested_texts (E : Runtime) (s : string) (to e : type) :
  kind to = KSlice -> Elem to = Some e -> underlying e = TSlice tString ->
  DefaultCast E (text s) to =
  Returns (Some (VSlice to
                   (Some (map (fun p => VSlice e (Some [VString tString p]))
                            (Split s DefaultSeperator)))), None).
Proof.
  intros Hk He Hu.
  assert (kind e = KSlice) as Hke by (rewrite <- kind_underlying, Hu; reflexivity).
  assert (Elem e = Some tString) as Hee by (unfold Elem; rewrite Hu; reflexivity).
  rewrite DefaultCast_text, (castText_slice E to to s e Hk He), Hke.
  rewrite (castEntries_all E to e (Split s DefaultSeperator)
             (map (fun p => VSlice e (Some [VString tString p]))
                (Split s DefaultSeperator)) None).
  - destruct (Split_cons s DefaultSeperator) as (p & r & ->). reflexivity.
  - pose proof (Split_parts s DefaultSeperator) as Hparts.
    induction Hparts as [| p r Hp _ IH]; simpl; constructor; [| exact IH].
    exists (VSlice (TSlice tString) (Some [VString tString p])). split.
    + rewrite DefaultCast_text, (castText_slice E e e p tString Hke Hee).
      simpl. rewrite (Split_whole p _ Hp). reflexivity.
    + unfold assignTo, directlyAssignable. simpl TypeOf.
      destruct (type_eqb e (TSlice tString)); [reflexivity |].
      rewrite Hke, Hu. simpl.
      replace (HasName e && false) with false by (destruct (HasName e); reflexivity).
      reflexivity.
Qed.

Lemma cast_nested_texts_witness :
  DefaultCast Example.runtime (text "a,b") (TSlice (TSlice tString)) =
  Returns (Some (VSlice (TSlice (TSlice tString))
                   (Some [VSlice (TSlice tString) (Some [VString tString "a"]);
                          VSlice (TSlice tString) (Some [VString tString "b"])])),
           None).
Proof.
  exact (cast_nested_texts Example.runtime "a,b" (TSlice (TSlice tString))
           (TSlice tString) eq_refl eq_refl eq_refl).
Defined.

(** A text with an empty part (the empty text, a comma at an end, two
    commas in a row) is never cast to a slice with elements of an
    integer kind: the cast panics or returns an error. *)
Theorem cast_numbers_empty_part (E : Runtime) (s : string) (to e : type) :
  kind to = KSlice -> Elem to = Some e ->
  signedKind (kind e) || unsignedKind (kind e) = true ->
  EmptyString ∈ Split s DefaultSeperator ->
  DefaultCast E (text s) to = Panics \/
  exists x err, DefaultCast E (text s) to = Returns (x, Some err).
Proof.
  intros Hk He Hke Hin.
  destruct (DefaultCast E (text s) to) as [[x [err |]] |] eqn:H;
    [right; eauto | exfalso | left; reflexivity].
  rewrite DefaultCast_text, (castText_slice E to to s e Hk He) in H.
  assert (castEntries E to e (castText E e e) (Split s DefaultSeperator) None
          = Returns (x, None)) as H'.
  { destruct (kind e); try discriminate; exact H. }
  apply castEntries_success in H'.
  rewrite Forall_forall in H'. destruct (H' _ Hin) as [y Hy].
  rewrite castText_integer in Hy by assumption.
  destruct (kind e); try discriminate.
Qed.

Lemma cast_numbers_empty_part_witness :
  DefaultCast Example.runtime (text "1,") (TSlice tInt) = Panics \/
  exists x err,
    DefaultCast Example.runtime (text "1,") (TSlice tInt) = Returns (x, Some err).
Proof.
  refine (cast_numbers_empty_part Example.runtime "1," (TSlice tInt) tInt
            eq_refl eq_refl eq_refl _).
  apply list_elem_of_In. right. left. reflexivity.
Defined.

(** ** The errors of [Decode] *)

(** The error of an [UnmarshalString] method is two [Unwrap]s away from
    the error of [Decode]: a source whose [Cast] is [DefaultCast], the
    loop at a field of a type with the method and no case of its own,
    a text for it that the method refuses with [e].  [Decode] returns
    the [CastError] around the [UnmarshalerError] of [e], the text and
    the type of the field; [Unwrap] of the one gives the other, and
    [Unwrap] of that gives [e]; the record stays as the fields before
    left it. *)
Theorem unmarshaler_failure_unwraps (E : Runtime) (d : Decoder) (rt : type)
  (pre : list StructField) (f : StructField) (post : list StructField)
  (vals mid : list value) (tag s : string) (u : value) (e : error) :
  underlying rt = TStruct (pre ++ f :: post) ->
  Cast (getter d) = Some (DefaultCast E) ->
  decodeFields E d rt 0 pre vals = (Continue, mid) ->
  lookedUp d f (VString tString s) ->
  Lookup (Tag f) (key d) = Some tag ->
  AssignableTo E tString (Type_ f) = false ->
  builtinKind (kind (Type_ f)) = false ->
  UnmarshalString ∈ MethodSet E (TPointer (Type_ f)) ->
  CallUnmarshalString E (Type_ f) s (Zero (Type_ f)) = (u, Some e) ->
  Decode E d (record rt vals) =
    (Returns (Some (CastError (UnmarshalerError e s (Type_ f)))), record rt mid) /\
  Unwrap (CastError (UnmarshalerError e s (Type_ f))) =
    Some (UnmarshalerError e s (Type_ f)) /\
  Unwrap (UnmarshalerError e s (Type_ f)) = Some e.
Proof.
  intros Hu Hc Hpre (Hex & tag' & Htag' & Hget & Hnz) Htag Hna Hk Hm Hcall.
  rewrite Htag in Htag'. inversion Htag'; subst tag'.
  split; [| split; reflexivity].
  rewrite (Decode_record E d rt _ vals Hu), decodeFields_app, Hpre. simpl.
  unfold decodeField. rewrite Hex, Htag, Hget, Hnz. simpl TypeOf.
  rewrite Hna, Hc. simpl negb. cbv iota.
  change (Some (VString tString s)) with (text s).
  rewrite DefaultCast_text, castText_other by assumption.
  unfold castUnmarshaler.
  destruct (decide (UnmarshalString ∈ MethodSet E (TPointer (Type_ f))));
    [| contradiction].
  rewrite Hcall. reflexivity.
Qed.

Lemma unmarshaler_failure_unwraps_witness :
  Decode Example.runtime (Example.decoder [("code", " x")])
    (record (TNamed "main" "Coded"
               (TStruct [mkStructField "Code" "" [("query", "code")] Example.Code]))
       [VString Example.Code "old"]) =
  (Returns (Some (CastError (UnmarshalerError (UserError "blank code") " x"
                               Example.Code))),
   record (TNamed "main" "Coded"
             (TStruct [mkStructField "Code" "" [("query", "code")] Example.Code]))
     [VString Example.Code "old"]) /\
  Unwrap (CastError (UnmarshalerError (UserError "blank code") " x" Example.Code)) =
    Some (UnmarshalerError (UserError "blank code") " x" Example.Code) /\
  Unwrap (UnmarshalerError (UserError "blank code") " x" Example.Code) =
    Some (UserError "blank code").
Proof.
  refine (unmarshaler_failure_unwraps Example.runtime
            (Example.decoder [("code", " x")])
            (TNamed "main" "Coded"
               (TStruct [mkStructField "Code" "" [("query", "code")] Example.Code]))
            [] (mkStructField "Code" "" [("query", "code")] Example.Code) []
            [VString Example.Code "old"] [VString Example.Code "old"]
            "code" " x" (Zero Example.Code) (UserError "blank code")
            eq_refl eq_refl eq_refl _ eq_refl eq_refl eq_refl _ eq_refl).
  - split; [reflexivity |]. exists "code"%string. repeat split; reflexivity.
  - vm_compute. apply list_elem_of_In. left. reflexivity.
Defined.

Lemma Kind_eqb_neq a b : a <> b -> Kind_eqb a b = false.
Proof.
  intros H. destruct (Kind_eqb a b) eqn:Heq; [| reflexivity].
  apply Kind_eqb_eq in Heq. contradiction.
Qed.

(** What the error says for the targets that [Decode] describes as they
    are: nil; a value that is no pointer, with its type; a nil pointer
    to a record, with the type of the pointer. *)
Theorem invalid_target_messages (E : Runtime) (d : Decoder) :
  (exists ty, Decode E d None = (Returns (Some (InvalidUnmarshalError ty)), None) /\
     InvalidUnmarshalError_Error ty = "structd: Unmarshal(nil)"%string) /\
  (forall rv, kind (TypeOf rv) <> KPointer ->
     exists ty,
       Decode E d (Some rv) = (Returns (Some (InvalidUnmarshalError ty)), Some rv) /\
       InvalidUnmarshalError_Error ty =
       ("structd: Unmarshal(non-pointer " ++ type_String (TypeOf rv) ++ ")")%string) /\
  (forall pt e, kind pt = KPointer -> Elem pt = Some e -> kind e = KStruct ->
     exists ty,
       Decode E d (Some (VPointer pt None)) =
         (Returns (Some (InvalidUnmarshalError ty)), Some (VPointer pt None)) /\
       InvalidUnmarshalError_Error ty =
       ("structd: Unmarshal(nil " ++ type_String pt ++ ")")%string).
Proof.
  split; [| split].
  - eexists. split; reflexivity.
  - intros rv Hk. exists (Some (TypeOf rv)). unfold Decode, InvalidUnmarshalError_Error.
    rewrite (Kind_eqb_neq _ _ Hk). split; reflexivity.
  - intros pt e Hk He Hke. exists (Some pt).
    unfold Decode, InvalidUnmarshalError_Error. simpl.
    rewrite Hk, He, Hke. split; reflexivity.
Qed.

Lemma invalid_target_messages_witness :
  exists ty,
    Decode Example.runtime (Example.decoder [])
      (Some (VPointer (TPointer Example.Params) None)) =
      (Returns (Some (InvalidUnmarshalError ty)),
       Some (VPointer (TPointer Example.Params) None)) /\
    InvalidUnmarshalError_Error ty = "structd: Unmarshal(nil *main.Params)"%string.
Proof.
  exact (proj2 (proj2 (invalid_target_messages Example.runtime (Example.decoder [])))
           (TPointer Example.Params) Example.Params eq_refl eq_refl eq_refl).
Defined.

(** ** The pipe *)

Section PipeFacts.

Lemma Pipe_Scan_app_eq (a b : list Scanner) : forall v,
  Pipe_Scan (a ++ b) v =
  match Pipe_Scan a v with
  | (Returns None, v') => Pipe_Scan b v'
  | stop => stop
  end.
Proof.
  induction a as [| s a IH]; intros v; simpl; [reflexivity |].
  destruct (s v) as [[[err |] |] v']; try reflexivity. apply IH.
Qed.

(** A pipe of decoders on a record ends with the record, of the same
    type and with as many fields, and a field that every decoder of
    the pipe passes over holds what it held. *)
Lemma Pipe_decoders E rt fields (ds : list Decoder) :
  underlying rt = TStruct fields ->
  forall vals, exists out vals',
    Pipe_Scan (map (Decode E) ds) (record rt vals) = (out, record rt vals') /\
    length vals' = length vals /\
    forall i f, fields !! i = Some f -> Forall (fun d => passedOver d f) ds ->
      vals' !! i = vals !! i.
Proof.
  intros Hu. induction ds as [| d ds IH]; intros vals; cbn [Pipe_Scan map].
  - eexists _, vals. split; [reflexivity |]. auto.
  - rewrite (Decode_record E d rt fields vals Hu).
    destruct (decodeFields E d rt 0 fields vals) as [fl v1] eqn:Hloop.
    pose proof (decodeFields_frame E d rt fields 0 vals fl v1 Hloop) as [Hl _].
    assert (forall i f, fields !! i = Some f -> passedOver d f ->
              v1 !! i = vals !! i) as Hkeep.
    { intros i f Hf Hp.
      apply (decodeFields_skipped E d rt fields 0 i f vals fl v1 Hf); [| exact Hloop].
      intros j vs. apply decodeField_passedOver. exact Hp. }
    destruct fl as [| [err |] |].
    + destruct (IH v1) as (out & v2 & HP & Hl2 & Hk2).
      exists out, v2. split; [exact HP |]. split; [congruence |].
      intros i f Hf Hall. inversion Hall; subst.
      rewrite (Hk2 i f Hf) by assumption. eauto.
    + eexists _, v1. split; [reflexivity |]. split; [exact Hl |].
      intros i f Hf Hall. inversion Hall; subst. eauto.
    + destruct (IH v1) as (out & v2 & HP & Hl2 & Hk2).
      exists out, v2. split; [exact HP |]. split; [congruence |].
      intros i f Hf Hall. inversion Hall; subst.
      rewrite (Hk2 i f Hf) by assumption. eauto.
    + eexists _, v1. split; [reflexivity |]. split; [exact Hl |].
      intros i f Hf Hall. inversion Hall; subst. eauto.
Qed.

End PipeFacts.

(** A pipe of two runs of scanners is the first run, followed by the
    second when the first returns nil; when the first run ends with an
    error or a panic, that is how the pipe ends and no scanner of the
    second run is called. *)
Theorem pipe_of_pipes (a b : list Scanner) (v : any) :
  Pipe_Scan (a ++ b) v =
  match Pipe_Scan a v with
  | (Returns None, v') => Pipe_Scan b v'
  | stop => stop
  end.
Proof. apply Pipe_Scan_app_eq. Qed.

(** In a pipe of decoders, what the earlier decoders put into a field
    of the record stays when the later ones have nothing for it:
    whatever the pipe returns, the field holds what it held after the
    run of the earlier ones. *)
Theorem pipe_keeps_earlier_values (E : Runtime) (ds1 ds2 : list Decoder)
  (rt : type) (fields : list StructField) (vals : list value) (i : nat)
  (f : StructField) :
  underlying rt = TStruct fields ->
  fields !! i = Some f ->
  Forall (fun d => passedOver d f) ds2 ->
  exists out1 v1 out v2,
    Pipe_Scan (map (Decode E) ds1) (record rt vals) = (out1, record rt v1) /\
    Pipe_Scan (map (Decode E) (ds1 ++ ds2)) (record rt vals) = (out, record rt v2) /\
    v2 !! i = v1 !! i.
Proof.
  intros Hu Hf Hall.
  destruct (Pipe_decoders E rt fields ds1 Hu vals) as (out1 & v1 & H1 & _ & _).
  destruct (Pipe_decoders E rt fields ds2 Hu v1) as (out2 & v2 & H2 & _ & Hk).
  rewrite map_app, Pipe_Scan_app_eq, H1.
  destruct out1 as [[err |] |].
  - exists (Returns (Some err)), v1, (Returns (Some err)), v1. auto.
  - exists (Returns None), v1, out2, v2. split; [reflexivity |].
    split; [exact H2 | eauto].
  - exists Panics, v1, Panics, v1. auto.
Qed.

Lemma pipe_keeps_earlier_values_witness :
  exists out1 v1 out v2,
    Pipe_Scan (map (Decode Example.runtime)
                 [New (Query Example.runtime [("page", "2")]) "query"])
      (pointerTo (Zero Example.TestParams)) = (out1, record Example.TestParams v1) /\
    Pipe_Scan (map (Decode Example.runtime)
                 ([New (Query Example.runtime [("page", "2")]) "query"] ++
                  [New (Form Example.runtime [("numbers", "6")]) "form"]))
      (pointerTo (Zero Example.TestParams)) = (out, record Example.TestParams v2) /\
    v2 !! 0%nat = v1 !! 0%nat.
Proof.
  refine (pipe_keeps_earlier_values Example.runtime
            [New (Query Example.runtime [("page", "2")]) "query"]
            [New (Form Example.runtime [("numbers", "6")]) "form"]
            Example.TestParams _ _ 0%nat _ eq_refl eq_refl _).
  constructor; [| constructor].
  right. right. exists "page"%string. split; [reflexivity |].
  right. exists (VString tString ""). split; reflexivity.
Defined.

(** ** The scanners *)

Section ScanFacts.

Variable E : Runtime.

Lemma assignTo_Some ft v :
  AssignableTo E (TypeOf v) ft = true -> exists v', assignTo E ft v = Some v'.
Proof.
  intros Ha. destruct (assignTo E ft v) as [v' |] eqn:Hv; [eauto |].
  apply assignTo_None in Hv. congruence.
Qed.

Lemma found_None d f : found d f = None <-> passedOver d f.
Proof.
  unfold found, passedOver. split.
  - destruct (IsExported f); [| auto].
    destruct (Lookup (Tag f) (key d)) as [tag |]; [| auto].
    destruct (Get (getter d) tag) as [x |] eqn:Hget; [| eauto 10].
    destruct (IsZero x) eqn:Hz; [eauto 10 | discriminate].
  - intros [-> | [-> | (tag & -> & [-> | (x & -> & ->)])]];
      try reflexivity; destruct (IsExported f); reflexivity.
Qed.

Lemma found_Some d f x : found d f = Some x <-> lookedUp d f x.
Proof.
  unfold found, lookedUp. split.
  - destruct (IsExported f); [| discriminate].
    destruct (Lookup (Tag f) (key d)) as [tag |]; [| discriminate].
    destruct (Get (getter d) tag) as [y |] eqn:Hget; [| discriminate].
    destruct (IsZero y) eqn:Hz; [discriminate |].
    intros [= ->]. eauto 10.
  - intros (-> & tag & -> & -> & ->). reflexivity.
Qed.

(** The turn of a field without [Cast]: it goes on, or it leaves
    [Decode] with an [UnmarshalTypeError]. *)
Lemma decodeField_without_cast d rt i f vals fl vals' :
  Cast (getter d) = None ->
  decodeField E d rt i f vals = (fl, vals') ->
  fl = Continue \/
  exists x, lookedUp d f x /\ AssignableTo E (TypeOf x) (Type_ f) = false /\
    fl = Return (Some (UnmarshalTypeError (type_Name (TypeOf x)) (Type_ f)
                         (type_Name rt) (Name f))).
Proof.
  intros Hc. unfold decodeField, lookedUp.
  destruct (IsExported f) eqn:Hex; simpl; [| intros [= <- _]; auto].
  destruct (Lookup (Tag f) (key d)) as [tag |] eqn:Htag; [| intros [= <- _]; auto].
  destruct (Get (getter d) tag) as [x |] eqn:Hget; [| intros [= <- _]; auto].
  destruct (IsZero x) eqn:Hz; [intros [= <- _]; auto |].
  destruct (AssignableTo E (TypeOf x) (Type_ f)) eqn:Ha; simpl.
  - unfold Set_. destruct (assignTo_Some _ _ Ha) as [v' ->]. intros [= <- _]. auto.
  - rewrite Hc. intros [= <- _]. right. exists x. eauto 10.
Qed.

Lemma Decode_without_cast d rt fields vals :
  underlying rt = TStruct fields -> Cast (getter d) = None ->
  exists out vals',
    Decode E d (record rt vals) = (Returns out, record rt vals') /\
    (out = None \/
     exists f x, f ∈ fields /\ lookedUp d f x /\
       AssignableTo E (TypeOf x) (Type_ f) = false /\
       out = Some (UnmarshalTypeError (type_Name (TypeOf x)) (Type_ f)
                     (type_Name rt) (Name f))).
Proof.
  intros Hu Hc. rewrite (Decode_record E d rt fields vals Hu).
  assert (forall i vs, exists out vs',
            (let '(fl, vals') := decodeFields E d rt i fields vs in
             (match fl with
              | Continue => Returns None
              | Return err => Returns err
              | Panicked => Panics
              end, record rt vals')) = (Returns out, record rt vs') /\
            (out = None \/
             exists f x, f ∈ fields /\ lookedUp d f x /\
               AssignableTo E (TypeOf x) (Type_ f) = false /\
               out = Some (UnmarshalTypeError (type_Name (TypeOf x)) (Type_ f)
                             (type_Name rt) (Name f)))) as Hloop.
  { clear Hu. induction fields as [| f rest IH]; intros i vs; simpl.
    - exists None, vs. auto.
    - destruct (decodeField E d rt i f vs) as [fl v1] eqn:H1.
      destruct (decodeField_without_cast d rt i f vs fl v1 Hc H1)
        as [-> | (x & Hx & Ha & ->)].
      + destruct (IH (S i) v1) as (out & vs' & Hd & Hout).
        exists out, vs'. split; [exact Hd |].
        destruct Hout as [-> | (g & x & Hg & Hrest)]; [auto |].
        right. exists g, x. split; [right; exact Hg | exact Hrest].
      + eexists _, v1. split; [reflexivity |].
        right. exists f, x. split; [left | auto]. }
  apply Hloop.
Qed.

(** [Decode] on a record with one field to look up is the turn of that
    field. *)
Lemma Decode_onlyField d rt fields vals i f :
  underlying rt = TStruct fields -> fields !! i = Some f ->
  onlyField (key d) fields i ->
  Decode E d (record rt vals) =
  let '(fl, vals') := decodeField E d rt i f vals in
  (match fl with
   | Continue => Returns None
   | Return err => Returns err
   | Panicked => Panics
   end, record rt vals').
Proof.
  intros Hu Hf Honly. rewrite (Decode_record E d rt fields vals Hu).
  assert (Forall (passedOver d) (take i fields)) as Hpre.
  { apply Forall_lookup_2. intros j g Hj.
    apply lookup_take_Some in Hj as [Hj Hlt].
    destruct (Honly j g Hj ltac:(lia)) as [H | H]; unfold passedOver; auto. }
  assert (Forall (passedOver d) (drop (S i) fields)) as Hpost.
  { apply Forall_lookup_2. intros j g Hj. rewrite lookup_drop in Hj.
    destruct (Honly _ g Hj ltac:(lia)) as [H | H]; unfold passedOver; auto. }
  rewrite <- (take_drop_middle fields i f Hf) at 1.
  rewrite decodeFields_app, decodeFields_passedOver by assumption.
  assert (length (take i fields) = i) as ->.
  { rewrite length_take. apply lookup_lt_Some in Hf. lia. }
  simpl. destruct (decodeField E d rt i f vals) as [[| err |] v1]; try reflexivity.
  rewrite decodeFields_passedOver by assumption. reflexivity.
Qed.

(** [Decode] up to the first field to look up. *)
Lemma Decode_first d rt pre f post vals :
  underlying rt = TStruct (pre ++ f :: post) -> notRead (key d) pre ->
  forall fl, fl <> Continue ->
    decodeField E d rt (length pre) f vals = (fl, vals) ->
    Decode E d (record rt vals) =
    (match fl with
     | Continue => Returns None
     | Return err => Returns err
     | Panicked => Panics
     end, record rt vals).
Proof.
  intros Hu Hpre fl Hfl Hturn. rewrite (Decode_record E d rt _ vals Hu).
  rewrite decodeFields_app, decodeFields_passedOver.
  - simpl. rewrite Hturn. destruct fl; [congruence | reflexivity | reflexivity].
  - eapply Forall_impl; [exact Hpre |]. intros g [Hg | Hg]; unfold passedOver; auto.
Qed.

(** A source of texts on a record whose fields to look up are strings. *)
Lemma decodeFields_texts d rt fs :
  textSource d ->
  (forall f, f ∈ fs -> IsExported f = true -> Lookup (Tag f) (key d) <> None ->
     Type_ f = tString) ->
  forall i vals, (i + length fs <= length vals)%nat ->
    exists vals',
      decodeFields E d rt i fs vals = (Continue, vals') /\
      length vals' = length vals /\
      (forall j, (j < i)%nat -> vals' !! j = vals !! j) /\
      forall k f, fs !! k = Some f ->
        vals' !! (i + k)%nat =
        match found d f with Some x => Some x | None => vals !! (i + k)%nat end.
Proof.
  intros Hsrc. induction fs as [| f rest IH]; intros Hty i vals Hlen; simpl in *.
  - exists vals. repeat split; auto. intros k f Hk. discriminate.
  - assert (decodeField E d rt i f vals =
            (Continue, match found d f with
                       | Some x => <[i := x]> vals
                       | None => vals
                       end)) as Hturn.
    { unfold decodeField, found.
      destruct (IsExported f) eqn:Hex; simpl; [| reflexivity].
      destruct (Lookup (Tag f) (key d)) as [tag |] eqn:Htag; [| reflexivity].
      destruct (Get (getter d) tag) as [x |] eqn:Hget; [| reflexivity].
      destruct (IsZero x) eqn:Hz; [reflexivity |].
      destruct (Hsrc tag x Hget) as [s ->].
      rewrite (Hty f) by (try left; congruence). reflexivity. }
    rewrite Hturn.
    destruct (IH ltac:(intros g Hg; apply Hty; right; exact Hg) (S i)
                (match found d f with Some x => <[i := x]> vals | None => vals end))
      as (vals' & Hd & Hl & Hlow & Hk).
    { destruct (found d f); rewrite ?length_insert; lia. }
    exists vals'. split; [exact Hd |].
    assert (length (match found d f with Some x => <[i := x]> vals | None => vals end)
            = length vals) as Hl1
      by (destruct (found d f); rewrite ?length_insert; reflexivity).
    split; [congruence |]. split.
    + intros j Hj. rewrite Hlow by lia.
      destruct (found d f); [apply list_lookup_insert_ne; lia | reflexivity].
    + intros [| k] g Hg; simpl in Hg.
      * inversion Hg; subst g. replace (i + 0)%nat with i by lia.
        rewrite Hlow by lia.
        destruct (found d f); [apply list_lookup_insert_eq; lia | reflexivity].
      * replace (i + S k)%nat with (S i + k)%nat by lia.
        rewrite (Hk k g Hg).
        destruct (found d g); [reflexivity |].
        destruct (found d f); [apply list_lookup_insert_ne; lia | reflexivity].
Qed.

Lemma Decode_texts d rt fields vals :
  underlying rt = TStruct fields -> length vals = length fields ->
  textSource d ->
  (forall f, f ∈ fields -> IsExported f = true -> Lookup (Tag f) (key d) <> None ->
     Type_ f = tString) ->
  exists vals',
    Decode E d (record rt vals) = (Returns None, record rt vals') /\
    length vals' = length vals /\
    forall i f, fields !! i = Some f ->
      vals' !! i = match found d f with Some x => Some x | None => vals !! i end.
Proof.
  intros Hu Hlen Hsrc Hty. rewrite (Decode_record E d rt fields vals Hu).
  destruct (decodeFields_texts d rt fields Hsrc Hty 0%nat vals ltac:(lia))
    as (vals' & -> & Hl & _ & Hk).
  exists vals'. split; [reflexivity |]. split; [exact Hl |].
  intros i f Hf. apply (Hk i f Hf).
Qed.

End ScanFacts.

Lemma Cookie_Get_text cookies key x :
  Cookie_Get cookies key = Some x -> exists s, x = VString tString s.
Proof.
  induction cookies as [| [n v] rest IH]; simpl; [discriminate |].
  destruct (decide (n = key)); [intros [= <-]; eauto | exact IH].
Qed.

Lemma stringOf_bytesOf (b : string) :
  stringOf (Some (map (fun c => VInt (TBasic KUint8) (byte c)) (list_ascii_of_string b)))
  = b.
Proof.
  unfold stringOf. simpl. rewrite map_map.
  rewrite <- (string_of_list_ascii_of_string b) at 2. f_equal.
  induction (list_ascii_of_string b) as [| c r IH]; simpl; [reflexivity |].
  rewrite IH. f_equal. unfold byte. rewrite N2Z.id. apply ascii_N_embedding.
Qed.

(** The loop of [MultipartValuesFromParser]: values or an error, never
    both and never neither, and the values have a file under the names
    of the call and under no other key. *)
Lemma formFiles_names {S : Type} (p : MultipartParser S) (names : list string) :
  forall (files : gmap string any) (st : S) (seen : list string),
    (forall key, is_Some (files !! key) <-> key ∈ seen) ->
    match fst (formFiles p names files st) with
    | (Some files', None) =>
        forall key, is_Some (files' !! key) <-> key ∈ (seen ++ names)%list
    | (None, Some _) => True
    | _ => False
    end.
Proof.
  induction names as [| name rest IH]; intros files st seen Hseen; simpl.
  - intros key. rewrite app_nil_r. apply Hseen.
  - destruct (FormFile p name st) as [[file [err |]] st']; simpl; [exact I |].
    specialize (IH (<[name := file]> files) st' (seen ++ [name])%list).
    rewrite <- app_assoc in IH. apply IH.
    intros key. rewrite lookup_insert_is_Some', elem_of_app, list_elem_of_singleton.
    rewrite Hseen. split; intros [H | H]; auto.
Qed.

(** ** The scanners without [Cast] *)

(** The scanners of headers, of cookies, of multipart files and of
    images have no [Cast].  On a record each of them returns, it does
    not panic, and what it returns is nil or an [UnmarshalTypeError]
    for an exported field whose lookup gave a value that is not
    assignable to it; the record keeps its type. *)
Theorem scanners_without_cast (E : Runtime) (canon : string -> string)
  (h : gmap string (list string)) (cookies : list (string * string))
  (Files : gmap string any) (decode : value -> any) (Images : gmap string value)
  (scan : Scanner)
  (rt : type) (fields : list StructField) (vals : list value) :
  underlying rt = TStruct fields ->
  scan ∈ [Header_Scan E canon h; Cookie_Scan E cookies; Multipart_Scan E Files;
          Image_Scan E decode Images] ->
  exists out vals',
    scan (record rt vals) = (Returns out, record rt vals') /\
    (out = None \/
     exists f vt, f ∈ fields /\ IsExported f = true /\
       out = Some (UnmarshalTypeError vt (Type_ f) (type_Name rt) (Name f))).
Proof.
  intros Hu Hscan.
  assert (exists g key, scan = Decode E (New g key) /\ Cast g = None)
    as (g & key & -> & Hc).
  { repeat (apply elem_of_cons in Hscan as [-> | Hscan]);
      [eexists _, _; split; reflexivity .. | apply elem_of_nil in Hscan as []]. }
  destruct (Decode_without_cast E (New g key) rt fields vals Hu Hc)
    as (out & vals' & HD & Hout).
  exists out, vals'. split; [exact HD |].
  destruct Hout as [-> | (f & x & Hf & (Hex & _) & _ & ->)]; [auto |].
  right. exists f, (type_Name (TypeOf x)). auto.
Qed.

Lemma scanners_without_cast_witness :
  exists out vals',
    Cookie_Scan Server.runtime [("token", "cookie-token")%string]
      (record Server.Params
         [VString tString ""; VString tString ""; VInterface Server.File None;
          VInterface Server.Image_ None; VString tString ""]) =
    (Returns out, record Server.Params vals') /\
    (out = None \/
     exists f vt,
       f ∈ [Server.fLanguage; Server.fToken; Server.fDocument; Server.fAvatar;
            Server.fLocalFile] /\ IsExported f = true /\
       out = Some (UnmarshalTypeError vt (Type_ f) "Params" (Name f))).
Proof.
  exact (scanners_without_cast Server.runtime Server.canon ∅
           [("token", "cookie-token")%string] ∅ Server.decode ∅
           (Cookie_Scan Server.runtime [("token", "cookie-token")%string])
           Server.Params _
           [VString tString ""; VString tString ""; VInterface Server.File None;
            VInterface Server.Image_ None; VString tString ""]
           eq_refl (list_elem_of_further _ _ _ (list_elem_of_here _ _))).
Defined.

(** [Header.Scan] on a record whose fields with a header tag are
    strings returns nil, and the record is then: such a field holds the
    first value of the header of its tag when there is one that is not
    empty, and every other field holds what it held. *)
Theorem header_scan_texts (E : Runtime) (canon : string -> string)
  (h : gmap string (list string)) (rt : type) (fields : list StructField)
  (vals : list value) :
  underlying rt = TStruct fields -> length vals = length fields ->
  (forall f, f ∈ fields -> IsExported f = true ->
     Lookup (Tag f) "header" <> None -> Type_ f = tString) ->
  exists vals',
    Header_Scan E canon h (record rt vals) = (Returns None, record rt vals') /\
    length vals' = length vals /\
    forall i f, fields !! i = Some f ->
      vals' !! i =
      match (if IsExported f then Lookup (Tag f) "header" else None) with
      | Some name =>
          if decide (Header_Get canon h name = ""%string) then vals !! i
          else Some (VString tString (Header_Get canon h name))
      | None => vals !! i
      end.
Proof.
  intros Hu Hlen Hty.
  destruct (Decode_texts E (New (Header canon h) "header") rt fields vals Hu Hlen)
    as (vals' & HD & Hl & Hk).
  - intros tag x [= <-]. eauto.
  - exact Hty.
  - exists vals'. split; [exact HD |]. split; [exact Hl |].
    intros i f Hf. rewrite (Hk i f Hf). unfold found. simpl.
    destruct (IsExported f); [| reflexivity].
    destruct (Lookup (Tag f) "header") as [name |]; [| reflexivity].
    destruct (decide (Header_Get canon h name = ""%string)); reflexivity.
Qed.

Lemma header_scan_texts_witness :
  exists vals',
    Header_Scan Server.runtime Server.canon {["Accept-Language"%string := ["en"%string]]}
      (record Server.Params
         [VString tString ""; VString tString "t"; VInterface Server.File None;
          VInterface Server.Image_ None; VString tString ""]) =
    (Returns None, record Server.Params vals') /\
    length vals' = 5%nat /\
    forall i f,
      [Server.fLanguage; Server.fToken; Server.fDocument; Server.fAvatar;
       Server.fLocalFile] !! i = Some f ->
      vals' !! i =
      match (if IsExported f then Lookup (Tag f) "header" else None) with
      | Some name =>
          if decide (Header_Get Server.canon
                       {["Accept-Language"%string := ["en"%string]]} name = ""%string)
          then [VString tString ""; VString tString "t"; VInterface Server.File None;
                VInterface Server.Image_ None; VString tString ""] !! i
          else Some (VString tString
                       (Header_Get Server.canon
                          {["Accept-Language"%string := ["en"%string]]} name))
      | None =>
          [VString tString ""; VString tString "t"; VInterface Server.File None;
           VInterface Server.Image_ None; VString tString ""] !! i
      end.
Proof.
  refine (header_scan_texts Server.runtime Server.canon
            {["Accept-Language"%string := ["en"%string]]} Server.Params _
            [VString tString ""; VString tString "t"; VInterface Server.File None;
             VInterface Server.Image_ None; VString tString ""]
            eq_refl eq_refl _).
  intros f Hf Hex Htag.
  repeat (apply elem_of_cons in Hf as [-> | Hf]);
    try reflexivity; try (exfalso; apply Htag; reflexivity).
  apply elem_of_nil in Hf as [].
Defined.

(** [Cookie.Get]: the value of the first cookie of the name in the list
    of the jar, also when that value is empty and a later cookie of the
    name has another one; nil exactly when no cookie has the name. *)
Theorem cookie_get_first (cookies : list (string * string)) (name : string) :
  (forall x, Cookie_Get cookies name = Some x <->
     exists pre val post,
       cookies = (pre ++ (name, val) :: post)%list /\ (name ∉ pre.*1) /\
       x = VString tString val) /\
  (Cookie_Get cookies name = None <-> name ∉ cookies.*1).
Proof.
  induction cookies as [| [n v] rest [IHs IHn]]; simpl.
  - split.
    + intros x. split; [discriminate |].
      intros (pre & val & post & H & _). destruct pre; discriminate.
    + split; [intros _; apply not_elem_of_nil | reflexivity].
  - destruct (decide (n = name)) as [-> | Hne].
    + split.
      * intros x. split.
        -- intros [= <-]. exists [], v, rest. split; [reflexivity |].
           split; [apply not_elem_of_nil | reflexivity].
        -- intros (pre & val & post & H & Hpre & ->).
           destruct pre as [| [n' v'] pre]; simpl in H.
           ++ congruence.
           ++ inversion H; subst. exfalso. apply Hpre. simpl. left.
      * split; [discriminate |]. intros H. exfalso. apply H. left.
    + split.
      * intros x. rewrite IHs. split.
        -- intros (pre & val & post & -> & Hpre & ->).
           exists ((n, v) :: pre), val, post. split; [reflexivity |].
           split; [| reflexivity]. simpl. rewrite not_elem_of_cons. auto.
        -- intros (pre & val & post & H & Hpre & ->).
           destruct pre as [| [n' v'] pre]; simpl in H.
           ++ congruence.
           ++ inversion H; subst. exists pre, val, post.
              split; [reflexivity |]. split; [| reflexivity].
              simpl in Hpre. rewrite not_elem_of_cons in Hpre. tauto.
      * rewrite IHn, not_elem_of_cons. split; [auto | tauto].
Qed.

(** [Cookie.Scan] on a record whose fields with a cookie tag are
    strings returns nil, and the record is then: such a field holds
    what [Cookie.Get] gives for its tag when that is not nil and not
    empty, and every other field holds what it held. *)
Theorem cookie_scan_texts (E : Runtime) (cookies : list (string * string))
  (rt : type) (fields : list StructField) (vals : list value) :
  underlying rt = TStruct fields -> length vals = length fields ->
  (forall f, f ∈ fields -> IsExported f = true ->
     Lookup (Tag f) "cookie" <> None -> Type_ f = tString) ->
  exists vals',
    Cookie_Scan E cookies (record rt vals) = (Returns None, record rt vals') /\
    length vals' = length vals /\
    forall i f, fields !! i = Some f ->
      vals' !! i =
      match (if IsExported f then Lookup (Tag f) "cookie" else None) with
      | Some name =>
          match Cookie_Get cookies name with
          | Some x => if IsZero x then vals !! i else Some x
          | None => vals !! i
          end
      | None => vals !! i
      end.
Proof.
  intros Hu Hlen Hty.
  destruct (Decode_texts E (New (Cookie cookies) "cookie") rt fields vals Hu Hlen)
    as (vals' & HD & Hl & Hk).
  - intros tag x Hx. simpl in Hx.
    apply Cookie_Get_text in Hx. exact Hx.
  - exact Hty.
  - exists vals'. split; [exact HD |]. split; [exact Hl |].
    intros i f Hf. rewrite (Hk i f Hf). unfold found. simpl.
    destruct (IsExported f); [| reflexivity].
    destruct (Lookup (Tag f) "cookie") as [name |]; [| reflexivity].
    destruct (Cookie_Get cookies name) as [x |]; [| reflexivity].
    destruct (IsZero x); reflexivity.
Qed.

Lemma cookie_scan_texts_witness :
  exists vals',
    Cookie_Scan Server.runtime
      [("token", "")%string; ("token", "late")%string; ("lang", "en")%string]
      (record Server.Params
         [VString tString ""; VString tString "mine"; VInterface Server.File None;
          VInterface Server.Image_ None; VString tString ""]) =
    (Returns None, record Server.Params vals') /\
    length vals' = 5%nat /\
    forall i f,
      [Server.fLanguage; Server.fToken; Server.fDocument; Server.fAvatar;
       Server.fLocalFile] !! i = Some f ->
      vals' !! i =
      match (if IsExported f then Lookup (Tag f) "cookie" else None) with
      | Some name =>
          match Cookie_Get
                  [("token", "")%string; ("token", "late")%string; ("lang", "en")%string]
                  name with
          | Some x =>
              if IsZero x
              then [VString tString ""; VString tString "mine";
                    VInterface Server.File None; VInterface Server.Image_ None;
                    VString tString ""] !! i
              else Some x
          | None =>
              [VString tString ""; VString tString "mine"; VInterface Server.File None;
               VInterface Server.Image_ None; VString tString ""] !! i
          end
      | None =>
          [VString tString ""; VString tString "mine"; VInterface Server.File None;
           VInterface Server.Image_ None; VString tString ""] !! i
      end.
Proof.
  refine (cookie_scan_texts Server.runtime
            [("token", "")%string; ("token", "late")%string; ("lang", "en")%string]
            Server.Params _
            [VString tString ""; VString tString "mine"; VInterface Server.File None;
             VInterface Server.Image_ None; VString tString ""]
            eq_refl eq_refl _).
  intros f Hf Hex Htag.
  repeat (apply elem_of_cons in Hf as [-> | Hf]);
    try reflexivity; try (exfalso; apply Htag; reflexivity).
  apply elem_of_nil in Hf as [].
Defined.

(** ** The scanner of a directory *)

Section DirectoryFacts.

Variable E : Runtime.

Lemma type_eqb_kind a : forall b, type_eqb a b = true -> kind a = kind b.
Proof.
  induction a as [k | p n u IH | e _ | e _ | fs | ms | k r]; intros b;
    destruct b; simpl; try discriminate; try reflexivity.
  - apply Kind_eqb_eq.
  - intros H. apply andb_true_iff in H as [_ H]. apply IH. exact H.
  - intros H. apply andb_true_iff in H as [H _]. apply Kind_eqb_eq. exact H.
Qed.

Lemma not_interface t : kind t <> KInterface -> forall V, implements E t V = false.
Proof.
  intros Hk V. unfold implements.
  destruct (underlying t) eqn:Hu; try reflexivity.
  exfalso. apply Hk. rewrite <- kind_underlying, Hu. reflexivity.
Qed.

Lemma not_assignable_kind t u :
  kind t <> kind u -> kind u <> KInterface -> AssignableTo E t u = false.
Proof.
  intros Hk Hi. unfold AssignableTo, directlyAssignable.
  rewrite (not_interface u Hi).
  destruct (type_eqb u t) eqn:Heq.
  - apply type_eqb_kind in Heq. congruence.
  - rewrite (Kind_eqb_neq (kind u) (kind t)) by congruence.
    simpl. rewrite orb_true_r. reflexivity.
Qed.

(** The turn of a field for which the directory is asked. *)
Lemma decodeField_Directory files rt i f vals name :
  IsExported f = true -> Lookup (Tag f) "file" = Some name ->
  AssignableTo E tBytes (Type_ f) = false ->
  decodeField E (New (Directory files) "file") rt i f vals =
  match Directory_Cast (Some (bytesOf (default ""%string (files !! name)))) (Type_ f) with
  | Panics => (Panicked, vals)
  | Returns (casted, Some err) => (Return (Some (CastError err)), vals)
  | Returns (casted, None) => Set_ E i (Type_ f) casted vals
  end.
Proof.
  intros Hex Htag Hna. unfold decodeField. rewrite Hex. simpl. rewrite Htag.
  unfold Directory_Get.
  destruct (files !! name) as [content |]; simpl; rewrite Hna; simpl;
    match goal with
    | |- context [Directory_Cast ?a ?b] =>
        destruct (Directory_Cast a b) as [[casted [err |]] |]
    end; reflexivity.
Qed.

Lemma Directory_Cast_bytes b to :
  kind to = KString ->
  Directory_Cast (Some (bytesOf b)) to = Returns (Some (VString tString b), None).
Proof.
  intros Hk. unfold Directory_Cast, bytesOf. rewrite Hk. simpl.
  rewrite stringOf_bytesOf. reflexivity.
Qed.

Lemma Directory_Cast_other from to :
  kind to <> KString -> Directory_Cast from to = Returns (None, Some ErrUnsupported).
Proof.
  intros Hk. unfold Directory_Cast. rewrite (Kind_eqb_neq _ _ Hk). reflexivity.
Qed.

End DirectoryFacts.

(** [Directory.Cast]: the bytes of a [[]byte] come back as the text of
    these bytes for every target of string kind; for that target nil
    and a slice of another type with elements of kind [uint8] make it
    panic; all else (another target, or a value that is no slice of
    such elements) is refused with [errors.ErrUnsupported]. *)
Theorem directory_cast (to : type) :
  (kind to = KString ->
   (forall b, Directory_Cast (Some (bytesOf b)) to = Returns (text b, None)) /\
   Directory_Cast None to = Panics /\
   (forall t elems e, kind t = KSlice -> Elem t = Some e -> kind e = KUint8 ->
      t <> tBytes -> Directory_Cast (Some (VSlice t elems)) to = Panics) /\
   (forall v, kind (TypeOf v) <> KSlice \/
              (forall e, Elem (TypeOf v) = Some e -> kind e <> KUint8) ->
      Directory_Cast (Some v) to = Returns (None, Some ErrUnsupported))) /\
  (kind to <> KString ->
   forall from, Directory_Cast from to = Returns (None, Some ErrUnsupported)).
Proof.
  split.
  - intros Hk. split; [intros b; apply Directory_Cast_bytes; exact Hk |].
    unfold Directory_Cast. rewrite Hk. simpl. split; [reflexivity |]. split.
    + intros t elems e Ht He Hke Hne. rewrite Ht, He, Hke. simpl.
      destruct t as [k | p n u | el | el | fs | ms | k r]; try reflexivity.
      destruct el as [k | p n u | el | el | fs | ms | k r]; try reflexivity.
      destruct k; try reflexivity. contradiction.
    + intros v [Hv | Hv].
      * rewrite (Kind_eqb_neq _ _ Hv). reflexivity.
      * destruct (Kind_eqb (kind (TypeOf v)) KSlice); [| reflexivity].
        destruct (Elem (TypeOf v)) as [e |]; [| reflexivity].
        rewrite (Kind_eqb_neq _ _ (Hv e eq_refl)). reflexivity.
  - intros Hk from. apply Directory_Cast_other. exact Hk.
Qed.

(** [Directory.Scan] on a record with one field to look up, a string:
    it returns nil and the field holds the content of the file of its
    tag, and the empty text when the directory has no such file,
    whatever the field held. *)
Theorem directory_scan_text (E : Runtime) (files : gmap string string) (rt : type)
  (fields : list StructField) (vals : list value) (i : nat) (f : StructField)
  (name : string) :
  underlying rt = TStruct fields -> fields !! i = Some f ->
  onlyField "file" fields i ->
  IsExported f = true -> Lookup (Tag f) "file" = Some name -> Type_ f = tString ->
  Directory_Scan E files (record rt vals) =
  (Returns None,
   record rt (<[i := VString tString (default ""%string (files !! name))]> vals)).
Proof.
  intros Hu Hf Honly Hex Htag Hty. unfold Directory_Scan.
  rewrite (Decode_onlyField E (New (Directory files) "file") rt fields vals i f Hu Hf
             Honly).
  rewrite (decodeField_Directory E files rt i f vals name Hex Htag)
    by (rewrite Hty; reflexivity).
  rewrite Directory_Cast_bytes by (rewrite Hty; reflexivity).
  rewrite Hty. reflexivity.
Qed.

Lemma directory_scan_text_witness :
  Directory_Scan Server.runtime {["local.txt"%string := "mock file"%string]}
    (record Server.Params
       [VString tString ""; VString tString ""; VInterface Server.File None;
        VInterface Server.Image_ None; VString tString ""]) =
  (Returns None,
   record Server.Params
     [VString tString ""; VString tString ""; VInterface Server.File None;
      VInterface Server.Image_ None; VString tString "mock file"]).
Proof.
  refine (directory_scan_text Server.runtime {["local.txt"%string := "mock file"%string]}
            Server.Params _
            [VString tString ""; VString tString ""; VInterface Server.File None;
             VInterface Server.Image_ None; VString tString ""]
            4%nat Server.fLocalFile "local.txt" eq_refl eq_refl _ eq_refl eq_refl eq_refl).
  intros j g Hg Hj.
  destruct j as [| [| [| [| [| j]]]]]; try discriminate; try contradiction;
    inversion Hg; subst g; right; reflexivity.
Defined.

(** [Directory.Scan] on a record whose first field to look up is not of
    string kind and does not take a [[]byte]: it returns a [CastError]
    around [errors.ErrUnsupported] and leaves the record as it was,
    whatever the directory holds, also without a file of the tag. *)
Theorem directory_scan_unsupported (E : Runtime) (files : gmap string string)
  (rt : type) (pre : list StructField) (f : StructField) (post : list StructField)
  (vals : list value) (name : string) :
  underlying rt = TStruct (pre ++ f :: post) -> notRead "file" pre ->
  IsExported f = true -> Lookup (Tag f) "file" = Some name ->
  kind (Type_ f) <> KString -> AssignableTo E tBytes (Type_ f) = false ->
  Directory_Scan E files (record rt vals) =
  (Returns (Some (CastError ErrUnsupported)), record rt vals).
Proof.
  intros Hu Hpre Hex Htag Hk Hna. unfold Directory_Scan.
  apply (Decode_first E (New (Directory files) "file") rt pre f post vals Hu Hpre
           (Return (Some (CastError ErrUnsupported)))); [discriminate |].
  rewrite (decodeField_Directory E files rt _ f vals name Hex Htag Hna).
  rewrite Directory_Cast_other by assumption. reflexivity.
Qed.

Lemma directory_scan_unsupported_witness :
  Directory_Scan Server.runtime {["name"%string := "n"%string]}
    (record Server.Sized [VInt tInt 3; VString tString "old"]) =
  (Returns (Some (CastError ErrUnsupported)),
   record Server.Sized [VInt tInt 3; VString tString "old"]).
Proof.
  refine (directory_scan_unsupported Server.runtime {["name"%string := "n"%string]}
            Server.Sized [] Server.fSized _ [VInt tInt 3; VString tString "old"]
            "size" eq_refl _ eq_refl eq_refl _ eq_refl).
  - constructor.
  - discriminate.
Defined.

(** [Directory.Scan] on a record whose first field to look up is of a
    defined type over [string]: [Cast] gives a [string], which the
    field does not take, and the call panics, whatever the directory
    holds. *)
Theorem directory_scan_defined_string (E : Runtime) (files : gmap string string)
  (rt : type) (pre : list StructField) (f : StructField) (post : list StructField)
  (vals : list value) (name pkg n : string) (u : type) :
  underlying rt = TStruct (pre ++ f :: post) -> notRead "file" pre ->
  IsExported f = true -> Lookup (Tag f) "file" = Some name ->
  Type_ f = TNamed pkg n u -> kind u = KString ->
  Directory_Scan E files (record rt vals) = (Panics, record rt vals).
Proof.
  intros Hu Hpre Hex Htag Hty Hk. unfold Directory_Scan.
  assert (kind (Type_ f) = KString) as Hkf by (rewrite Hty; exact Hk).
  apply (Decode_first E (New (Directory files) "file") rt pre f post vals Hu Hpre Panicked); [discriminate |].
  rewrite (decodeField_Directory E files rt _ f vals name Hex Htag)
    by (apply not_assignable_kind; rewrite Hkf; discriminate).
  rewrite Directory_Cast_bytes by assumption.
  unfold Set_, assignTo. rewrite Hty. simpl.
  rewrite not_interface by (simpl; rewrite Hk; discriminate). reflexivity.
Qed.

Lemma directory_scan_defined_string_witness :
  Directory_Scan Server.runtime {["title"%string := "t"%string]}
    (record Server.Titled [VString Example.Code "old"]) =
  (Panics, record Server.Titled [VString Example.Code "old"]).
Proof.
  refine (directory_scan_defined_string Server.runtime {["title"%string := "t"%string]}
            Server.Titled [] Server.fTitle _ [VString Example.Code "old"]
            "title" "main" "Code" tString eq_refl _ eq_refl eq_refl eq_refl eq_refl).
  constructor.
Defined.

(** ** Multipart files and images *)

(** [MultipartValuesFromParser] returns the values or an error, never
    both and never neither; the values have a file (which may be nil)
    under each name of the call and under no other key; and when
    [ParseMultipartForm] fails, its error is the error and [FormFile]
    is not called: the parser is left as [ParseMultipartForm] left
    it. *)
Theorem multipart_values_from_parser {S : Type} (p : MultipartParser S) (size : Z)
  (names : list string) (st : S) :
  match fst (MultipartValuesFromParser p size names st) with
  | (Some files, None) =>
      fst (ParseMultipartForm p size st) = None /\
      forall key, is_Some (files !! key) <-> key ∈ names
  | (None, Some err) =>
      match ParseMultipartForm p size st with
      | (Some err', st') =>
          MultipartValuesFromParser p size names st = ((None, Some err'), st')
      | (None, _) => True
      end
  | _ => False
  end.
Proof.
  unfold MultipartValuesFromParser.
  destruct (ParseMultipartForm p size st) as [[err |] st']; simpl; [reflexivity |].
  pose proof (formFiles_names p names ∅ st' []) as H. simpl in H.
  destruct (fst (formFiles p names ∅ st')) as [[files |] [err |]]; auto.
  - apply H. intros key. rewrite elem_of_nil. split; [| tauto].
    apply lookup_empty_is_Some.
  - split; [reflexivity |]. apply H. intros key. rewrite elem_of_nil.
    split; [| tauto]. apply lookup_empty_is_Some.
  - apply H. intros key. rewrite elem_of_nil. split; [| tauto].
    apply lookup_empty_is_Some.
Qed.

(** [Image.Scan] on a record with one field to look up: when there is
    no file under the tag, or [image.Decode] makes no image of the
    file, the scan returns nil and the record is as it was; the error
    of [image.Decode] is not reported. *)
Theorem image_scan_undecoded (E : Runtime) (decode : value -> any)
  (Files : gmap string value) (rt : type) (fields : list StructField)
  (vals : list value) (i : nat) (f : StructField) :
  underlying rt = TStruct fields -> fields !! i = Some f ->
  onlyField "image" fields i ->
  (forall name file, Lookup (Tag f) "image" = Some name ->
     Files !! name = Some file -> decode file = None) ->
  Image_Scan E decode Files (record rt vals) = (Returns None, record rt vals).
Proof.
  intros Hu Hf Honly Hno. unfold Image_Scan.
  rewrite (Decode_onlyField E (New (Image decode Files) "image") rt fields vals i f
             Hu Hf Honly).
  rewrite decodeField_passedOver; [reflexivity |].
  unfold passedOver. simpl.
  destruct (Lookup (Tag f) "image") as [name |] eqn:Htag; [| auto].
  right. right. exists name. split; [reflexivity |]. left.
  unfold Image_Get. destruct (Files !! name) as [file |] eqn:Hfile; [| reflexivity].
  apply (Hno name file eq_refl Hfile).
Qed.

Lemma image_scan_undecoded_witness :
  Image_Scan Server.runtime Server.decode
    {["avatar"%string := Server.document 0]}
    (record Server.Params
       [VString tString ""; VString tString ""; VInterface Server.File None;
        VInterface Server.Image_ None; VString tString ""]) =
  (Returns None,
   record Server.Params
     [VString tString ""; VString tString ""; VInterface Server.File None;
      VInterface Server.Image_ None; VString tString ""]).
Proof.
  refine (image_scan_undecoded Server.runtime Server.decode
            {["avatar"%string := Server.document 0]} Server.Params _
            [VString tString ""; VString tString ""; VInterface Server.File None;
             VInterface Server.Image_ None; VString tString ""]
            3%nat Server.fAvatar eq_refl eq_refl _ _).
  - intros j g Hg Hj.
    destruct j as [| [| [| [| [| j]]]]]; try discriminate; try contradiction;
      inversion Hg; subst g; right; reflexivity.
  - intros name file Htag Hfile. inversion Htag; subst name.
    vm_compute in Hfile. inversion Hfile; subst file. reflexivity.
Defined.

(** ** The errors of [Decode] on a record *)

Section ErrorFacts.

Variables (E : Runtime) (d : Decoder).

Lemma decodeField_error rt i f vals err vals' :
  decodeField E d rt i f vals = (Return err, vals') ->
  exists x, lookedUp d f x /\ AssignableTo E (TypeOf x) (Type_ f) = false /\
    match Cast (getter d) with
    | Some c =>
        exists casted e, c (Some x) (Type_ f) = Returns (casted, Some e) /\
                         err = Some (CastError e)
    | None =>
        err = Some (UnmarshalTypeError (type_Name (TypeOf x)) (Type_ f)
                      (type_Name rt) (Name f))
    end.
Proof.
  unfold decodeField, lookedUp, Set_.
  destruct (IsExported f) eqn:Hex; simpl; [| discriminate].
  destruct (Lookup (Tag f) (key d)) as [tag |] eqn:Htag; [| discriminate].
  destruct (Get (getter d) tag) as [x |] eqn:Hget; [| discriminate].
  destruct (IsZero x) eqn:Hz; [discriminate |].
  destruct (AssignableTo E (TypeOf x) (Type_ f)) eqn:Ha; simpl.
  - destruct (assignTo E (Type_ f) x); discriminate.
  - intros H. exists x. split; [eauto 10 |]. split; [exact Ha |].
    destruct (Cast (getter d)) as [c |]; [| inversion H; reflexivity].
    destruct (c (Some x) (Type_ f)) as [[casted [e |]] |]; try discriminate.
    + inversion H. eauto.
    + destruct casted as [v |]; [| discriminate].
      destruct (assignTo E (Type_ f) v); discriminate.
Qed.

Lemma decodeFields_error rt fs : forall i vals err vals',
  decodeFields E d rt i fs vals = (Return err, vals') ->
  exists f x, f ∈ fs /\ lookedUp d f x /\
    AssignableTo E (TypeOf x) (Type_ f) = false /\
    match Cast (getter d) with
    | Some c =>
        exists casted e, c (Some x) (Type_ f) = Returns (casted, Some e) /\
                         err = Some (CastError e)
    | None =>
        err = Some (UnmarshalTypeError (type_Name (TypeOf x)) (Type_ f)
                      (type_Name rt) (Name f))
    end.
Proof.
  induction fs as [| f rest IH]; intros i vals err vals'; simpl; [discriminate |].
  destruct (decodeField E d rt i f vals) as [[| e |] v1] eqn:H1.
  - intros H. destruct (IH _ _ _ _ H) as (g & x & Hg & Hrest).
    exists g, x. split; [right; exact Hg | exact Hrest].
  - intros [= <- _]. destruct (decodeField_error _ _ _ _ _ _ H1) as (x & Hx).
    exists f, x. split; [left | exact Hx].
  - discriminate.
Qed.

End ErrorFacts.

(** The errors that [Decode] returns on a record are of two sorts.
    With a source that has [Cast]: a [CastError] around the error that
    [Cast] returned for the value of a field, which [Unwrap] gives
    back.  With a source that has none: an [UnmarshalTypeError] for a
    field, whose text names the record type and the field.  In both
    cases the lookup of the field gave a value that is not zero and not
    assignable to the field. *)
Theorem decode_record_errors (E : Runtime) (d : Decoder) (rt : type)
  (fields : list StructField) (vals : list value) (err : error) (v' : any) :
  underlying rt = TStruct fields ->
  Forall (fun f => Name f <> ""%string) fields ->
  Decode E d (record rt vals) = (Returns (Some err), v') ->
  exists f x, f ∈ fields /\ lookedUp d f x /\
    AssignableTo E (TypeOf x) (Type_ f) = false /\
    match Cast (getter d) with
    | Some c =>
        exists casted e, c (Some x) (Type_ f) = Returns (casted, Some e) /\
                         err = CastError e /\ Unwrap err = Some e
    | None =>
        err = UnmarshalTypeError (type_Name (TypeOf x)) (Type_ f)
                (type_Name rt) (Name f) /\
        UnmarshalTypeError_Error (type_Name (TypeOf x)) (Type_ f)
          (type_Name rt) (Name f) =
        ("structd: cannot unmarshal " ++ type_Name (TypeOf x) ++
         " into Go struct field " ++ type_Name rt ++ "." ++ Name f ++
         " of type " ++ type_String (Type_ f))%string
    end.
Proof.
  intros Hu Hnames HD. rewrite (Decode_record E d rt fields vals Hu) in HD.
  destruct (decodeFields E d rt 0 fields vals) as [fl mid] eqn:Hloop.
  destruct fl as [| r |]; try discriminate.
  assert (r = Some err) as -> by (inversion HD; reflexivity).
  destruct (decodeFields_error E d rt fields _ _ _ _ Hloop) as (f & x & Hf & Hx & Ha & Herr).
  exists f, x. split; [exact Hf |]. split; [exact Hx |]. split; [exact Ha |].
  destruct (Cast (getter d)) as [c |].
  - destruct Herr as (casted & e & Hc & [= ->]). exists casted, e. auto.
  - inversion Herr; subst err. split; [reflexivity |].
    unfold UnmarshalTypeError_Error.
    rewrite Forall_forall in Hnames. specialize (Hnames f Hf).
    destruct (String.eqb (Name f) "") eqn:Heq;
      [apply String.eqb_eq in Heq; contradiction |].
    rewrite orb_true_r. reflexivity.
Qed.

Lemma decode_record_errors_witness :
  exists f x,
    f ∈ [Server.fCount] /\
    lookedUp (New (Cookie [("count", "3")%string]) "cookie") f x /\
    AssignableTo Server.runtime (TypeOf x) (Type_ f) = false /\
    UnmarshalTypeError "string" tInt "Session" "Count" =
      UnmarshalTypeError (type_Name (TypeOf x)) (Type_ f) "Session" (Name f) /\
    UnmarshalTypeError_Error (type_Name (TypeOf x)) (Type_ f) "Session" (Name f) =
    ("structd: cannot unmarshal " ++ type_Name (TypeOf x) ++
     " into Go struct field " ++ "Session" ++ "." ++ Name f ++
     " of type " ++ type_String (Type_ f))%string.
Proof.
  refine (decode_record_errors Server.runtime
            (New (Cookie [("count", "3")%string]) "cookie")
            Server.Session _ [VInt tInt 0]
            (UnmarshalTypeError "string" tInt "Session" "Count")
            _ eq_refl _ eq_refl).
  repeat constructor; discriminate.
Defined.

(** ** The tests of the package for the other scanners *)

Example TestHeaderScanner :
  Header_Scan Server.runtime Server.canon {["Accept-Language"%string := ["en"%string]]}
    (pointerTo (Zero Server.Params)) =
  (Returns None,
   record Server.Params
     [VString tString "en"; VString tString ""; VInterface Server.File None;
      VInterface Server.Image_ None; VString tString ""]).
Proof. vm_compute. reflexivity. Qed.

Example TestCookieScanner :
  Cookie_Scan Server.runtime [("token", "cookie-token")%string]
    (pointerTo (Zero Server.Params)) =
  (Returns None,
   record Server.Params
     [VString tString ""; VString tString "cookie-token"; VInterface Server.File None;
      VInterface Server.Image_ None; VString tString ""]).
Proof. vm_compute. reflexivity. Qed.

Example TestMultipartScanner :
  Multipart_Scan Server.runtime {["document"%string := Some (Server.document 0)]}
    (pointerTo (Zero Server.Params)) =
  (Returns None,
   record Server.Params
     [VString tString ""; VString tString "";
      VInterface Server.File (Some (Server.document 0));
      VInterface Server.Image_ None; VString tString ""]).
Proof. vm_compute. reflexivity. Qed.

Example TestImageScanner :
  Image_Scan Server.runtime Server.decode {["avatar"%string := Server.document 1]}
    (pointerTo (Zero Server.Params)) =
  (Returns None,
   record Server.Params
     [VString tString ""; VString tString ""; VInterface Server.File None;
      VInterface Server.Image_ (Some Server.picture); VString tString ""]).
Proof. vm_compute. reflexivity. Qed.

Example TestDirectoryScanner :
  Directory_Scan Server.runtime {["local.txt"%string := "mock file"%string]}
    (pointerTo (Zero Server.Params)) =
  (Returns None,
   record Server.Params
     [VString tString ""; VString tString ""; VInterface Server.File None;
      VInterface Server.Image_ None; VString tString "mock file"]).
Proof. vm_compute. reflexivity. Qed.

Example MultipartFromRequest :
  fst (MultipartValuesFromParser Server.request 32 ["document"%string] false) =
    (Some {["document"%string := Some (Server.document 0)]}, None) /\
  fst (MultipartValuesFromParser Server.request 32
         ["document"%string; "other"%string] false) =
    (None, Some (UserError "http: no such file")) /\
  MultipartValuesFromParser Server.request 8 ["document"%string] false =
    ((None, Some (UserError "multipart: message too large")), false).
Proof. repeat split; vm_compute; reflexivity. Qed.

(** The pipe of the readme. *)
Example ReadmePipe :
  Pipe_Scan
    [Query_Scan Server.runtime [("ids", "a,b")%string];
     Header_Scan Server.runtime Server.canon
       {["Accept-Language"%string := ["en"%string]]};
     Cookie_Scan Server.runtime [("token", "cookie-token")%string]]
    (pointerTo (Zero Server.Readme)) =
  (Returns None,
   record Server.Readme
     [VSlice (TSlice tString) (Some [VString tString "a"; VString tString "b"]);
      VString tString "en"; VString tString "cookie-token"]).
Proof. vm_compute. reflexivity. Qed.

(** A pipe of the query and the form scanners on the [Params] of the
    tests: the page of the form comes after the page of the query. *)
Example QueryThenForm :
  Pipe_Scan
    [Query_Scan Example.runtime [("page", "2")%string; ("done", "true")%string];
     Form_Scan Example.runtime [("page", "3")%string; ("numbers", "6,7,8")%string]]
    (pointerTo (Zero Example.TestParams)) =
  (Returns None,
   record Example.TestParams
     [VInt (TBasic KUint32) 3; VBool tBool true; Zero Example.Role;
      VSlice (TSlice Example.Role) None; VSlice (TSlice tString) None;
      VSlice (TSlice tInt) (Some [VInt tInt 6; VInt tInt 7; VInt tInt 8])]).
Proof. vm_compute. reflexivity. Qed.
